(** * classifiers.py: the three text classifiers and their training loop

    A shallow embedding of [src/classifiers.py].  Tensors carry their
    shape, their device and their entries; the arithmetic of the entries
    and the kernels of the learned layers belong to the tensor library and
    are an interface ([Torch]).  The training loop is a state-and-exception
    computation over the state of the collaborators it drives. *)

From Stdlib Require Import List ZArith QArith Lia Bool String Ascii Arith PeanoNat.
From Stdlib Require Import DecimalString RelationClasses.
From Stdlib Require Import Reals Lra.
Import ListNotations.

Set Implicit Arguments.
Local Open Scope string_scope.
Local Open Scope list_scope.
Local Open Scope nat_scope.

(* ================================================================== *)
(** ** Exceptions and results *)
(* ================================================================== *)

(** The exceptions a run can end with.  [RuntimeError] is what the tensor
    library raises on a shape or a device mismatch. *)
Inductive exn : Type :=
| ValueError (msg : string)
| IndexError
| TypeError
| AttributeError (attr : string)
| UnboundLocalError (var : string)
| ZeroDivisionError
| RuntimeError (msg : string).

Inductive result (A : Type) : Type :=
| Ok (a : A)
| Raise (e : exn).
Arguments Ok {A} a.
Arguments Raise {A} e.

Definition rbind {A B : Type} (c : result A) (k : A -> result B) : result B :=
  match c with
  | Ok a => k a
  | Raise e => Raise e
  end.

Notation "'let*' x ':=' c 'in' k" := (rbind c (fun x => k))
  (at level 10, x name, c at level 100, k at level 200).
Notation "'let*' ' p ':=' c 'in' k" := (rbind c (fun x => match x with p => k end))
  (at level 10, p strict pattern, c at level 100, k at level 200).

Definition is_ok {A : Type} (r : result A) : bool :=
  match r with Ok _ => true | Raise _ => false end.

(** [for x in l: ...] over a computation that may raise. *)
Fixpoint rmap {A B : Type} (f : A -> result B) (l : list A) : result (list B) :=
  match l with
  | [] => Ok []
  | a :: l' => let* b := f a in let* bs := rmap f l' in Ok (b :: bs)
  end.

(* ================================================================== *)
(** ** Tensors *)
(* ================================================================== *)

Inductive dev : Type := Cpu | Cuda.

Definition dev_eqb (a b : dev) : bool :=
  match a, b with
  | Cpu, Cpu | Cuda, Cuda => true
  | _, _ => false
  end.

(** The entries of a tensor, by multi-index. *)
Definition payload (S : Type) : Type := list nat -> S.

Record tensor (S : Type) : Type := mkTensor {
  shape : list nat;
  device : dev;
  data : payload S
}.
Arguments mkTensor {S} shape device data.

Definition numel (s : list nat) : nat := fold_right Nat.mul 1 s.

Definition list_eqb (s1 s2 : list nat) : bool :=
  if list_eq_dec Nat.eq_dec s1 s2 then true else false.

(** Every multi-index of a shape, in row-major order. *)
Fixpoint indices (s : list nat) : list (list nat) :=
  match s with
  | [] => [[]]
  | d :: s' => flat_map (fun i => map (cons i) (indices s')) (seq 0 d)
  end.

(** Row-major position of a multi-index, and back. *)
Fixpoint ravel (s idx : list nat) : nat :=
  match s, idx with
  | _ :: s', i :: idx' => i * numel s' + ravel s' idx'
  | _, _ => 0
  end.

Fixpoint unravel (s : list nat) (k : nat) : list nat :=
  match s with
  | [] => []
  | d :: s' => (k / numel s') mod d :: unravel s' (k mod numel s')
  end.

Definition remove_nth {A : Type} (k : nat) (l : list A) : list A :=
  firstn k l ++ skipn (S k) l.

Definition insert_nth {A : Type} (k : nat) (x : A) (l : list A) : list A :=
  firstn k l ++ x :: skipn k l.

(** What [CamembertModel.from_pretrained] finds in a checkpoint. *)
Record CamembertConfig : Type := mkCamembertConfig {
  vocab_size : nat;
  hidden_size : nat;
  num_hidden_layers : nat;
  num_attention_heads : nat;
  max_position_embeddings : nat
}.

(** The interface of the tensor library: the arithmetic of tensor entries
    and of Python floats, and the kernels of the learned layers and of the
    reductions, as functions of the parameter store [W] (the values of all
    parameters, their gradients and the random state).  A kernel receives
    the shapes of its arguments with their entries. *)
Class Torch (W S : Type) : Type := {
  s_zero : S;
  s_one : S;
  s_of_Z : Z -> S;
  s_to_Z : S -> Z;                      (* truncation, as [.long()] does *)
  s_add : S -> S -> S;
  s_div : S -> S -> S;                  (* IEEE division: never raises *)
  s_eq : S -> S -> S;                   (* one when equal, zero otherwise *)
  s_sigmoid : S -> S;
  s_relu : S -> S;
  embedding_k : string -> W -> list nat -> payload S -> payload S;
  lstm_k : string -> W -> bool -> list nat -> payload S ->
           payload S * payload S -> payload S * (payload S * payload S);
  dropout_k : W -> Q -> list nat -> payload S -> payload S;
  linear_k : string -> W -> list nat -> payload S -> payload S;
  conv2d_k : string -> W -> list nat -> payload S -> payload S;
  max_pool1d_k : nat -> list nat -> payload S -> payload S;
  encoder_k : string -> W -> bool -> list nat -> payload S -> payload S ->
              payload S * payload S * (nat -> payload S);
  encoder_refuses : CamembertConfig -> list nat -> payload S ->
                    list nat -> payload S -> option exn;
  autograd_backward : tensor S -> W -> W;   (* [loss.backward()] *)
  camembert_config : string -> option CamembertConfig;
  cuda_is_available : bool;
  argmax_k : nat -> list nat -> payload S -> payload S;
  sum_k : list nat -> payload S -> S
}.

(** What a module's [forward] reads besides its arguments: the parameter
    store, the device the parameters live on ([model.to]) and the mode
    flag ([model.train()] / [model.eval()]). *)
Record module_state (W : Type) : Type := mkModuleState {
  params : W;
  param_device : dev;
  training : bool
}.
Arguments mkModuleState {W} params param_device training.

(* ================================================================== *)
(** ** Tensor operations used by the classifiers *)
(* ================================================================== *)

Module torch.
Section Ops.
Context {W S : Type} `{Torch W S}.

Local Abbreviation T := (tensor S).

(** [t.size(d)] *)
Definition size (t : T) (d : nat) : result nat :=
  match nth_error (shape t) d with
  | Some n => Ok n
  | None => Raise IndexError
  end.

Definition map_entries (f : S -> S) (t : T) : T :=
  mkTensor (shape t) (device t) (fun idx => f (data t idx)).

(** [t.long()] *)
Definition long (t : T) : T :=
  map_entries (fun v => s_of_Z (s_to_Z v)) t.

(** [t.type(torch.LongTensor)]: a CPU tensor of truncated entries. *)
Definition type_LongTensor (t : T) : T :=
  mkTensor (shape t) Cpu (fun idx => s_of_Z (s_to_Z (data t idx))).

(** [t.to(device)] *)
Definition to (d : dev) (t : T) : T :=
  mkTensor (shape t) d (data t).

(** [t.data]: the same tensor, cut from the graph of gradients. *)
Definition detach (t : T) : T := t.

(** [torch.ones(n)] *)
Definition ones (n : nat) : T :=
  mkTensor [n] Cpu (fun _ => s_one).

(** [weight.new(n, b, h).zero_()] for a weight living on [d]. *)
Definition new_zeros (d : dev) (s : list nat) : T :=
  mkTensor s d (fun _ => s_zero).

Definition sigmoid (t : T) : T := map_entries s_sigmoid t.
Definition relu (t : T) : T := map_entries s_relu t.

(** A Python index [j] into a dimension of size [n]. *)
Definition norm_index (j : Z) (n : nat) : result nat :=
  let k := if (j <? 0)%Z then (Z.of_nat n + j)%Z else j in
  if ((0 <=? k) && (k <? Z.of_nat n))%Z then Ok (Z.to_nat k) else Raise IndexError.

(** [t[:, j]] when [trailing] is 0, and [t[:, j, :]] when it is 1: entry
    [j] of the second dimension, which disappears. *)
Definition select_dim1 (trailing : nat) (j : Z) (t : T) : result T :=
  match shape t with
  | d0 :: d1 :: rest =>
      if List.length rest <? trailing then Raise IndexError
      else
        let* k := norm_index j d1 in
        Ok (mkTensor (d0 :: rest) (device t)
              (fun idx => match idx with
                          | i0 :: tl => data t (i0 :: k :: tl)
                          | [] => data t []
                          end))
  | _ => Raise IndexError
  end.

(** [t.view(rows, -1)] *)
Definition view_rows (rows : nat) (t : T) : result T :=
  let n := numel (shape t) in
  if (rows =? 0) || negb (n mod rows =? 0)
  then Raise (RuntimeError "shape is invalid for input")
  else
    let s' := [rows; n / rows] in
    Ok (mkTensor s' (device t) (fun idx => data t (unravel (shape t) (ravel s' idx)))).

(** [t.unsqueeze(k)] *)
Definition unsqueeze (k : nat) (t : T) : result T :=
  if List.length (shape t) <? k then Raise IndexError
  else Ok (mkTensor (insert_nth k 1 (shape t)) (device t)
             (fun idx => data t (remove_nth k idx))).

(** [t.squeeze(k)]: dimension [k] goes when its size is 1. *)
Definition squeeze (k : nat) (t : T) : result T :=
  match nth_error (shape t) k with
  | None => Raise IndexError
  | Some 1 => Ok (mkTensor (remove_nth k (shape t)) (device t)
                    (fun idx => data t (insert_nth k 0 idx)))
  | Some _ => Ok t
  end.

(** [t.squeeze(-1)]; a tensor without dimensions is returned as it is. *)
Definition squeeze_last (t : T) : result T :=
  match shape t with
  | [] => Ok t
  | _ :: _ => squeeze (List.length (shape t) - 1) t
  end.

(** [F.max_pool1d(t, k)] on a (batch, channels, length) tensor; the
    stride is the window. *)
Definition max_pool1d (t : T) (k : nat) : result T :=
  match shape t with
  | [b; c; l] =>
      if (k =? 0) || (l <? k)
      then Raise (RuntimeError "max_pool1d: invalid window")
      else Ok (mkTensor [b; c; (l - k) / k + 1] (device t)
                 (max_pool1d_k k (shape t) (data t)))
  | _ => Raise (RuntimeError "max_pool1d: expected a 3D input")
  end.

(** [torch.cat(ts, 1)] of tensors that agree on every other dimension
    and on the device. *)
Fixpoint cat1_data (ts : list T) (idx : list nat) : S :=
  match ts with
  | [] => s_zero
  | t :: ts' =>
      match idx, shape t with
      | i0 :: i1 :: tl, _ :: d1 :: _ =>
          if i1 <? d1 then data t idx
          else cat1_data ts' (i0 :: (i1 - d1) :: tl)
      | _, _ => data t idx
      end
  end.

Definition cat1_compatible (t u : T) : bool :=
  match shape t, shape u with
  | a0 :: _ :: arest, b0 :: _ :: brest =>
      (a0 =? b0) && list_eqb arest brest && dev_eqb (device t) (device u)
  | _, _ => false
  end.

Definition dim1 (t : T) : nat := nth 1 (shape t) 0.

Definition cat1 (ts : list T) : result T :=
  match ts with
  | [] => Raise (RuntimeError "cat: expected a non-empty list of tensors")
  | t :: _ =>
      if forallb (cat1_compatible t) ts
      then
        match shape t with
        | d0 :: _ :: rest =>
            Ok (mkTensor (d0 :: list_sum (map dim1 ts) :: rest) (device t)
                  (cat1_data ts))
        | _ => Raise IndexError
        end
      else Raise (RuntimeError "cat: sizes of tensors must match")
  end.

(** Every entry is an index below [n] (an embedding raises otherwise). *)
Definition all_below (n : nat) (t : T) : bool :=
  forallb (fun idx => let z := s_to_Z (data t idx) in
                      ((0 <=? z) && (z <? Z.of_nat n))%Z)
          (indices (shape t)).

(** [torch.argmax(t, dim=1)] *)
Definition argmax1 (t : T) : result T :=
  match shape t with
  | d0 :: d1 :: rest =>
      if d1 =? 0 then Raise IndexError
      else Ok (mkTensor (d0 :: rest) (device t) (argmax_k 1 (shape t) (data t)))
  | _ => Raise IndexError
  end.

(** Broadcasting of two shapes, aligned on their last dimensions. *)
Fixpoint broadcast_rev (a b : list nat) : option (list nat) :=
  match a, b with
  | [], _ => Some b
  | _, [] => Some a
  | x :: a', y :: b' =>
      if x =? y then option_map (cons x) (broadcast_rev a' b')
      else if x =? 1 then option_map (cons y) (broadcast_rev a' b')
      else if y =? 1 then option_map (cons x) (broadcast_rev a' b')
      else None
  end.

Definition broadcast_shapes (a b : list nat) : option (list nat) :=
  option_map (@rev nat) (broadcast_rev (rev a) (rev b)).

(** The index into an operand of shape [s] for an index of the result. *)
Definition operand_index (s idx : list nat) : list nat :=
  map (fun '(d, i) => if d =? 1 then 0 else i)
      (combine s (skipn (List.length idx - List.length s) idx)).

(** Two operands live on one device, unless one of them is a CPU tensor
    without dimensions. *)
Definition result_device (a b : T) : option dev :=
  if dev_eqb (device a) (device b) then Some (device a)
  else if list_eqb (shape a) [] && dev_eqb (device a) Cpu then Some (device b)
  else if list_eqb (shape b) [] && dev_eqb (device b) Cpu then Some (device a)
  else None.

Definition broadcast2 (f : S -> S -> S) (a b : T) : result T :=
  match result_device a b with
  | None => Raise (RuntimeError "expected all tensors to be on the same device")
  | Some d =>
      match broadcast_shapes (shape a) (shape b) with
      | None => Raise (RuntimeError "the sizes of the tensors must match")
      | Some s =>
          Ok (mkTensor s d
                (fun idx => f (data a (operand_index (shape a) idx))
                              (data b (operand_index (shape b) idx))))
      end
  end.

(** [a == b] and [a + b] *)
Definition eq (a b : T) : result T := broadcast2 s_eq a b.
Definition add (a b : T) : result T := broadcast2 s_add a b.

(** [torch.sum(t)], [t / x] and [x + t] for a float [x]. *)
Definition sum (t : T) : T :=
  mkTensor [] (device t) (fun _ => sum_k (shape t) (data t)).

Definition div_float (t : T) (x : S) : T :=
  map_entries (fun v => s_div v x) t.

Definition add_scalar (x : S) (t : T) : T :=
  map_entries (fun v => s_add x v) t.

(** [float(t)]: only a tensor of one entry converts. *)
Definition to_float (t : T) : result S :=
  if numel (shape t) =? 1 then Ok (data t (map (fun _ => 0) (shape t)))
  else Raise (ValueError "only one element tensors can be converted to Python scalars").

End Ops.
End torch.

(* ================================================================== *)
(** ** Layers of the library *)
(* ================================================================== *)

Definition device_mismatch : exn :=
  RuntimeError "expected all tensors to be on the same device".

Definition probability (p : Q) : bool := (Qle_bool 0 p && Qle_bool p 1)%Q.

Module nn.
Section Layers.
Context {W S : Type} `{Torch W S}.

Local Abbreviation T := (tensor S).

Record Embedding : Type := mkEmbedding {
  emb_name : string;
  num_embeddings : nat;
  embedding_dim : nat
}.

(** [nn.LSTM(input_size, hidden_size, num_layers, dropout=p, batch_first=True)] *)
Record LSTM : Type := mkLSTM {
  lstm_name : string;
  input_size : nat;
  lstm_hidden_size : nat;
  num_layers : nat;
  lstm_dropout : Q
}.

Record Dropout : Type := mkDropout { p : Q }.

Record Linear : Type := mkLinear {
  lin_name : string;
  in_features : nat;
  out_features : nat
}.

(** [nn.Conv2d(in_channels, out_channels, (kernel_h, kernel_w))] *)
Record Conv2d : Type := mkConv2d {
  conv_name : string;
  in_channels : nat;
  out_channels : nat;
  kernel_h : nat;
  kernel_w : nat
}.

Record CamembertModel : Type := mkCamembertModel {
  enc_name : string;
  config : CamembertConfig
}.

(** Constructors that check their arguments. *)
Definition new_Dropout (q : Q) : result Dropout :=
  if probability q then Ok (mkDropout q)
  else Raise (ValueError "dropout probability has to be between 0 and 1").

Definition new_LSTM (name : string) (input hidden layers : nat) (q : Q) : result LSTM :=
  if probability q then Ok (mkLSTM name input hidden layers q)
  else Raise (ValueError "dropout should be a number in range [0, 1]").

Definition from_pretrained (name : string) : result CamembertModel :=
  match camembert_config name with
  | Some c => Ok (mkCamembertModel name c)
  | None => Raise (ValueError "cannot load the pretrained model")
  end.

(** Calls.  Every learned layer wants its input on the device of its
    parameters; an embedding wants indices below its size. *)
Definition on_device (ms : module_state W) (t : T) : bool :=
  dev_eqb (device t) (param_device ms).

Definition Embedding_call (l : Embedding) (ms : module_state W) (x : T) : result T :=
  if negb (on_device ms x) then Raise device_mismatch
  else if negb (torch.all_below (num_embeddings l) x) then Raise IndexError
  else Ok (mkTensor (shape x ++ [embedding_dim l]) (device x)
             (embedding_k (emb_name l) (params ms) (shape x) (data x))).

Definition LSTM_call (l : LSTM) (ms : module_state W) (x : T) (hidden : T * T)
  : result (T * (T * T)) :=
  let '(h0, c0) := hidden in
  if negb (on_device ms x && on_device ms h0 && on_device ms c0)
  then Raise device_mismatch
  else
    match shape x with
    | [b; len; e] =>
        let hs := [num_layers l; b; lstm_hidden_size l] in
        if negb (e =? input_size l)
        then Raise (RuntimeError "input.size(-1) must be equal to input_size")
        else if negb (list_eqb (shape h0) hs && list_eqb (shape c0) hs)
        then Raise (RuntimeError "Expected hidden size does not match")
        else
          let '(o, (hn, cn)) :=
            lstm_k (lstm_name l) (params ms) (training ms) (shape x) (data x)
                   (data h0, data c0) in
          Ok (mkTensor [b; len; lstm_hidden_size l] (device x) o,
              (mkTensor hs (device x) hn, mkTensor hs (device x) cn))
    | _ => Raise (RuntimeError "input must have 3 dimensions")
    end.

Definition Dropout_call (l : Dropout) (ms : module_state W) (x : T) : result T :=
  if training ms
  then Ok (mkTensor (shape x) (device x) (dropout_k (params ms) (p l) (shape x) (data x)))
  else Ok x.

Definition Linear_call (l : Linear) (ms : module_state W) (x : T) : result T :=
  if negb (on_device ms x) then Raise device_mismatch
  else
    match rev (shape x) with
    | d :: pre =>
        if d =? in_features l
        then Ok (mkTensor (rev pre ++ [out_features l]) (device x)
                   (linear_k (lin_name l) (params ms) (shape x) (data x)))
        else Raise (RuntimeError "mat1 and mat2 shapes cannot be multiplied")
    | [] => Raise (RuntimeError "mat1 and mat2 shapes cannot be multiplied")
    end.

Definition Conv2d_call (l : Conv2d) (ms : module_state W) (x : T) : result T :=
  if negb (on_device ms x) then Raise device_mismatch
  else
    match shape x with
    | [b; c; h; w] =>
        if (c =? in_channels l)
           && (1 <=? kernel_h l) && (kernel_h l <=? h)
           && (1 <=? kernel_w l) && (kernel_w l <=? w)
        then Ok (mkTensor [b; out_channels l; h - kernel_h l + 1; w - kernel_w l + 1]
                   (device x)
                   (conv2d_k (conv_name l) (params ms) (shape x) (data x)))
        else Raise (RuntimeError "conv2d: input does not fit the kernel")
    | _ => Raise (RuntimeError "conv2d: expected a 4D input")
    end.

(** [encoder(seq, attention_mask=mask)] with [output_attentions=True]:
    the contextual representations, the pooled output and one attention
    tensor per layer.  The token indices are a tensor of two dimensions
    whose entries the embedding has; which masks and which lengths the
    encoder takes besides is the library's to say ([encoder_refuses]). *)
Definition CamembertModel_call (l : CamembertModel) (ms : module_state W)
  (seq mask : T) : result (T * T * list T) :=
  if negb (on_device ms seq && on_device ms mask) then Raise device_mismatch
  else
    match shape seq with
    | [b; len] =>
        let c := config l in
        match encoder_refuses c (shape seq) (data seq) (shape mask) (data mask) with
        | Some e => Raise e
        | None =>
            if negb (torch.all_below (vocab_size c) seq) then Raise IndexError
            else
              let '(reps, pooled, att) :=
                encoder_k (enc_name l) (params ms) (training ms) (shape seq)
                          (data seq) (data mask) in
              Ok (mkTensor [b; len; hidden_size c] (device seq) reps,
                  mkTensor [b; hidden_size c] (device seq) pooled,
                  map (fun i => mkTensor [b; num_attention_heads c; len; len]
                                  (device seq) (att i))
                      (List.seq 0 (num_hidden_layers c)))
        end
    | _ => Raise (RuntimeError "input ids must have 2 dimensions")
    end.

End Layers.
End nn.

(* ================================================================== *)
(** ** The three classifiers *)
(* ================================================================== *)

Definition string_of_nat (n : nat) : string :=
  NilEmpty.string_of_uint (Nat.to_uint n).

(** [enumerate(l)] *)
Definition enumerate {A : Type} (l : list A) : list (nat * A) :=
  combine (seq 0 (List.length l)) l.

(** [l[-1]] *)
Definition last_item {A : Type} (l : list A) : result A :=
  match rev l with
  | a :: _ => Ok a
  | [] => Raise IndexError
  end.

Module RNN.
Section Class.
Context {W S : Type} `{Torch W S}.

Local Abbreviation T := (tensor S).

Record t : Type := mk {
  output_size : nat;
  n_layers : nat;
  hidden_dim : nat;
  embedding : nn.Embedding;
  lstm : nn.LSTM;
  dropout : nn.Dropout;
  fc : nn.Linear
}.

Definition __init__ (vocab_size output_size embedding_dim hidden_dim n_layers : nat)
  (drop_prob : Q) : result t :=
  let embedding := nn.mkEmbedding "embedding" vocab_size embedding_dim in
  let* lstm := nn.new_LSTM "lstm" embedding_dim hidden_dim n_layers drop_prob in
  let* dropout := nn.new_Dropout drop_prob in
  let fc := nn.mkLinear "fc" hidden_dim output_size in
  Ok (mk output_size n_layers hidden_dim embedding lstm dropout fc).

(** Lines 26 to 32 of [forward]: the batch size, the output of the final
    linear layer [fc], and the hidden state the LSTM returns. *)
Definition fc_output (self : t) (ms : module_state W) (x : T) (hidden : T * T)
  : result (nat * T * (T * T)) :=
  let* batch_size := torch.size x 0 in
  let x := torch.long x in
  let* embeds := nn.Embedding_call (embedding self) ms x in
  let* '(lstm_out, hidden) := nn.LSTM_call (lstm self) ms embeds hidden in
  let* last := torch.select_dim1 1 (-1) lstm_out in
  let* out := nn.Dropout_call (dropout self) ms last in
  let* out := nn.Linear_call (fc self) ms out in
  Ok (batch_size, out, hidden).

Definition forward (self : t) (ms : module_state W) (x : T) (hidden : T * T)
  : result (T * (T * T)) :=
  let* batch_size := torch.size x 0 in
  let x := torch.long x in
  let* embeds := nn.Embedding_call (embedding self) ms x in
  let* '(lstm_out, hidden) := nn.LSTM_call (lstm self) ms embeds hidden in
  let* last := torch.select_dim1 1 (-1) lstm_out in
  let* out := nn.Dropout_call (dropout self) ms last in
  let* out := nn.Linear_call (fc self) ms out in
  let out := torch.sigmoid out in
  let* out := torch.view_rows batch_size out in
  Ok (out, hidden).

Definition init_hidden (self : t) (ms : module_state W) (batch_size : nat) : T * T :=
  let device := if cuda_is_available then Cuda else Cpu in
  let weight := param_device ms in       (* where the first parameter lives *)
  let hidden :=
    (torch.to device
       (torch.new_zeros weight [n_layers self; batch_size; hidden_dim self]),
     torch.to device
       (torch.new_zeros weight [n_layers self; batch_size; hidden_dim self])) in
  hidden.

End Class.
End RNN.

Module CNN.
Section Class.
Context {W S : Type} `{Torch W S}.

Local Abbreviation T := (tensor S).

Record t : Type := mk {
  embedding : nn.Embedding;
  convs1 : list nn.Conv2d;
  dropout : nn.Dropout;
  fc1 : nn.Linear
}.

Definition __init__ (max_features embed_size : nat) (num_filters filter_sizes : list nat)
  : result t :=
  let embedding := nn.mkEmbedding "embedding" max_features embed_size in
  let convs1 :=
    map (fun '(i, (n, K)) =>
           nn.mkConv2d (String.append "convs1." (string_of_nat i)) 1 n K embed_size)
        (enumerate (combine num_filters filter_sizes)) in
  let* dropout := nn.new_Dropout (1 # 10) in
  let* n_last := last_item num_filters in
  let fc1 := nn.mkLinear "fc1" (n_last * List.length filter_sizes) 5 in
  Ok (mk embedding convs1 dropout fc1).

(** Lines 57 to 63 of [forward]: what the final linear layer [fc1] is
    applied to. *)
Definition features (self : t) (ms : module_state W) (x : T) : result T :=
  let x := torch.long x in
  let* x := nn.Embedding_call (embedding self) ms x in
  let* x := torch.unsqueeze 1 x in
  let* x := rmap (fun conv => let* y := nn.Conv2d_call conv ms x in
                              torch.squeeze 3 (torch.relu y))
                 (convs1 self) in
  let* x := rmap (fun i => let* k := torch.size i 2 in
                           let* y := torch.max_pool1d i k in
                           torch.squeeze 2 y)
                 x in
  let* x := torch.cat1 x in
  nn.Dropout_call (dropout self) ms x.

Definition forward (self : t) (ms : module_state W) (x : T) : result T :=
  let x := torch.long x in
  let* x := nn.Embedding_call (embedding self) ms x in
  let* x := torch.unsqueeze 1 x in
  let* x := rmap (fun conv => let* y := nn.Conv2d_call conv ms x in
                              torch.squeeze 3 (torch.relu y))
                 (convs1 self) in
  let* x := rmap (fun i => let* k := torch.size i 2 in
                           let* y := torch.max_pool1d i k in
                           torch.squeeze 2 y)
                 x in
  let* x := torch.cat1 x in
  let* x := nn.Dropout_call (dropout self) ms x in
  let* l := nn.Linear_call (fc1 self) ms x in
  Ok l.

End Class.
End CNN.

Module CamembertClassifier.
Section Class.
Context {W S : Type} `{Torch W S}.

Local Abbreviation T := (tensor S).

Record t : Type := mk {
  encoder : nn.CamembertModel;
  cls_layer : nn.Linear
}.

Definition __init__ (pretrained_model_name : string) : result t :=
  let* encoder := nn.from_pretrained pretrained_model_name in
  let cls_layer := nn.mkLinear "cls_layer" (hidden_size (nn.config encoder)) 5 in
  Ok (mk encoder cls_layer).

(** Lines 75 and 76 of [forward]: what the final linear layer
    [cls_layer] is applied to, and the attentions. *)
Definition cls_representation (self : t) (ms : module_state W) (seq attn_masks : T)
  : result (T * list T) :=
  let* '(cont_reps, _, attentions) :=
    nn.CamembertModel_call (encoder self) ms seq attn_masks in
  let* cls_rep := torch.select_dim1 0 0 cont_reps in
  Ok (cls_rep, attentions).

Definition forward (self : t) (ms : module_state W) (seq attn_masks : T)
  : result (T * list T) :=
  let* '(cont_reps, _, attentions) :=
    nn.CamembertModel_call (encoder self) ms seq attn_masks in
  let* cls_rep := torch.select_dim1 0 0 cont_reps in
  let* logits := nn.Linear_call (cls_layer self) ms cls_rep in
  Ok (logits, attentions).

End Class.
End CamembertClassifier.

(* ================================================================== *)
(** ** Python numbers: the accumulators of the training loop *)
(* ================================================================== *)

Section PyNum.
Context {W S : Type} `{Torch W S}.

(** An accumulator starts as the integer 0 and becomes a float or a
    tensor when one is added to it. *)
Inductive pynum : Type :=
| PInt (z : Z)
| PFloat (x : S)
| PTensor (t : tensor S).

(** [a + b] *)
Definition py_add (a b : pynum) : result pynum :=
  match a, b with
  | PInt x, PInt y => Ok (PInt (x + y))
  | PInt x, PFloat y => Ok (PFloat (s_add (s_of_Z x) y))
  | PFloat x, PInt y => Ok (PFloat (s_add x (s_of_Z y)))
  | PFloat x, PFloat y => Ok (PFloat (s_add x y))
  | PInt x, PTensor t => Ok (PTensor (torch.add_scalar (s_of_Z x) t))
  | PFloat x, PTensor t => Ok (PTensor (torch.add_scalar x t))
  | PTensor t, PInt y =>
      Ok (PTensor (torch.map_entries (fun v => s_add v (s_of_Z y)) t))
  | PTensor t, PFloat y =>
      Ok (PTensor (torch.map_entries (fun v => s_add v y) t))
  | PTensor t, PTensor u => let* r := torch.add t u in Ok (PTensor r)
  end.

(** [a / n] for a Python integer [n]: numbers raise on a zero divisor, a
    tensor is divided entry by entry and never raises. *)
Definition py_truediv (a : pynum) (n : Z) : result pynum :=
  match a with
  | PInt x =>
      if (n =? 0)%Z then Raise ZeroDivisionError
      else Ok (PFloat (s_div (s_of_Z x) (s_of_Z n)))
  | PFloat x =>
      if (n =? 0)%Z then Raise ZeroDivisionError
      else Ok (PFloat (s_div x (s_of_Z n)))
  | PTensor t => Ok (PTensor (torch.div_float t (s_of_Z n)))
  end.

(** [a % n == 0] for Python integers. *)
Definition py_divides (n a : Z) : result bool :=
  if (n =? 0)%Z then Raise ZeroDivisionError
  else Ok ((a mod n =? 0)%Z).

End PyNum.
Arguments pynum S : clear implicits.

(* ================================================================== *)
(** ** The state of a run of [train] *)
(* ================================================================== *)

(** The model handed to [train] is one of the three classifiers. *)
Inductive model_obj : Type :=
| Rnn (m : RNN.t)
| Cnn (m : CNN.t)
| Bert (m : CamembertClassifier.t).

(** What a [DataLoader] exposes: its configured batch size, and the
    batches it yields the [k]-th time it is iterated.  A batch is the
    sequence of tensors of one item. *)
Record DataLoader (S : Type) : Type := mkDataLoader {
  batch_size : nat;
  batches : nat -> list (list (tensor S))
}.

(** [{'loss': [], 'accuracy': []}] *)
Record history (S : Type) : Type := mkHistory {
  loss : list (pynum S);
  accuracy : list (pynum S)
}.
Arguments mkHistory {S} loss accuracy.

(** The two loops of an epoch. *)
Inductive site : Type := Training | Validation.

(** The calls a run makes to its collaborators, and what it prints. *)
Inductive event (S : Type) : Type :=
| EModelTo (d : dev)
| EInitHidden (at_site : site) (batch_size : nat)
| EZeroGrad
| EForward (at_site : site) (model_type : string) (param_dev : dev) (training : bool)
           (seq attn_masks : tensor S) (hidden : option (tensor S * tensor S))
| ECriterion (at_site : site) (output labels : tensor S)
| EBackward (loss : tensor S)
| EOptimizerStep
| ESchedulerStep (x : pynum S)
| EEval
| ETrainMode
| EEarlyStopping (score : pynum S)
| EPrintIteration (it ep : nat) (loss : S) (accuracy : tensor S)
| EPrintValidation (loss accuracy : pynum S)
| EPrintEarlyStopping (ep : nat)
| EPlot (hist val_hist : history S).
Arguments EModelTo {S} d.
Arguments EInitHidden {S} at_site batch_size.
Arguments EZeroGrad {S}.
Arguments EOptimizerStep {S}.
Arguments EEval {S}.
Arguments ETrainMode {S}.
Arguments EPrintEarlyStopping {S} ep.

(** The module state of the model, the state of the optimizer (with its
    scheduler), the early-stopping monitor when there is one, the local
    variables that outlive an iteration, and the trace of events. *)
Record state (W S O E : Type) : Type := mkState {
  st_module : module_state W;
  st_optimizer : O;
  st_early_stopping : option E;
  var_it : option nat;
  hist : history S;
  val_hist : history S;
  trace : list (event S)
}.
Arguments mkState {W S O E} _ _ _ _ _ _ _.

(** The optimizer: [zero_grad()] clears the gradients in the store,
    [step()] updates the parameters. *)
Record Optimizer (W O : Type) : Type := mkOptimizer {
  zero_grad : W -> W;
  step : O -> W -> O * W
}.

(** The early-stopping monitor of [utils.pytorchtools], which is not
    part of the sources at hand: its constructor, its call on a score and
    the model, and its [early_stop] flag. *)
Record EarlyStoppingClass (W S E : Type) : Type := mkEarlyStoppingClass {
  EarlyStopping : nat -> E;
  es_call : E -> pynum S -> module_state W -> E;
  early_stop : E -> bool
}.

Definition quote : string := String (ascii_of_nat 34) EmptyString.

(** [f'Model type "{model_type}" not supported.'] *)
Definition not_supported (model_type : string) : string :=
  String.append "Model type "
    (String.append quote
       (String.append model_type (String.append quote " not supported."))).

(* ================================================================== *)
(** ** Computations of the training loop *)
(* ================================================================== *)

Section Monad.
Context {W S O E : Type}.

Local Abbreviation state := (state W S O E).

(** A computation reads and updates the state and returns or raises; the
    state reached when it raises is kept. *)
Definition M (A : Type) : Type := state -> result A * state.

Definition ret {A : Type} (a : A) : M A := fun s => (Ok a, s).

Definition bind {A B : Type} (c : M A) (k : A -> M B) : M B :=
  fun s =>
    match c s with
    | (Ok a, s') => k a s'
    | (Raise e, s') => (Raise e, s')
    end.

Definition raise {A : Type} (e : exn) : M A := fun s => (Raise e, s).

Definition lift {A : Type} (r : result A) : M A := fun s => (r, s).

Definition gets {A : Type} (f : state -> A) : M A := fun s => (Ok (f s), s).

Definition modify (f : state -> state) : M unit := fun s => (Ok tt, f s).

Definition emit (e : event S) : M unit :=
  modify (fun s => mkState (st_module s) (st_optimizer s) (st_early_stopping s)
                           (var_it s) (hist s) (val_hist s) (trace s ++ [e])).

Definition set_module (ms : module_state W) : M unit :=
  modify (fun s => mkState ms (st_optimizer s) (st_early_stopping s)
                           (var_it s) (hist s) (val_hist s) (trace s)).

Definition set_optimizer (o : O) : M unit :=
  modify (fun s => mkState (st_module s) o (st_early_stopping s)
                           (var_it s) (hist s) (val_hist s) (trace s)).

Definition set_early_stopping (m : option E) : M unit :=
  modify (fun s => mkState (st_module s) (st_optimizer s) m
                           (var_it s) (hist s) (val_hist s) (trace s)).

Definition set_it (it : nat) : M unit :=
  modify (fun s => mkState (st_module s) (st_optimizer s) (st_early_stopping s)
                           (Some it) (hist s) (val_hist s) (trace s)).

Definition set_hist (h : history S) : M unit :=
  modify (fun s => mkState (st_module s) (st_optimizer s) (st_early_stopping s)
                           (var_it s) h (val_hist s) (trace s)).

Definition set_val_hist (h : history S) : M unit :=
  modify (fun s => mkState (st_module s) (st_optimizer s) (st_early_stopping s)
                           (var_it s) (hist s) h (trace s)).

End Monad.

Notation "x <- c ;; k" := (bind c (fun x => k))
  (at level 61, c at next level, right associativity).
Notation "' p <- c ;; k" := (bind c (fun x => match x with p => k end))
  (at level 61, p strict pattern, c at next level, right associativity).
Notation "c ;; k" := (bind c (fun _ => k))
  (at level 61, right associativity).

Section Loops.
Context {W S O E : Type}.

(** [for x in l: acc = body(x, acc)] *)
Fixpoint for_each {A B : Type} (body : A -> B -> M (W:=W) (S:=S) (O:=O) (E:=E) B)
  (l : list A) (acc : B) : M B :=
  match l with
  | [] => ret acc
  | a :: l' => acc' <- body a acc ;; for_each body l' acc'
  end.

(** [for x in l: body(x)] where the body may [break]. *)
Fixpoint for_break {A : Type} (body : A -> M (W:=W) (S:=S) (O:=O) (E:=E) bool)
  (l : list A) : M unit :=
  match l with
  | [] => ret tt
  | a :: l' => stop <- body a ;; if stop then ret tt else for_break body l'
  end.

End Loops.

(** The arguments of [train].  The early-stopping class that the module
    imports is one of them here. *)
Record train_args (W S O E : Type) : Type := mkTrainArgs {
  model : model_obj;
  model_type : string;
  criterion : tensor S -> tensor S -> result (tensor S);
  optimizer : Optimizer W O;
  activate_early_stopping : bool;
  scheduler : option (pynum S -> O -> O);
  train_loader : DataLoader S;
  val_loader : DataLoader S;
  n_epochs : nat;
  gpu : bool;
  print_every : Z;
  print_validation_every : Z;
  earl_stopping_patience : nat;
  pytorchtools : EarlyStoppingClass W S E
}.

(* ================================================================== *)
(** ** [train] *)
(* ================================================================== *)

Section Train.
Context {W S O E : Type} `{Torch W S}.

Local Abbreviation T := (tensor S).
Local Abbreviation M := (M (W:=W) (S:=S) (O:=O) (E:=E)).

Variable a : train_args W S O E.

(** [torch.device("cuda" if torch.cuda.is_available() else "cpu")] *)
Definition the_device : dev := if cuda_is_available then Cuda else Cpu.

(** [model = model.to(device)] *)
Definition model_to (d : dev) : M unit :=
  emit (EModelTo d) ;;
  ms <- gets (@st_module W S O E) ;;
  set_module (mkModuleState (params ms) d (training ms)).

(** [model.eval()] and [model.train()] *)
Definition model_eval : M unit :=
  emit EEval ;;
  ms <- gets (@st_module W S O E) ;;
  set_module (mkModuleState (params ms) (param_device ms) false).

Definition model_train : M unit :=
  emit ETrainMode ;;
  ms <- gets (@st_module W S O E) ;;
  set_module (mkModuleState (params ms) (param_device ms) true).

(** [model.init_hidden(batch_size)] *)
Definition model_init_hidden (at_site : site) (bs : nat) : M (T * T) :=
  match model a with
  | Rnn m =>
      emit (EInitHidden at_site bs) ;;
      ms <- gets (@st_module W S O E) ;;
      ret (RNN.init_hidden m ms bs)
  | _ => raise (AttributeError "init_hidden")
  end.

(** The three ways the loop calls the model. *)
Definition call_rnn (seq : T) (h : T * T) : M (T * (T * T)) :=
  ms <- gets (@st_module W S O E) ;;
  match model a with
  | Rnn m => lift (RNN.forward m ms seq h)
  | _ => raise TypeError
  end.

Definition call_cnn (seq : T) : M T :=
  ms <- gets (@st_module W S O E) ;;
  match model a with
  | Cnn m => lift (CNN.forward m ms seq)
  | _ => raise TypeError
  end.

Definition call_bert (seq attn_masks : T) : M (T * list T) :=
  ms <- gets (@st_module W S O E) ;;
  match model a with
  | Bert m => lift (CamembertClassifier.forward m ms seq attn_masks)
  | _ => raise TypeError
  end.

(** Lines 109-114 and 169-174: extract the right tensors from [data]. *)
Definition item (data : list T) (k : nat) : result T :=
  match nth_error data k with
  | Some t => Ok t
  | None => Raise IndexError
  end.

Definition unpack (data : list T) : result (T * T * T) :=
  if String.eqb (model_type a) "bert" then
    match data with
    | [seq; attn_masks; labels] => Ok (seq, attn_masks, labels)
    | _ => Raise (ValueError "wrong number of values to unpack")
    end
  else if String.eqb (model_type a) "rnn" || String.eqb (model_type a) "cnn" then
    let* seq := item data 0 in
    let attn_masks := torch.ones 1 in
    let* labels := item data 1 in
    Ok (seq, attn_masks, labels)
  else Raise (ValueError (not_supported (model_type a))).

(** Lines 120-121 and 177-178: the batch goes to the device when [gpu]. *)
Definition to_device (b : T * T * T) : T * T * T :=
  let '(seq, attn_masks, labels) := b in
  if gpu a
  then (torch.to the_device seq, torch.to the_device attn_masks,
        torch.to the_device labels)
  else (seq, attn_masks, labels).

(** Lines 123-131 and 180-188: the logits from the model.  The hidden
    state is the one of the loop the call is made from. *)
Definition forward_dispatch (at_site : site) (seq attn_masks : T) (h : option (T * T))
  : M (T * option (T * T)) :=
  ms <- gets (@st_module W S O E) ;;
  if String.eqb (model_type a) "rnn" then
    match h with
    | None => raise (UnboundLocalError "h")
    | Some (h0, c0) =>
        let h := (torch.detach h0, torch.detach c0) in
        emit (EForward at_site (model_type a) (param_device ms) (training ms)
                       seq attn_masks (Some h)) ;;
        ' (output, h) <- call_rnn seq h ;;
        ret (output, Some h)
    end
  else if String.eqb (model_type a) "cnn" then
    emit (EForward at_site (model_type a) (param_device ms) (training ms)
                   seq attn_masks None) ;;
    output <- call_cnn seq ;;
    ret (output, h)
  else if String.eqb (model_type a) "bert" then
    emit (EForward at_site (model_type a) (param_device ms) (training ms)
                   seq attn_masks None) ;;
    ' (output, attentions) <- call_bert seq attn_masks ;;
    ret (output, h)
  else raise (ValueError (not_supported (model_type a))).

(** [criterion(output.squeeze(-1), labels)] *)
Definition call_criterion (at_site : site) (output labels : T) : M T :=
  squeezed <- lift (torch.squeeze_last output) ;;
  emit (ECriterion at_site squeezed labels) ;;
  lift ((criterion a) squeezed labels).

(** [torch.sum(torch.argmax(output,dim=1)==labels)/float(labels.size(0))] *)
Definition batch_accuracy (output labels : T) : result T :=
  let* best := torch.argmax1 output in
  let* hits := torch.eq best labels in
  let total := torch.sum hits in
  let* n := torch.size labels 0 in
  Ok (torch.div_float total (s_of_Z (Z.of_nat n))).

Definition optimizer_zero_grad : M unit :=
  emit EZeroGrad ;;
  ms <- gets (@st_module W S O E) ;;
  set_module (mkModuleState (zero_grad (optimizer a) (params ms)) (param_device ms)
                            (training ms)).

Definition loss_backward (loss : T) : M unit :=
  emit (EBackward loss) ;;
  ms <- gets (@st_module W S O E) ;;
  set_module (mkModuleState (autograd_backward loss (params ms)) (param_device ms)
                            (training ms)).

Definition optimizer_step : M unit :=
  emit EOptimizerStep ;;
  ms <- gets (@st_module W S O E) ;;
  o <- gets (@st_optimizer W S O E) ;;
  let '(o', w') := step (optimizer a) o (params ms) in
  set_optimizer o' ;;
  set_module (mkModuleState w' (param_device ms) (training ms)).

(** Lines 146-147 *)
Definition print_iteration (it ep : nat) (loss accuracy : T) : M unit :=
  due <- lift (py_divides (print_every a) (Z.of_nat it + 1)) ;;
  if due : bool then
    x <- lift (torch.to_float loss) ;;
    emit (EPrintIteration (it + 1) (ep + 1) x accuracy)
  else ret tt.

(** Lines 108-147: one iteration of the training loop. *)
Definition train_iteration (ep : nat) (it_data : nat * list T)
  (acc : pynum S * pynum S * option (T * T)) : M (pynum S * pynum S * option (T * T)) :=
  let '(it, data) := it_data in
  let '(running_loss, running_accuracy, h) := acc in
  set_it it ;;
  ' (seq, attn_masks, labels) <- lift (unpack data) ;;
  let labels := torch.type_LongTensor labels in
  optimizer_zero_grad ;;
  let '(seq, attn_masks, labels) := to_device (seq, attn_masks, labels) in
  ' (output, h) <- forward_dispatch Training seq attn_masks h ;;
  loss <- call_criterion Training output labels ;;
  running_loss <- lift (py_add running_loss (PTensor loss)) ;;
  loss_backward loss ;;
  optimizer_step ;;
  accuracy <- lift (batch_accuracy output labels) ;;
  running_accuracy <- lift (py_add running_accuracy (PTensor accuracy)) ;;
  print_iteration it ep loss accuracy ;;
  ret (running_loss, running_accuracy, h).

(** Lines 149-151 *)
Definition scheduler_step (running_loss : pynum S) : M unit :=
  match scheduler a with
  | Some sched =>
      emit (ESchedulerStep running_loss) ;;
      o <- gets (@st_optimizer W S O E) ;;
      set_optimizer (sched running_loss o)
  | None => ret tt
  end.

(** The local variable [it]; reading it before any loop has bound it
    raises. *)
Definition read_it : M Z :=
  v <- gets (@var_it W S O E) ;;
  match v with
  | Some it => ret (Z.of_nat it)
  | None => raise (UnboundLocalError "it")
  end.

(** Lines 153-155 *)
Definition update_training_history (running_loss running_accuracy : pynum S) : M unit :=
  it <- read_it ;;
  mean_loss <- lift (py_truediv running_loss it) ;;
  h <- gets (@hist W S O E) ;;
  set_hist (mkHistory (loss h ++ [mean_loss]) (accuracy h)) ;;
  it <- read_it ;;
  mean_accuracy <- lift (py_truediv running_accuracy it) ;;
  h <- gets (@hist W S O E) ;;
  set_hist (mkHistory (loss h) (accuracy h ++ [mean_accuracy])).

(** Lines 101-107: the accumulators, the hidden state and the loop. *)
Definition training_loop (ep : nat) : M (pynum S * pynum S * option (T * T)) :=
  let running_loss := PInt 0 in
  let running_accuracy := PInt 0 in
  h <- (if String.eqb (model_type a) "rnn"
        then h <- model_init_hidden Training (batch_size (train_loader a)) ;; ret (Some h)
        else ret None) ;;
  for_each (train_iteration ep) (enumerate (batches (train_loader a) ep))
           (running_loss, running_accuracy, h).

(** Lines 101-155 *)
Definition training_phase (ep : nat) : M unit :=
  ' (running_loss, running_accuracy, _) <- training_loop ep ;;
  scheduler_step running_loss ;;
  update_training_history running_loss running_accuracy.

(** Lines 167-196: one iteration of the validation loop. *)
Definition validation_iteration (it_data : nat * list T)
  (acc : Z * pynum S * pynum S * option (T * T))
  : M (Z * pynum S * pynum S * option (T * T)) :=
  let '(it, data) := it_data in
  let '(n_batch_validation, loss_validation, accuracy_validation, val_h) := acc in
  set_it it ;;
  ' (seq, attn_masks, labels) <- lift (unpack data) ;;
  let labels := torch.type_LongTensor labels in
  let '(seq, attn_masks, labels) := to_device (seq, attn_masks, labels) in
  ' (out, val_h) <- forward_dispatch Validation seq attn_masks val_h ;;
  let n_batch_validation := (n_batch_validation + 1)%Z in
  l <- call_criterion Validation out labels ;;
  _loss <- lift (torch.to_float l) ;;
  _accu <- lift (batch_accuracy out labels) ;;
  loss_validation <- lift (py_add loss_validation (PFloat _loss)) ;;
  accuracy_validation <- lift (py_add accuracy_validation (PTensor _accu)) ;;
  ret (n_batch_validation, loss_validation, accuracy_validation, val_h).

(** Lines 158-166 *)
Definition validation_loop (ep : nat) : M (Z * pynum S * pynum S * option (T * T)) :=
  model_eval ;;
  let n_batch_validation := 0%Z in
  let loss_validation := PInt 0 in
  let accuracy_validation := PInt 0 in
  val_h <- (if String.eqb (model_type a) "rnn"
            then h <- model_init_hidden Validation (batch_size (val_loader a)) ;; ret (Some h)
            else ret None) ;;
  for_each validation_iteration (enumerate (batches (val_loader a) ep))
           (n_batch_validation, loss_validation, accuracy_validation, val_h).

(** Lines 198-199 *)
Definition print_validation (ep : nat) (n_batch_validation : Z)
  (loss_validation accuracy_validation : pynum S) : M unit :=
  due <- lift (py_divides (print_validation_every a) (Z.of_nat ep)) ;;
  if due : bool then
    mean_loss <- lift (py_truediv loss_validation n_batch_validation) ;;
    mean_accuracy <- lift (py_truediv accuracy_validation n_batch_validation) ;;
    emit (EPrintValidation mean_loss mean_accuracy)
  else ret tt.

(** Lines 201-202 *)
Definition update_validation_history (n_batch_validation : Z)
  (loss_validation accuracy_validation : pynum S) : M unit :=
  mean_loss <- lift (py_truediv loss_validation n_batch_validation) ;;
  h <- gets (@val_hist W S O E) ;;
  set_val_hist (mkHistory (loss h ++ [mean_loss]) (accuracy h)) ;;
  mean_accuracy <- lift (py_truediv accuracy_validation n_batch_validation) ;;
  h <- gets (@val_hist W S O E) ;;
  set_val_hist (mkHistory (loss h) (accuracy h ++ [mean_accuracy])).

(** Lines 204-208: whether the epoch loop breaks. *)
Definition early_stopping_check (ep : nat) (loss_validation : pynum S) : M bool :=
  if activate_early_stopping a then
    m <- gets (@st_early_stopping W S O E) ;;
    match m with
    | None => raise (UnboundLocalError "early_stopping")
    | Some monitor =>
        emit (EEarlyStopping loss_validation) ;;
        ms <- gets (@st_module W S O E) ;;
        let monitor := es_call (pytorchtools a) monitor loss_validation ms in
        set_early_stopping (Some monitor) ;;
        if early_stop (pytorchtools a) monitor
        then emit (EPrintEarlyStopping ep) ;; ret true
        else ret false
    end
  else ret false.

(** Lines 157-209; the result tells whether the loop breaks. *)
Definition validation_phase (ep : nat) : M bool :=
  ' (n_batch_validation, loss_validation, accuracy_validation, _) <- validation_loop ep ;;
  print_validation ep n_batch_validation loss_validation accuracy_validation ;;
  update_validation_history n_batch_validation loss_validation accuracy_validation ;;
  stop <- early_stopping_check ep loss_validation ;;
  if stop : bool then ret true
  else model_train ;; ret false.

(** The body of [for ep in range(n_epochs)]. *)
Definition epoch (ep : nat) : M bool :=
  training_phase ep ;;
  validation_phase ep.

(** Lines 211-224: the two charts of the four histories. *)
Definition plot_history : M unit :=
  h <- gets (@hist W S O E) ;;
  vh <- gets (@val_hist W S O E) ;;
  emit (EPlot h vh).

Definition train : M unit :=
  let device := the_device in
  model_to device ;;
  (if activate_early_stopping a
   then set_early_stopping (Some (EarlyStopping (pytorchtools a) (earl_stopping_patience a)))
   else ret tt) ;;
  for_break epoch (seq 0 (n_epochs a)) ;;
  plot_history.

(** A call of [train]: nothing is bound, the histories are empty. *)
Definition initial_state (ms : module_state W) (o : O) : state W S O E :=
  mkState ms o None None (mkHistory [] []) (mkHistory [] []) [].

Definition run_train (ms : module_state W) (o : O) : result unit * state W S O E :=
  train (initial_state ms o).

End Train.

(* ================================================================== *)
(** ** Vocabulary of the statements *)
(* ================================================================== *)

Section Vocabulary.
Context {W S O E : Type} `{Torch W S}.

Local Abbreviation T := (tensor S).
Local Abbreviation state := (state W S O E).
Local Abbreviation M := (M (W:=W) (S:=S) (O:=O) (E:=E)).

(** Every run of [c] takes a state to one related to it by [R]. *)
Definition steps (R : state -> state -> Prop) {A : Type} (c : M A) : Prop :=
  forall s, R s (snd (c s)).

(** The trace grows by events that satisfy [P]. *)
Definition emits (P : event S -> Prop) (s s' : state) : Prop :=
  exists evs, trace s' = trace s ++ evs /\ Forall P evs.

(** A component of the state is left as it is. *)
Definition keeps {X : Type} (f : state -> X) (s s' : state) : Prop := f s' = f s.

(** Every run of [c] relates its two states by [R], and returns a value
    that satisfies [Q] when it returns. *)
Definition run_spec {A : Type} (R : state -> state -> Prop) (Q : A -> Prop) (c : M A)
  : Prop :=
  forall s, R s (snd (c s)) /\ (forall x, fst (c s) = Ok x -> Q x).

(** The device the parameters of the model live on. *)
Definition model_device (s : state) : dev := param_device (st_module s).

(** The four history lists all have [n] entries, or at most [n]. *)
Definition history_lengths (s : state) (n : nat) : Prop :=
  List.length (loss (hist s)) = n /\ List.length (accuracy (hist s)) = n
  /\ List.length (loss (val_hist s)) = n /\ List.length (accuracy (val_hist s)) = n.

Definition history_bounded (s : state) (n : nat) : Prop :=
  List.length (loss (hist s)) <= n /\ List.length (accuracy (hist s)) <= n
  /\ List.length (loss (val_hist s)) <= n /\ List.length (accuracy (val_hist s)) <= n.

(** Kinds of events. *)
Definition not_break (e : event S) : Prop :=
  match e with EPrintEarlyStopping _ => False | _ => True end.

Definition not_scheduler (e : event S) : Prop :=
  match e with ESchedulerStep _ => False | _ => True end.

Definition not_forward (e : event S) : Prop :=
  match e with EForward _ _ _ _ _ _ _ => False | _ => True end.

(** Events other than a call of the criterion, a step of the scheduler
    and the message of the break. *)
Definition minor (e : event S) : Prop :=
  match e with
  | ECriterion _ _ _ | ESchedulerStep _ | EPrintEarlyStopping _ => False
  | _ => True
  end.

Definition site_eqb (x y : site) : bool :=
  match x, y with
  | Training, Training | Validation, Validation => true
  | _, _ => false
  end.

(** The losses the criterion returned at a site, read off the trace. *)
Definition loss_of (a : train_args W S O E) (at_site : site) (e : event S) : list T :=
  match e with
  | ECriterion st output labels =>
      if site_eqb st at_site
      then match criterion a output labels with Ok l => [l] | Raise _ => [] end
      else []
  | _ => []
  end.

Definition losses_at (a : train_args W S O E) (at_site : site) (evs : list (event S))
  : list T :=
  flat_map (loss_of a at_site) evs.

(** [l] is the loss of a batch: what the criterion returns on the output
    of the forward call of the training loop for the sequences of the
    batch, and on the labels of the batch. *)
Definition batch_loss (a : train_args W S O E) (data : list T) (l : T) : Prop :=
  exists seq attn_masks labels seq' attn_masks' labels' h s output h' s' squeezed,
    unpack a data = Ok (seq, attn_masks, labels)
    /\ to_device a (seq, attn_masks, torch.type_LongTensor labels)
       = (seq', attn_masks', labels')
    /\ forward_dispatch a Training seq' attn_masks' h s = (Ok (output, h'), s')
    /\ torch.squeeze_last output = Ok squeezed
    /\ criterion a squeezed labels' = Ok l.

(** [acc + x1 + x2 + ...] *)
Fixpoint py_sum (acc : pynum S) (l : list (pynum S)) : result (pynum S) :=
  match l with
  | [] => Ok acc
  | x :: l' => let* acc' := py_add acc x in py_sum acc' l'
  end.

(** The state [train] reaches before its first epoch: the model is on
    the device, the monitor exists when early stopping is activated, and
    nothing else has happened. *)
Definition first_epoch_state (a : train_args W S O E) (ms : module_state W) (o : O)
  : state :=
  mkState (mkModuleState (params ms) the_device (training ms)) o
          (if activate_early_stopping a
           then Some (EarlyStopping (pytorchtools a) (earl_stopping_patience a))
           else None)
          None (mkHistory [] []) (mkHistory [] []) [EModelTo the_device].

(** The batch size a loop sizes its hidden state with. *)
Definition loader_batch_size (a : train_args W S O E) (at_site : site) : nat :=
  match at_site with
  | Training => batch_size (train_loader a)
  | Validation => batch_size (val_loader a)
  end.

(** The hidden pair of a forward event has the shape
    (n_layers, batch size of the loader of its loop, hidden_dim). *)
Definition hidden_of_loader (a : train_args W S O E) (m : RNN.t) (e : event S) : Prop :=
  match e with
  | EForward at_site _ _ _ _ _ hidden =>
      exists h0 c0, hidden = Some (h0, c0)
        /\ shape h0 = [RNN.n_layers m; loader_batch_size a at_site; RNN.hidden_dim m]
        /\ shape c0 = [RNN.n_layers m; loader_batch_size a at_site; RNN.hidden_dim m]
  | _ => True
  end.

(** A hidden pair sized by the loader of a loop. *)
Definition sized (a : train_args W S O E) (m : RNN.t) (at_site : site)
  (h : option (T * T)) : Prop :=
  exists h0 c0, h = Some (h0, c0)
    /\ shape h0 = [RNN.n_layers m; loader_batch_size a at_site; RNN.hidden_dim m]
    /\ shape c0 = [RNN.n_layers m; loader_batch_size a at_site; RNN.hidden_dim m].

(** Where an event finds the parameters and the tensors of the batch. *)
Definition placement (model_on batch_on : dev) (e : event S) : Prop :=
  match e with
  | EModelTo d => d = model_on
  | EForward _ _ param_dev _ seq attn_masks _ =>
      param_dev = model_on /\ device seq = batch_on /\ device attn_masks = batch_on
  | ECriterion _ _ labels => device labels = batch_on
  | _ => True
  end.

(** Every tensor a loader yields is on the CPU. *)
Definition cpu_loader (l : DataLoader S) : Prop :=
  forall k item t, In item (batches l k) -> In t item -> device t = Cpu.

(** The device of the batch at the forward call. *)
Definition batch_device (a : train_args W S O E) : dev :=
  if gpu a then the_device else Cpu.

(** The parameters stay on [d] and the events place the parameters on
    [d] and the batch on [batch_device]. *)
Definition placed (a : train_args W S O E) (d : dev) (s s' : state) : Prop :=
  model_device s = d ->
  model_device s' = d /\ emits (placement d (batch_device a)) s s'.

End Vocabulary.

(* ================================================================== *)
(** ** Further vocabulary: updates, modes, kinds of numbers *)
(* ================================================================== *)

Section Observations.
Context {W S O E : Type} `{Torch W S}.

Local Abbreviation state := (state W S O E).

(** The parameters of the model and its mode flag. *)
Definition model_params (s : state) : W := params (st_module s).
Definition model_mode (s : state) : bool := training (st_module s).

(** Events other than the calls that change the parameters, their
    gradients or the optimizer. *)
Definition no_update (e : event S) : Prop :=
  match e with
  | EZeroGrad | EBackward _ | EOptimizerStep | ESchedulerStep _ => False
  | _ => True
  end.

(** Events other than the call of the early-stopping monitor and the
    message of the break. *)
Definition not_monitor (e : event S) : Prop :=
  match e with
  | EEarlyStopping _ | EPrintEarlyStopping _ => False
  | _ => True
  end.

(** The mode flag a forward call finds: set in the training loop,
    cleared in the validation loop. *)
Definition mode_at (e : event S) : Prop :=
  match e with
  | EForward Training _ _ tr _ _ _ => tr = true
  | EForward Validation _ _ tr _ _ _ => tr = false
  | _ => True
  end.

(** The calls that change the gradients and the parameters, among some
    events: [optimizer.zero_grad()], [loss.backward()], [optimizer.step()]. *)
Definition update_calls (evs : list (event S)) : list (event S) :=
  filter (fun e => match e with
                   | EZeroGrad | EBackward _ | EOptimizerStep => true
                   | _ => false
                   end) evs.

(** The calls of the early-stopping monitor among some events, with the
    score each one is given. *)
Definition monitor_scores (evs : list (event S)) : list (pynum S) :=
  flat_map (fun e => match e with EEarlyStopping x => [x] | _ => [] end) evs.

(** While the mode flag of the model is [b], it stays [b] and every
    forward call finds the mode of its loop. *)
Definition moded (b : bool) (s s' : state) : Prop :=
  model_mode s = b -> model_mode s' = b /\ emits mode_at s s'.

(** Kinds of Python numbers. *)
Definition is_tensor (x : pynum S) : Prop :=
  match x with PTensor _ => True | _ => False end.

Definition is_float (x : pynum S) : Prop :=
  match x with PFloat _ => True | _ => False end.

End Observations.

(* ================================================================== *)
(** ** Two instances of the tensor library *)
(* ================================================================== *)

(** The checkpoint the classifier loads by default. *)
Definition camembert_base : CamembertConfig :=
  mkCamembertConfig 32005 768 12 12 514.

Definition known_checkpoints (name : string) : option CamembertConfig :=
  if String.eqb name "camembert-base" then Some camembert_base else None.

(** An encoder that takes a mask of the shape of the token indices, and
    no more tokens than it has positions, two of which are reserved. *)
Definition refuses_unless_plain {S : Type} (c : CamembertConfig) (s : list nat)
  (_ : payload S) (m : list nat) (_ : payload S) : option exn :=
  if negb (list_eqb m s)
  then Some (RuntimeError "attention mask does not fit the input")
  else if negb (nth 1 s 0 + 2 <=? max_position_embeddings c) then Some IndexError
  else None.

(** An integer-valued library, on which every definition above computes:
    entries are integers, the sigmoid is rounded to 0 or 1, every learned
    layer has all its parameters at zero, and a reduction is the honest
    one.  It serves to run the definitions on concrete inputs. *)
Module ZLib.

Definition zsum (s : list nat) (d : payload Z) : Z :=
  fold_right Z.add 0%Z (map d (indices s)).

Definition zargmax (s : list nat) (d : payload Z) : payload Z :=
  fun idx =>
    match s, idx with
    | _ :: d1 :: _, i0 :: tl =>
        Z.of_nat
          (fold_left (fun best j => if (d (i0 :: best :: tl) <? d (i0 :: j :: tl))%Z
                                    then j else best)
                     (seq 0 d1) 0)
    | _, _ => 0%Z
    end.

Definition zmaxpool (k : nat) (s : list nat) (d : payload Z) : payload Z :=
  fun idx =>
    match idx with
    | [b; c; o] =>
        fold_left (fun best j => Z.max best (d [b; c; o * k + j]))
                  (seq 1 (k - 1)) (d [b; c; o * k])
    | _ => 0%Z
    end.

Definition zeros : payload Z := fun _ => 0%Z.

Definition lib (cuda : bool) : Torch unit Z := {|
  s_zero := 0%Z;
  s_one := 1%Z;
  s_of_Z := fun z => z;
  s_to_Z := fun z => z;
  s_add := Z.add;
  s_div := Z.div;
  s_eq := fun x y => if (x =? y)%Z then 1%Z else 0%Z;
  s_sigmoid := fun x => if (x <? 0)%Z then 0%Z else 1%Z;
  s_relu := Z.max 0;
  embedding_k := fun _ _ _ _ => zeros;
  lstm_k := fun _ _ _ _ _ _ => (zeros, (zeros, zeros));
  dropout_k := fun _ _ _ d => d;
  linear_k := fun _ _ _ _ => zeros;
  conv2d_k := fun _ _ _ _ => zeros;
  max_pool1d_k := zmaxpool;
  encoder_k := fun _ _ _ _ _ _ => (zeros, zeros, fun _ => zeros);
  encoder_refuses := refuses_unless_plain;
  argmax_k := fun _ => zargmax;
  sum_k := zsum;
  autograd_backward := fun _ w => w;
  camembert_config := known_checkpoints;
  cuda_is_available := cuda
|}.

End ZLib.

(** The real-valued library: entries are real numbers and the sigmoid
    is the logistic function; every learned layer has all its parameters
    at zero, so that a linear layer returns zeros. *)
Module RLib.

Definition logistic (x : R) : R := (/ (1 + exp (- x)))%R.

(** Truncation toward zero. *)
Definition truncate (x : R) : Z :=
  if Rle_dec 0 x then Int_part x else (- Int_part (- x))%Z.

Definition rzeros : payload R := fun _ => 0%R.

Definition rsum (s : list nat) (d : payload R) : R :=
  fold_right Rplus 0%R (map d (indices s)).

Definition rargmax (s : list nat) (d : payload R) : payload R :=
  fun idx =>
    match s, idx with
    | _ :: d1 :: _, i0 :: tl =>
        INR (fold_left (fun best j => if Rlt_dec (d (i0 :: best :: tl)) (d (i0 :: j :: tl))
                                      then j else best)
                       (seq 0 d1) 0)
    | _, _ => 0%R
    end.

Definition rmaxpool (k : nat) (s : list nat) (d : payload R) : payload R :=
  fun idx =>
    match idx with
    | [b; c; o] =>
        fold_left (fun best j => Rmax best (d [b; c; o * k + j]))
                  (seq 1 (k - 1)) (d [b; c; o * k])
    | _ => 0%R
    end.

Definition lib : Torch unit R := {|
  s_zero := 0%R;
  s_one := 1%R;
  s_of_Z := IZR;
  s_to_Z := truncate;
  s_add := Rplus;
  s_div := Rdiv;
  s_eq := fun x y => if Req_dec_T x y then 1%R else 0%R;
  s_sigmoid := logistic;
  s_relu := Rmax 0;
  embedding_k := fun _ _ _ _ => rzeros;
  lstm_k := fun _ _ _ _ _ _ => (rzeros, (rzeros, rzeros));
  dropout_k := fun _ _ _ d => d;
  linear_k := fun _ _ _ _ => rzeros;
  conv2d_k := fun _ _ _ _ => rzeros;
  max_pool1d_k := rmaxpool;
  encoder_k := fun _ _ _ _ _ _ => (rzeros, rzeros, fun _ => rzeros);
  encoder_refuses := refuses_unless_plain;
  argmax_k := fun _ => rargmax;
  sum_k := rsum;
  autograd_backward := fun _ w => w;
  camembert_config := known_checkpoints;
  cuda_is_available := false
|}.

End RLib.

(* ================================================================== *)
(** ** Concrete inputs *)
(* ================================================================== *)

(** Small models, loaders and collaborators over the integer-valued
    library, on which the statements below are run. *)
Module Example.

Definition rnn : RNN.t :=
  RNN.mk 2 1 4 (nn.mkEmbedding "embedding" 10 3) (nn.mkLSTM "lstm" 3 4 1 (1 # 2))
         (nn.mkDropout (1 # 2)) (nn.mkLinear "fc" 4 2).

Definition cnn : CNN.t :=
  CNN.mk (nn.mkEmbedding "embedding" 10 3)
         [nn.mkConv2d "convs1.0" 1 2 1 3; nn.mkConv2d "convs1.1" 1 2 2 3]
         (nn.mkDropout (1 # 10)) (nn.mkLinear "fc1" 4 5).

Definition bert : CamembertClassifier.t :=
  CamembertClassifier.mk (nn.mkCamembertModel "camembert-base" camembert_base)
                         (nn.mkLinear "cls_layer" 768 5).

(** A batch of [b] sequences of three tokens, and its labels. *)
Definition ids (b : nat) (d : dev) : tensor Z := mkTensor [b; 3] d (fun _ => 1%Z).
Definition labels (b : nat) (d : dev) : tensor Z := mkTensor [b] d (fun _ => 0%Z).

(** A loader of the given batch size that yields batches of the given
    sizes, the same at every epoch. *)
Definition loader (bs : nat) (sizes : list nat) : DataLoader Z :=
  mkDataLoader bs (fun _ => map (fun b => [ids b Cpu; labels b Cpu]) sizes).

Definition bert_loader (bs : nat) (sizes : list nat) : DataLoader Z :=
  mkDataLoader bs (fun _ => map (fun b => [ids b Cpu; ids b Cpu; labels b Cpu]) sizes).

(** A criterion whose loss is always 1. *)
Definition unit_loss (output labels : tensor Z) : result (tensor Z) :=
  Ok (mkTensor [] (device output) (fun _ => 1%Z)).

Definition sgd : Optimizer unit unit :=
  mkOptimizer (fun w => w) (fun o w => (o, w)).

(** A monitor that counts its calls and stops past its patience. *)
Definition monitor : EarlyStoppingClass unit Z (nat * nat) :=
  mkEarlyStoppingClass
    (fun patience => (patience, 0))
    (fun m _ _ => (fst m, Datatypes.S (snd m)))
    (fun m => fst m <? snd m).

Definition args (model : model_obj) (model_type : string) (early : bool)
  (train_loader val_loader : DataLoader Z) (n_epochs : nat) (gpu : bool)
  : train_args unit Z unit (nat * nat) :=
  mkTrainArgs model model_type unit_loss sgd early (Some (fun _ o => o))
              train_loader val_loader n_epochs gpu 1 1 1 monitor.

(** A model that has just been built: on the CPU, in training mode. *)
Definition fresh : module_state unit := mkModuleState tt Cpu true.

(** The library without and with CUDA. *)
Definition lib : Torch unit Z := ZLib.lib false.
Definition cuda_lib : Torch unit Z := ZLib.lib true.

(** Three epochs of the recurrent classifier over two full batches. *)
Definition a_rnn : train_args unit Z unit (nat * nat) :=
  args (Rnn rnn) "rnn" false (loader 2 [2; 2]) (loader 2 [2]) 3 false.

(** The same with a last batch of one sequence. *)
Definition a_short : train_args unit Z unit (nat * nat) :=
  args (Rnn rnn) "rnn" false (loader 2 [2; 1]) (loader 2 [2]) 3 false.

(** Five epochs of the convolutional classifier with early stopping. *)
Definition a_stop : train_args unit Z unit (nat * nat) :=
  args (Cnn cnn) "cnn" true (loader 2 [2; 1]) (loader 2 [2]) 5 false.

(** A training loader that yields one batch, and one that yields none. *)
Definition a_single : train_args unit Z unit (nat * nat) :=
  args (Cnn cnn) "cnn" false (loader 2 [2]) (loader 2 [2]) 3 false.

Definition a_empty : train_args unit Z unit (nat * nat) :=
  args (Cnn cnn) "cnn" false (loader 2 []) (loader 2 [2]) 3 false.

(** The convolutional classifier with [gpu] true. *)
Definition a_gpu : train_args unit Z unit (nat * nat) :=
  args (Cnn cnn) "cnn" false (loader 2 [2]) (loader 2 [2]) 3 true.

(** A model type that [train] does not know. *)
Definition a_unsupported : train_args unit Z unit (nat * nat) :=
  args (Rnn rnn) "lstm" false (loader 2 [2; 1]) (loader 2 [2]) 3 false.

(** No epoch at all, and a validation loader that yields no batch. *)
Definition a_none : train_args unit Z unit (nat * nat) :=
  args (Cnn cnn) "cnn" false (loader 2 [2]) (loader 2 [2]) 0 false.

Definition a_noval : train_args unit Z unit (nat * nat) :=
  args (Cnn cnn) "cnn" false (loader 2 [2; 2]) (loader 2 []) 3 false.

(** Printing periods of 0, and a run without a scheduler. *)
Definition a_period0 : train_args unit Z unit (nat * nat) :=
  mkTrainArgs (Cnn cnn) "cnn" unit_loss sgd false (Some (fun _ o => o))
              (loader 2 [2; 2]) (loader 2 [2]) 1 false 0 0 1 monitor.

Definition a_plain : train_args unit Z unit (nat * nat) :=
  mkTrainArgs (Cnn cnn) "cnn" unit_loss sgd false None
              (loader 2 [2; 2]) (loader 2 [2]) 2 false 1 1 1 monitor.

Definition start (a : train_args unit Z unit (nat * nat)) : state unit Z unit (nat * nat) :=
  first_epoch_state (H:=lib) a fresh tt.

(** Real-valued inputs: one sequence of one token, index 0, for a model
    in evaluation mode; the hidden state [init_hidden] gives for it. *)
Definition evaluating : module_state unit := mkModuleState tt Cpu false.

Definition zero_ids : tensor R := mkTensor [1; 1] Cpu (fun _ => 0%R).

Definition zero_hidden : tensor R * tensor R :=
  RNN.init_hidden (H:=RLib.lib) rnn evaluating 1.

End Example.

(* ================================================================== *)
(** * Properties *)
(* ================================================================== *)

(* ================================================================== *)
(** ** Basic facts *)
(* ================================================================== *)

Lemma dev_eqb_eq (a b : dev) : dev_eqb a b = true <-> a = b.
Proof. destruct a, b; simpl; split; intros E; congruence. Qed.

Lemma dev_eqb_refl (a : dev) : dev_eqb a a = true.
Proof. destruct a; reflexivity. Qed.

Lemma list_eqb_eq (s1 s2 : list nat) : list_eqb s1 s2 = true <-> s1 = s2.
Proof. unfold list_eqb. destruct (list_eq_dec Nat.eq_dec s1 s2); split; congruence. Qed.

Lemma list_eqb_refl (s : list nat) : list_eqb s s = true.
Proof. apply list_eqb_eq. reflexivity. Qed.

(* ================================================================== *)
(** ** Shapes through the layers *)
(* ================================================================== *)

Section ModelFacts.
Context {W S : Type} `{Torch W S}.

Lemma Embedding_call_ok (l : nn.Embedding) (ms : module_state W) (x : tensor S) :
  device x = param_device ms ->
  torch.all_below (nn.num_embeddings l) x = true ->
  exists t, nn.Embedding_call l ms x = Ok t
            /\ shape t = shape x ++ [nn.embedding_dim l] /\ device t = device x.
Proof.
  intros D A. unfold nn.Embedding_call, nn.on_device.
  rewrite D, dev_eqb_refl, A. simpl. eexists. split; [reflexivity|]. split; reflexivity.
Qed.

Lemma LSTM_call_ok (l : nn.LSTM) (ms : module_state W) (x h0 c0 : tensor S) (b len : nat) :
  device x = param_device ms -> device h0 = param_device ms -> device c0 = param_device ms ->
  shape x = [b; len; nn.input_size l] ->
  shape h0 = [nn.num_layers l; b; nn.lstm_hidden_size l] ->
  shape c0 = [nn.num_layers l; b; nn.lstm_hidden_size l] ->
  exists o hn cn, nn.LSTM_call l ms x (h0, c0) = Ok (o, (hn, cn))
    /\ shape o = [b; len; nn.lstm_hidden_size l] /\ device o = device x
    /\ shape hn = shape h0 /\ shape cn = shape c0.
Proof.
  intros D D0 D1 Sx S0 S1. unfold nn.LSTM_call, nn.on_device.
  rewrite D, D0, D1, !dev_eqb_refl, Sx, S0, S1, Nat.eqb_refl, !list_eqb_refl. simpl.
  destruct (lstm_k _ _ _ _ _ _) as [o [hn cn]].
  do 3 eexists. split; [reflexivity|]. simpl. auto.
Qed.

Lemma select_last_ok (t : tensor S) (b len h : nat) :
  shape t = [b; len; h] -> 1 <= len ->
  exists u, torch.select_dim1 1 (-1) t = Ok u /\ shape u = [b; h] /\ device u = device t.
Proof.
  intros St L. unfold torch.select_dim1, torch.norm_index. rewrite St. simpl.
  destruct ((0 <=? Z.of_nat len + -1)%Z && (Z.of_nat len + -1 <? Z.of_nat len)%Z) eqn:E.
  - simpl. eexists. split; [reflexivity|]. auto.
  - apply andb_false_iff in E. destruct E as [E|E]; [apply Z.leb_gt in E | apply Z.ltb_ge in E]; lia.
Qed.

Lemma Dropout_call_ok (l : nn.Dropout) (ms : module_state W) (x : tensor S) :
  exists t, nn.Dropout_call l ms x = Ok t /\ shape t = shape x /\ device t = device x.
Proof.
  unfold nn.Dropout_call. destruct (training ms); eexists; (split; [reflexivity|]); auto.
Qed.

Lemma Linear_call_ok (l : nn.Linear) (ms : module_state W) (x : tensor S) (pre : list nat) :
  device x = param_device ms ->
  shape x = pre ++ [nn.in_features l] ->
  exists t, nn.Linear_call l ms x = Ok t
            /\ shape t = pre ++ [nn.out_features l] /\ device t = device x.
Proof.
  intros D Sx. unfold nn.Linear_call, nn.on_device.
  rewrite D, dev_eqb_refl, Sx, rev_app_distr. simpl.
  rewrite Nat.eqb_refl, rev_involutive.
  eexists. split; [reflexivity|]. auto.
Qed.

Lemma view_rows_ok (t : tensor S) (b n : nat) :
  shape t = [b; n] -> 1 <= b ->
  exists u, torch.view_rows b t = Ok u /\ shape u = [b; n] /\ device u = device t.
Proof.
  intros St B. unfold torch.view_rows. rewrite St. unfold numel. simpl fold_right.
  rewrite Nat.mul_1_r.
  replace (b =? 0) with false by (symmetry; apply Nat.eqb_neq; lia).
  rewrite Nat.mul_comm, Nat.Div0.mod_mul, Nat.div_mul by lia. simpl.
  eexists. split; [reflexivity|]. auto.
Qed.

Lemma RNN_init_fields vocab output_size embedding_dim hidden_dim n_layers drop_prob self :
  RNN.__init__ vocab output_size embedding_dim hidden_dim n_layers drop_prob = Ok self ->
  RNN.output_size self = output_size /\ RNN.n_layers self = n_layers
  /\ RNN.hidden_dim self = hidden_dim
  /\ RNN.embedding self = nn.mkEmbedding "embedding" vocab embedding_dim
  /\ RNN.lstm self = nn.mkLSTM "lstm" embedding_dim hidden_dim n_layers drop_prob
  /\ RNN.fc self = nn.mkLinear "fc" hidden_dim output_size.
Proof.
  unfold RNN.__init__, nn.new_LSTM, nn.new_Dropout.
  destruct (probability drop_prob); simpl; [|discriminate].
  intros E. inversion E. simpl. repeat split.
Qed.

Lemma RNN_forward_shape vocab output_size embedding_dim hidden_dim n_layers drop_prob
  (self : RNN.t) (ms : module_state W) (x h0 c0 : tensor S) (B L : nat) :
  RNN.__init__ vocab output_size embedding_dim hidden_dim n_layers drop_prob = Ok self ->
  shape x = [B; L] -> 1 <= B -> 1 <= L ->
  torch.all_below vocab (torch.long x) = true ->
  device x = param_device ms -> device h0 = param_device ms -> device c0 = param_device ms ->
  shape h0 = [n_layers; B; hidden_dim] -> shape c0 = [n_layers; B; hidden_dim] ->
  exists scores hidden, RNN.forward self ms x (h0, c0) = Ok (scores, hidden)
    /\ shape scores = [B; output_size].
Proof.
  intros I Sx HB HL A D D0 D1 S0 S1.
  destruct (RNN_init_fields _ _ _ _ _ _ I) as (_ & _ & _ & Ee & El & Ef).
  unfold RNN.forward. unfold torch.size. rewrite Sx. simpl nth_error. cbn [rbind].
  destruct (@Embedding_call_ok (RNN.embedding self) ms (torch.long x)) as (e & -> & Se & De).
  { exact D. } { rewrite Ee. exact A. }
  cbn [rbind].
  destruct (@LSTM_call_ok (RNN.lstm self) ms e h0 c0 B L) as (o & hn & cn & -> & So & Do & _).
  { rewrite De. exact D. } { exact D0. } { exact D1. }
  { rewrite Se, El, Ee. simpl. rewrite Sx. reflexivity. }
  { rewrite El. exact S0. } { rewrite El. exact S1. }
  cbn [rbind].
  destruct (select_last_ok o So HL) as (u & -> & Su & Du). cbn [rbind].
  destruct (Dropout_call_ok (RNN.dropout self) ms u) as (d & -> & Sd & Dd). cbn [rbind].
  destruct (@Linear_call_ok (RNN.fc self) ms d [B]) as (f & -> & Sf & Df).
  { rewrite Dd, Du, Do, De. exact D. }
  { rewrite Sd, Su, El, Ef. reflexivity. }
  cbn [rbind].
  destruct (view_rows_ok (torch.sigmoid f) (b:=B) (n:=output_size)) as (v & -> & Sv & _).
  { simpl. rewrite Sf, Ef. reflexivity. } { exact HB. }
  cbn [rbind]. do 2 eexists. split; [reflexivity| exact Sv].
Qed.

Lemma rmap_ok {A B : Type} (f : A -> result B) (P : B -> Prop) (l : list A) :
  (forall a, In a l -> exists b, f a = Ok b /\ P b) ->
  exists l', rmap f l = Ok l' /\ Forall P l' /\ List.length l' = List.length l.
Proof.
  induction l as [|a l IH]; intros Hf; simpl.
  - exists []. auto.
  - destruct (Hf a (or_introl eq_refl)) as (b & -> & Pb).
    destruct IH as (l' & -> & Pl & Ll).
    { intros a' Ha'. apply Hf. right. exact Ha'. }
    simpl. exists (b :: l'). simpl. auto.
Qed.

Lemma unsqueeze1_ok (t : tensor S) (b len e : nat) :
  shape t = [b; len; e] ->
  exists u, torch.unsqueeze 1 t = Ok u /\ shape u = [b; 1; len; e] /\ device u = device t.
Proof.
  intros St. unfold torch.unsqueeze. rewrite St. simpl.
  eexists. split; [reflexivity|]. auto.
Qed.

Lemma conv_relu_squeeze_ok (l : nn.Conv2d) (ms : module_state W) (x : tensor S)
  (b len : nat) :
  device x = param_device ms ->
  shape x = [b; 1; len; nn.kernel_w l] ->
  nn.in_channels l = 1 -> 1 <= nn.kernel_h l <= len -> 1 <= nn.kernel_w l ->
  exists t, (let* y := nn.Conv2d_call l ms x in torch.squeeze 3 (torch.relu y)) = Ok t
    /\ shape t = [b; nn.out_channels l; len - nn.kernel_h l + 1] /\ device t = device x.
Proof.
  intros D Sx C K Kw. unfold nn.Conv2d_call, nn.on_device.
  rewrite D, dev_eqb_refl, Sx, C. simpl negb. cbv iota.
  replace (1 <=? nn.kernel_h l) with true by (symmetry; apply Nat.leb_le; lia).
  replace (nn.kernel_h l <=? len) with true by (symmetry; apply Nat.leb_le; lia).
  replace (1 <=? nn.kernel_w l) with true by (symmetry; apply Nat.leb_le; lia).
  rewrite Nat.leb_refl, Nat.sub_diag. simpl.
  eexists. split; [reflexivity|]. auto.
Qed.

Lemma pool_squeeze_ok (t : tensor S) (b c k : nat) :
  shape t = [b; c; k] -> 1 <= k ->
  exists u, (let* n := torch.size t 2 in
             let* y := torch.max_pool1d t n in torch.squeeze 2 y) = Ok u
    /\ shape u = [b; c] /\ device u = device t.
Proof.
  intros St K. unfold torch.size, torch.max_pool1d. rewrite St. simpl.
  replace (k =? 0) with false by (symmetry; apply Nat.eqb_neq; lia).
  rewrite Nat.ltb_irrefl, Nat.sub_diag. simpl.
  rewrite Nat.Div0.div_0_l. simpl.
  eexists. split; [reflexivity|]. auto.
Qed.

Lemma list_sum_dim1 (ts : list (tensor S)) (b c : nat) (d : dev) :
  Forall (fun t => shape t = [b; c] /\ device t = d) ts ->
  list_sum (map (@torch.dim1 S) ts) = c * List.length ts.
Proof.
  induction 1 as [|u us [Su _] _ IH]; simpl.
  - lia.
  - unfold torch.dim1 at 1. rewrite Su, IH. simpl. lia.
Qed.

Lemma cat1_ok (ts : list (tensor S)) (b c : nat) (d : dev) :
  ts <> [] ->
  Forall (fun t => shape t = [b; c] /\ device t = d) ts ->
  exists u, torch.cat1 ts = Ok u
    /\ shape u = [b; c * List.length ts] /\ device u = d.
Proof.
  intros NE F. destruct ts as [|t ts']; [congruence|].
  unfold torch.cat1.
  assert (Ht : shape t = [b; c] /\ device t = d) by (inversion F; assumption).
  destruct Ht as [St Dt].
  assert (C : forallb (torch.cat1_compatible t) (t :: ts') = true).
  { apply forallb_forall. intros u Hu.
    rewrite Forall_forall in F. destruct (F u Hu) as [Su Du].
    unfold torch.cat1_compatible. rewrite St, Su, Dt, Du.
    rewrite Nat.eqb_refl, list_eqb_refl, dev_eqb_refl. reflexivity. }
  rewrite C, St. eexists. split; [reflexivity|]. simpl shape. simpl device. split; [|exact Dt].
  f_equal. f_equal. exact (list_sum_dim1 F).
Qed.

Lemma CNN_init_fields max_features embed_size num_filters filter_sizes self :
  CNN.__init__ max_features embed_size num_filters filter_sizes = Ok self ->
  CNN.embedding self = nn.mkEmbedding "embedding" max_features embed_size
  /\ CNN.convs1 self =
       map (fun '(i, (n, K)) =>
              nn.mkConv2d (String.append "convs1." (string_of_nat i)) 1 n K embed_size)
           (enumerate (combine num_filters filter_sizes))
  /\ exists n_last, last_item num_filters = Ok n_last
       /\ CNN.fc1 self = nn.mkLinear "fc1" (n_last * List.length filter_sizes) 5.
Proof.
  unfold CNN.__init__. simpl.
  destruct (last_item num_filters) as [n_last|e]; simpl; [|discriminate].
  intros E. inversion E. simpl. split; [reflexivity|]. split; [reflexivity|].
  exists n_last. auto.
Qed.

Lemma last_item_const (c : nat) (l : list nat) (n : nat) :
  Forall (fun x => x = c) l -> last_item l = Ok n -> n = c.
Proof.
  unfold last_item. intros F E.
  destruct (rev l) as [|a r] eqn:R; [discriminate|].
  inversion E; subst a.
  rewrite Forall_forall in F. apply F. apply in_rev. rewrite R. left. reflexivity.
Qed.

Lemma In_enumerate {A : Type} (l : list A) (i : nat) (a : A) :
  In (i, a) (enumerate l) -> In a l.
Proof. unfold enumerate. intros I. apply in_combine_r in I. exact I. Qed.

Lemma length_enumerate {A : Type} (l : list A) : List.length (enumerate l) = List.length l.
Proof. unfold enumerate. rewrite length_combine, length_seq. lia. Qed.

Lemma CNN_forward_shape max_features embed_size num_filters filter_sizes
  (self : CNN.t) (ms : module_state W) (x : tensor S) (B L c : nat) :
  CNN.__init__ max_features embed_size num_filters filter_sizes = Ok self ->
  Forall (fun n => n = c) num_filters ->
  List.length num_filters = List.length filter_sizes -> filter_sizes <> [] ->
  Forall (fun K => 1 <= K <= L) filter_sizes -> 1 <= embed_size ->
  shape x = [B; L] ->
  torch.all_below max_features (torch.long x) = true ->
  device x = param_device ms ->
  exists scores, CNN.forward self ms x = Ok scores /\ shape scores = [B; 5].
Proof.
  intros I Fc Len NE FK HE Sx A D.
  destruct (CNN_init_fields _ _ _ _ I) as (Ee & Ec & n_last & Hl & Ef).
  assert (n_last = c) by (eapply last_item_const; eauto). subst n_last.
  unfold CNN.forward.
  destruct (@Embedding_call_ok (CNN.embedding self) ms (torch.long x)) as (e & -> & Se & De).
  { exact D. } { rewrite Ee. exact A. }
  cbn [rbind].
  destruct (@unsqueeze1_ok e B L embed_size) as (u & -> & Su & Du).
  { rewrite Se, Ee. simpl. rewrite Sx. reflexivity. }
  cbn [rbind].
  destruct (rmap_ok
    (fun conv => let* y := nn.Conv2d_call conv ms u in torch.squeeze 3 (torch.relu y))
    (fun t => exists k, shape t = [B; c; k] /\ 1 <= k /\ device t = param_device ms)
    (CNN.convs1 self)) as (xs & -> & Fx & Lx).
  { intros conv Hin. rewrite Ec in Hin. apply in_map_iff in Hin.
    destruct Hin as ([i [n K]] & <- & Hin). apply In_enumerate in Hin.
    pose proof (in_combine_l _ _ _ _ Hin) as Hn. pose proof (in_combine_r _ _ _ _ Hin) as HK.
    rewrite Forall_forall in Fc, FK. specialize (Fc _ Hn). specialize (FK _ HK). subst n.
    destruct (@conv_relu_squeeze_ok
      (nn.mkConv2d (String.append "convs1." (string_of_nat i)) 1 c K embed_size) ms u B L)
      as (t & Et & St & Dt); simpl; auto.
    { rewrite Du, De. exact D. }
    exists t. split; [exact Et|]. exists (L - K + 1). simpl in St.
    split; [exact St|]. split; [lia|]. rewrite Dt, Du, De. exact D. }
  cbn [rbind].
  destruct (rmap_ok
    (fun i => let* k := torch.size i 2 in
              let* y := torch.max_pool1d i k in torch.squeeze 2 y)
    (fun t => shape t = [B; c] /\ device t = param_device ms) xs) as (ys & -> & Fy & Ly).
  { intros t Hin. rewrite Forall_forall in Fx. destruct (Fx _ Hin) as (k & St & Hk & Dt).
    destruct (pool_squeeze_ok t St Hk) as (v & Ev & Sv & Dv).
    exists v. split; [exact Ev|]. split; [exact Sv|]. rewrite Dv. exact Dt. }
  cbn [rbind].
  assert (Lys : List.length ys = List.length filter_sizes).
  { rewrite Ly, Lx, Ec, length_map, length_enumerate, length_combine. lia. }
  destruct (@cat1_ok ys B c (param_device ms)) as (z & -> & Sz & Dz).
  { intros ->. simpl in Lys. destruct filter_sizes; [congruence|discriminate]. }
  { exact Fy. }
  cbn [rbind].
  destruct (Dropout_call_ok (CNN.dropout self) ms z) as (d & -> & Sd & Dd). cbn [rbind].
  destruct (@Linear_call_ok (CNN.fc1 self) ms d [B]) as (f & -> & Sf & Df).
  { rewrite Dd. exact Dz. }
  { rewrite Sd, Sz, Ef, Lys. reflexivity. }
  cbn [rbind]. exists f. split; [reflexivity|]. rewrite Sf, Ef. reflexivity.
Qed.

End ModelFacts.

(* ================================================================== *)
(** ** What [forward] returns *)
(* ================================================================== *)

Section Forward.
Context {W S : Type} `{Torch W S}.

Lemma ravel_unravel_rows (b n i j : nat) :
  i < b -> j < n -> unravel [b; n] (ravel [b; n] [i; j]) = [i; j].
Proof.
  intros Hi Hj. unfold ravel, unravel, numel. simpl fold_right.
  rewrite !Nat.mul_1_r, !Nat.add_0_r, Nat.div_1_r.
  assert (E1 : (i * n + j) / n = i).
  { rewrite Nat.add_comm, Nat.div_add by lia. rewrite Nat.div_small by lia. reflexivity. }
  assert (E2 : (i * n + j) mod n = j).
  { rewrite Nat.add_comm, Nat.Div0.mod_add. apply Nat.mod_small. lia. }
  rewrite E1, E2, !Nat.mod_small by lia. reflexivity.
Qed.

(** C5, as amended.  The convolutional and the transformer classifiers
    return the output of their final linear layer ([fc1], [cls_layer]) as
    it is.  The recurrent classifier does not: it applies the sigmoid to
    every entry of the output of [fc] and returns the result viewed as
    (batch_size, -1), so each of its scores is the sigmoid of the score of
    the linear layer.  No variant applies a softmax. *)
Theorem C5_final_layer :
  (forall (self : CNN.t) (ms : module_state W) (x : tensor S),
      CNN.forward self ms x
      = (let* f := CNN.features self ms x in nn.Linear_call (CNN.fc1 self) ms f))
  /\ (forall (self : CamembertClassifier.t) (ms : module_state W) (seq attn_masks : tensor S),
      CamembertClassifier.forward self ms seq attn_masks
      = (let* '(cls_rep, attentions) :=
           CamembertClassifier.cls_representation self ms seq attn_masks in
         let* logits := nn.Linear_call (CamembertClassifier.cls_layer self) ms cls_rep in
         Ok (logits, attentions)))
  /\ (forall (self : RNN.t) (ms : module_state W) (x : tensor S) (hidden : tensor S * tensor S),
      RNN.forward self ms x hidden
      = (let* '(batch_size, out, hidden') := RNN.fc_output self ms x hidden in
         let* scores := torch.view_rows batch_size (torch.sigmoid out) in
         Ok (scores, hidden')))
  /\ (forall (self : RNN.t) (ms : module_state W) (x : tensor S)
            (hidden hidden' : tensor S * tensor S) (scores : tensor S),
      RNN.forward self ms x hidden = Ok (scores, hidden') ->
      exists batch_size logits,
        RNN.fc_output self ms x hidden = Ok (batch_size, logits, hidden')
        /\ forall n i j, shape logits = [batch_size; n] -> i < batch_size -> j < n ->
            data scores [i; j] = s_sigmoid (data logits [i; j])).
Proof.
  split; [|split; [|split]].
  - intros self ms x. unfold CNN.forward, CNN.features.
    repeat match goal with
           | |- rbind ?c _ = rbind (rbind ?c _) _ => destruct c; simpl; [|reflexivity]
           | |- rbind ?c _ = rbind ?c _ => destruct c; simpl; [|reflexivity]
           end.
    destruct (nn.Linear_call _ _ _); reflexivity.
  - intros self ms seq attn_masks.
    unfold CamembertClassifier.forward, CamembertClassifier.cls_representation.
    destruct (nn.CamembertModel_call _ _ _ _) as [[[reps pooled] att]|e]; simpl;
      [|reflexivity].
    destruct (torch.select_dim1 0 0 reps); reflexivity.
  - intros self ms x hidden. unfold RNN.forward, RNN.fc_output.
    destruct (torch.size x 0); simpl; [|reflexivity].
    destruct (nn.Embedding_call _ _ _); simpl; [|reflexivity].
    destruct (nn.LSTM_call _ _ _ _) as [[o hd]|e]; simpl; [|reflexivity].
    destruct (torch.select_dim1 1 (-1) o); simpl; [|reflexivity].
    destruct (nn.Dropout_call _ _ _); simpl; [|reflexivity].
    destruct (nn.Linear_call _ _ _); reflexivity.
  - intros self ms x hidden hidden' scores. unfold RNN.forward, RNN.fc_output.
    destruct (torch.size x 0) as [bs|e]; simpl; [|discriminate].
    destruct (nn.Embedding_call _ _ _); simpl; [|discriminate].
    destruct (nn.LSTM_call _ _ _ _) as [[o hd]|e]; simpl; [|discriminate].
    destruct (torch.select_dim1 1 (-1) o); simpl; [|discriminate].
    destruct (nn.Dropout_call _ _ _); simpl; [|discriminate].
    destruct (nn.Linear_call _ _ _) as [logits|e]; simpl; [|discriminate].
    unfold torch.view_rows.
    destruct (_ || _); simpl; [discriminate|].
    intros E0. inversion E0; subst; clear E0.
    exists bs, logits. split; [reflexivity|].
    intros n i j Sl Hi Hj. simpl. rewrite Sl.
    replace (numel [bs; n] / bs) with n.
    + change (i * (n * 1) + (j * 1 + 0)) with (ravel [bs; n] [i; j]).
      rewrite ravel_unravel_rows by assumption. reflexivity.
    + unfold numel. simpl. rewrite Nat.mul_1_r, Nat.mul_comm, Nat.div_mul by lia.
      reflexivity.
Qed.

End Forward.

(* ================================================================== *)
(** ** Reasoning about computations *)
(* ================================================================== *)

Section Frames.
Context {W S O E : Type}.
Local Abbreviation steps := (steps (W:=W) (S:=S) (O:=O) (E:=E)).
Local Abbreviation emits := (emits (W:=W) (S:=S) (O:=O) (E:=E)).
Local Abbreviation keeps := (keeps (W:=W) (S:=S) (O:=O) (E:=E)).

Local Abbreviation state := (state W S O E).
Local Abbreviation M := (M (W:=W) (S:=S) (O:=O) (E:=E)).

#[global] Instance emits_preorder (P : event S -> Prop) : PreOrder (emits P).
Proof.
  split.
  - intros s. exists []. rewrite app_nil_r. auto.
  - intros s1 s2 s3 (e1 & E1 & F1) (e2 & E2 & F2). exists (e1 ++ e2).
    rewrite E2, E1, app_assoc. split; [reflexivity|]. apply Forall_app. auto.
Qed.

#[global] Instance keeps_preorder {X : Type} (f : state -> X) : PreOrder (keeps f).
Proof.
  split.
  - intros s. reflexivity.
  - intros s1 s2 s3 E1 E2. unfold keeps in *. congruence.
Qed.

Section Rules.
Variable R : state -> state -> Prop.
Context {PR : PreOrder R}.

Lemma steps_ret {A : Type} (a : A) : steps R (ret a).
Proof. intros s. simpl. reflexivity. Qed.

Lemma steps_raise {A : Type} (e : exn) : steps R (raise (A:=A) e).
Proof. intros s. simpl. reflexivity. Qed.

Lemma steps_lift {A : Type} (r : result A) : steps R (lift r).
Proof. intros s. simpl. reflexivity. Qed.

Lemma steps_gets {A : Type} (f : state -> A) : steps R (gets f).
Proof. intros s. simpl. reflexivity. Qed.

Lemma steps_bind {A B : Type} (c : M A) (k : A -> M B) :
  steps R c -> (forall a, steps R (k a)) -> steps R (bind c k).
Proof.
  intros Hc Hk s. unfold bind. specialize (Hc s).
  destruct (c s) as [[a|e] s1]; simpl in *.
  - etransitivity; [exact Hc | apply Hk].
  - exact Hc.
Qed.

Lemma steps_for_each {A B : Type} (body : A -> B -> M B) (l : list A) :
  (forall a b, steps R (body a b)) -> forall acc, steps R (for_each body l acc).
Proof.
  intros Hb. induction l as [|a l IH]; intros acc; simpl.
  - apply steps_ret.
  - apply steps_bind; [apply Hb | exact IH].
Qed.

Lemma steps_for_break {A : Type} (body : A -> M bool) (l : list A) :
  (forall a, steps R (body a)) -> steps R (for_break body l).
Proof.
  intros Hb. induction l as [|a l IH]; simpl.
  - apply steps_ret.
  - apply steps_bind; [apply Hb |]. intros [|]; [apply steps_ret | exact IH].
Qed.

End Rules.

Lemma steps_modify_keeps {X : Type} (f : state -> X) (g : state -> state) :
  (forall s, f (g s) = f s) -> steps (keeps f) (modify g).
Proof. intros Hg s. simpl. apply Hg. Qed.

Lemma steps_modify_emits (P : event S -> Prop) (g : state -> state) :
  (forall s, trace (g s) = trace s) -> steps (emits P) (modify g).
Proof. intros Hg s. simpl. exists []. rewrite Hg, app_nil_r. auto. Qed.

Lemma steps_emit (P : event S -> Prop) (e : event S) :
  P e -> steps (emits P) (emit e).
Proof. intros Pe s. simpl. exists [e]. auto. Qed.

End Frames.

Ltac frame_step :=
  match goal with
  | |- PreOrder _ => typeclasses eauto
  | |- forall _, _ => intro
  | |- steps _ (ret _) => apply steps_ret
  | |- steps _ (raise _) => apply steps_raise
  | |- steps _ (lift _) => apply steps_lift
  | |- steps _ (gets _) => apply steps_gets
  | |- steps (emits _) (modify (fun s => mkState _ _ _ _ _ _ (trace s ++ [_]))) =>
      apply steps_emit; solve [auto | simpl; tauto]
  | |- steps (emits _) (modify _) => apply steps_modify_emits; intros; reflexivity
  | |- steps (keeps _) (modify _) => apply steps_modify_keeps; intros; reflexivity
  | |- steps _ (for_each _ _ _) => apply steps_for_each
  | |- steps _ (for_break _ _) => apply steps_for_break
  | |- steps _ (bind _ _) => apply steps_bind
  | |- steps _ (match ?x with _ => _ end) => destruct x
  | |- steps _ (if ?b then _ else _) => destruct b
  end.

Ltac frame := repeat frame_step.


Ltac unfold_train :=
  unfold train, plot_history, epoch, validation_phase, early_stopping_check,
    update_validation_history, print_validation, validation_loop, validation_iteration,
    training_phase, training_loop, update_training_history, read_it, scheduler_step,
    train_iteration, print_iteration, optimizer_step, loss_backward, optimizer_zero_grad,
    call_criterion, forward_dispatch, call_bert, call_cnn, call_rnn, model_init_hidden,
    model_train, model_eval, model_to,
    set_val_hist, set_hist, set_it, set_early_stopping, set_optimizer, set_module, emit.


Section Inversion.
Context {W S O E : Type}.
Local Abbreviation steps := (steps (W:=W) (S:=S) (O:=O) (E:=E)).
Local Abbreviation emits := (emits (W:=W) (S:=S) (O:=O) (E:=E)).
Local Abbreviation keeps := (keeps (W:=W) (S:=S) (O:=O) (E:=E)).
Local Abbreviation state := (state W S O E).
Local Abbreviation M := (M (W:=W) (S:=S) (O:=O) (E:=E)).

Lemma bind_inv {A B : Type} (c : M A) (k : A -> M B) (s s' : state) (r : result B) :
  bind c k s = (r, s') ->
  (exists a s1, c s = (Ok a, s1) /\ k a s1 = (r, s'))
  \/ (exists e, c s = (Raise e, s') /\ r = Raise e).
Proof.
  unfold bind. destruct (c s) as [[a|e] s1]; intros E0.
  - left. exists a, s1. auto.
  - right. exists e. inversion E0. auto.
Qed.

Lemma bind_assoc {A B C : Type} (c : M A) (k1 : A -> M B) (k2 : B -> M C) (s : state) :
  bind (bind c k1) k2 s = bind c (fun x => bind (k1 x) k2) s.
Proof. unfold bind. destruct (c s) as [[x|e] s1]; reflexivity. Qed.

Lemma bind_ok {A B : Type} (c : M A) (k : A -> M B) (s s' : state) (b : B) :
  bind c k s = (Ok b, s') ->
  exists a s1, c s = (Ok a, s1) /\ k a s1 = (Ok b, s').
Proof.
  intros E0. apply bind_inv in E0. destruct E0 as [E0 | (e & _ & E0)]; [exact E0 | discriminate].
Qed.

Lemma steps_run (R : state -> state -> Prop) {A : Type} (c : M A) (s s' : state)
  (r : result A) : steps R c -> c s = (r, s') -> R s s'.
Proof. intros Hc E0. specialize (Hc s). rewrite E0 in Hc. exact Hc. Qed.

End Inversion.
Arguments steps_run {W S O E R A c s s' r} _ _.

Section TrainFacts.
Context {W S O E : Type} `{Torch W S}.
Local Abbreviation steps := (steps (W:=W) (S:=S) (O:=O) (E:=E)).
Local Abbreviation emits := (emits (W:=W) (S:=S) (O:=O) (E:=E)).
Local Abbreviation keeps := (keeps (W:=W) (S:=S) (O:=O) (E:=E)).
Local Abbreviation T := (tensor S).
Local Abbreviation state := (state W S O E).
Variable a : train_args W S O E.

Lemma training_loop_keeps_hist ep : steps (keeps (@hist W S O E)) (training_loop a ep).
Proof. unfold_train. frame. Qed.

Lemma training_loop_keeps_val_hist ep : steps (keeps (@val_hist W S O E)) (training_loop a ep).
Proof. unfold_train. frame. Qed.

Lemma training_phase_keeps_val_hist ep :
  steps (keeps (@val_hist W S O E)) (training_phase a ep).
Proof. unfold_train. frame. Qed.

Lemma training_phase_quiet ep : steps (emits not_break) (training_phase a ep).
Proof. unfold_train. frame. Qed.

Lemma validation_phase_keeps_hist ep :
  steps (keeps (@hist W S O E)) (validation_phase a ep).
Proof. unfold_train. frame. Qed.

Lemma validation_loop_keeps_val_hist ep :
  steps (keeps (@val_hist W S O E)) (validation_loop a ep).
Proof. unfold_train. frame. Qed.

Lemma validation_loop_quiet ep : steps (emits not_break) (validation_loop a ep).
Proof. unfold_train. frame. Qed.

Lemma scheduler_step_keeps_hist x : steps (keeps (@hist W S O E)) (scheduler_step a x).
Proof. unfold_train. frame. Qed.

Lemma scheduler_step_keeps_it x : steps (keeps (@var_it W S O E)) (scheduler_step a x).
Proof. unfold_train. frame. Qed.

(** What the update of the training history does. *)
Lemma update_training_history_spec (rl ra : pynum S) (s s' : state) (r : result unit) :
  update_training_history rl ra s = (r, s') ->
  (exists it ml ma, var_it s = Some it
     /\ py_truediv rl (Z.of_nat it) = Ok ml /\ py_truediv ra (Z.of_nat it) = Ok ma
     /\ r = Ok tt
     /\ hist s' = mkHistory (loss (hist s) ++ [ml]) (accuracy (hist s) ++ [ma]))
  \/ (exists e, r = Raise e
       /\ (hist s' = hist s
           \/ exists ml, hist s' = mkHistory (loss (hist s) ++ [ml]) (accuracy (hist s)))).
Proof.
  unfold update_training_history, read_it, set_hist, bind, gets, lift, modify, ret, raise.
  simpl.
  destruct (var_it s) as [it|] eqn:Eit; simpl.
  - destruct (py_truediv rl (Z.of_nat it)) as [ml|e] eqn:El; simpl; rewrite ?Eit.
    + destruct (py_truediv ra (Z.of_nat it)) as [ma|e] eqn:Ea; simpl; intros E0; inversion E0; subst.
      * left. exists it, ml, ma. simpl. repeat split; auto.
      * right. exists e. simpl. split; [reflexivity|]. right. exists ml. reflexivity.
    + intros E0; inversion E0; subst. right. exists e. auto.
  - intros E0; inversion E0; subst. right. eexists. auto.
Qed.

Lemma update_validation_history_spec (n : Z) (lv av : pynum S) (s s' : state)
  (r : result unit) :
  update_validation_history n lv av s = (r, s') ->
  (exists ml ma, py_truediv lv n = Ok ml /\ py_truediv av n = Ok ma
     /\ r = Ok tt
     /\ val_hist s' = mkHistory (loss (val_hist s) ++ [ml]) (accuracy (val_hist s) ++ [ma]))
  \/ (exists e, r = Raise e
       /\ (val_hist s' = val_hist s
           \/ exists ml, val_hist s' = mkHistory (loss (val_hist s) ++ [ml])
                                               (accuracy (val_hist s)))).
Proof.
  unfold update_validation_history, set_val_hist, bind, gets, lift, modify, ret, raise.
  simpl.
  destruct (py_truediv lv n) as [ml|e] eqn:El; simpl.
  - destruct (py_truediv av n) as [ma|e] eqn:Ea; simpl; intros E0; inversion E0; subst.
    + left. exists ml, ma. simpl. repeat split; auto.
    + right. exists e. simpl. split; [reflexivity|]. right. exists ml. reflexivity.
  - intros E0; inversion E0; subst. right. exists e. auto.
Qed.


Lemma scheduler_step_ok (x : pynum S) (s : state) :
  exists s', scheduler_step a x s = (Ok tt, s').
Proof.
  unfold scheduler_step. destruct (scheduler a); eexists; reflexivity.
Qed.

(** How a training phase ends. *)
Lemma training_phase_inv (ep : nat) (s s' : state) (r : result unit) :
  training_phase a ep s = (r, s') ->
  (exists rl ra h s1 s2 it ml ma,
      training_loop a ep s = (Ok (rl, ra, h), s1)
      /\ scheduler_step a rl s1 = (Ok tt, s2)
      /\ var_it s1 = Some it
      /\ py_truediv rl (Z.of_nat it) = Ok ml /\ py_truediv ra (Z.of_nat it) = Ok ma
      /\ r = Ok tt
      /\ hist s' = mkHistory (loss (hist s) ++ [ml]) (accuracy (hist s) ++ [ma]))
  \/ (exists e, r = Raise e
       /\ (hist s' = hist s
           \/ exists ml, hist s' = mkHistory (loss (hist s) ++ [ml]) (accuracy (hist s)))).
Proof.
  unfold training_phase. intros E0.
  apply bind_inv in E0. destruct E0 as [([[rl ra] h] & s1 & E1 & E0) | (e & E1 & ->)].
  - pose proof (steps_run (training_loop_keeps_hist ep) E1) as K1. unfold keeps in K1.
    apply bind_inv in E0. destruct E0 as [([] & s2 & E2 & E0) | (e & E2 & ->)].
    + pose proof (steps_run (scheduler_step_keeps_hist rl) E2) as K2. unfold keeps in K2.
      pose proof (steps_run (scheduler_step_keeps_it rl) E2) as K3. unfold keeps in K3.
      apply update_training_history_spec in E0.
      destruct E0 as [(it & ml & ma & Eit & El & Ea & -> & Eh) | (e & -> & Eh)].
      * left. exists rl, ra, h, s1, s2, it, ml, ma. rewrite Eh, K2, K1.
        repeat split; auto. congruence.
      * right. exists e. split; [reflexivity|]. rewrite K2, K1 in Eh. exact Eh.
    + destruct (scheduler_step_ok rl s1) as (s2 & E3). congruence.
  - right. exists e. split; [reflexivity|]. left.
    exact (steps_run (training_loop_keeps_hist ep) E1).
Qed.

Lemma print_validation_keeps_val_hist ep n lv av :
  steps (keeps (@val_hist W S O E)) (print_validation a ep n lv av).
Proof. unfold_train. frame. Qed.

Lemma print_validation_quiet ep n lv av :
  steps (emits not_break) (print_validation a ep n lv av).
Proof. unfold_train. frame. Qed.

Lemma update_validation_history_quiet n lv av :
  steps (emits not_break) (update_validation_history (O:=O) (E:=E) n lv av).
Proof. unfold_train. frame. Qed.

Lemma model_train_quiet : steps (emits not_break) (@model_train W S O E).
Proof. unfold_train. frame. Qed.

Lemma model_train_keeps_val_hist : steps (keeps (@val_hist W S O E)) (@model_train W S O E).
Proof. unfold_train. frame. Qed.

Lemma early_stopping_check_keeps_val_hist ep lv :
  steps (keeps (@val_hist W S O E)) (early_stopping_check a ep lv).
Proof. unfold_train. frame. Qed.

(** The check either breaks, printing last, or prints nothing of the kind. *)
Lemma early_stopping_check_trace (ep : nat) (lv : pynum S) (s s' : state) (r : result bool) :
  early_stopping_check a ep lv s = (r, s') ->
  (r = Ok true /\ trace s' = trace s ++ [EEarlyStopping lv; EPrintEarlyStopping ep])
  \/ (r <> Ok true /\ emits not_break s s').
Proof.
  unfold early_stopping_check, set_early_stopping, emit, bind, gets, modify, ret, raise.
  destruct (activate_early_stopping a); simpl.
  - destruct (st_early_stopping s) as [m|]; simpl.
    + destruct (early_stop (pytorchtools a) _); simpl; intros E0; inversion E0; subst; simpl.
      * left. split; [reflexivity|]. rewrite <- app_assoc. reflexivity.
      * right. split; [discriminate|]. exists [EEarlyStopping lv]. split; [reflexivity|].
        constructor; simpl; auto.
    + intros E0; inversion E0; subst. right. split; [discriminate|]. reflexivity.
  - intros E0; inversion E0; subst. right. split; [discriminate|]. reflexivity.
Qed.

(** How a validation phase ends. *)
Lemma validation_phase_inv (ep : nat) (s s' : state) (r : result bool) :
  validation_phase a ep s = (r, s') ->
  (exists n lv av vh s1 ml ma b,
      validation_loop a ep s = (Ok (n, lv, av, vh), s1)
      /\ py_truediv lv n = Ok ml /\ py_truediv av n = Ok ma
      /\ r = Ok b
      /\ val_hist s' = mkHistory (loss (val_hist s) ++ [ml]) (accuracy (val_hist s) ++ [ma])
      /\ (if b then exists evs, trace s' = trace s ++ evs ++ [EPrintEarlyStopping ep]
                                /\ Forall not_break evs
          else emits not_break s s'))
  \/ (exists e, r = Raise e /\ emits not_break s s'
       /\ (val_hist s' = val_hist s
           \/ (exists ml, val_hist s' = mkHistory (loss (val_hist s) ++ [ml])
                                                (accuracy (val_hist s)))
           \/ (exists ml ma, val_hist s' = mkHistory (loss (val_hist s) ++ [ml])
                                                   (accuracy (val_hist s) ++ [ma])))).
Proof.
  unfold validation_phase. intros E0.
  apply bind_inv in E0. destruct E0 as [([[[n lv] av] vh] & s1 & E1 & E0) | (e & E1 & ->)].
  2:{ right. exists e. split; [reflexivity|]. split.
      - exact (steps_run (validation_loop_quiet ep) E1).
      - left. exact (steps_run (validation_loop_keeps_val_hist ep) E1). }
  pose proof (steps_run (validation_loop_keeps_val_hist ep) E1) as K1. unfold keeps in K1.
  pose proof (steps_run (validation_loop_quiet ep) E1) as Q1.
  apply bind_inv in E0. destruct E0 as [([] & s2 & E2 & E0) | (e & E2 & ->)].
  2:{ right. exists e. split; [reflexivity|]. split.
      - etransitivity; [exact Q1|]. exact (steps_run (print_validation_quiet ep n lv av) E2).
      - left. rewrite <- K1. exact (steps_run (print_validation_keeps_val_hist ep n lv av) E2). }
  pose proof (steps_run (print_validation_keeps_val_hist ep n lv av) E2) as K2. unfold keeps in K2.
  pose proof (steps_run (print_validation_quiet ep n lv av) E2) as Q2.
  apply bind_inv in E0. destruct E0 as [([] & s3 & E3 & E0) | (e & E3 & ->)].
  2:{ right. exists e. split; [reflexivity|]. split.
      - etransitivity; [exact Q1|]. etransitivity; [exact Q2|].
        exact (steps_run (update_validation_history_quiet n lv av) E3).
      - apply update_validation_history_spec in E3.
        destruct E3 as [(ml & ma & _ & _ & Hr & _) | (e' & _ & Eh)]; [discriminate|].
        rewrite K2, K1 in Eh. destruct Eh as [Eh | Eh]; auto. }
  pose proof (steps_run (update_validation_history_quiet n lv av) E3) as Q3.
  apply update_validation_history_spec in E3.
  destruct E3 as [(ml & ma & El & Ea & _ & Eh) | (e' & Hr & _)]; [|discriminate].
  rewrite K2, K1 in Eh.
  assert (Q13 : emits not_break s s3).
  { etransitivity; [exact Q1|]. etransitivity; [exact Q2|]. exact Q3. }
  apply bind_inv in E0. destruct E0 as [(stop & s4 & E4 & E0) | (e & E4 & ->)].
  2:{ right. exists e. split; [reflexivity|].
      pose proof (steps_run (early_stopping_check_keeps_val_hist ep lv) E4) as K4.
      unfold keeps in K4.
      apply early_stopping_check_trace in E4. destruct E4 as [[E4 _] | [_ Q4]]; [discriminate|].
      split; [etransitivity; eassumption|]. right. right. exists ml, ma. congruence. }
  pose proof (steps_run (early_stopping_check_keeps_val_hist ep lv) E4) as K4.
  unfold keeps in K4.
  apply early_stopping_check_trace in E4.
  destruct stop.
  - inversion E0; subst. left. exists n, lv, av, vh, s1, ml, ma, true.
    repeat split; auto; [congruence|].
    destruct E4 as [[_ E4] | [E4 _]]; [|congruence].
    destruct Q13 as (evs & Et & Fe). exists (evs ++ [EEarlyStopping lv]).
    rewrite E4, Et, <- !app_assoc. split; [reflexivity|].
    apply Forall_app. split; [exact Fe|]. constructor; simpl; auto.
  - destruct E4 as [[E4 _] | [_ Q4]]; [discriminate|].
    apply bind_inv in E0. destruct E0 as [([] & s5 & E5 & E0) | (e & E5 & ->)].
    + inversion E0; subst. left. exists n, lv, av, vh, s1, ml, ma, false.
      pose proof (steps_run model_train_keeps_val_hist E5) as K5. unfold keeps in K5.
      repeat split; auto; [congruence|].
      etransitivity; [exact Q13|]. etransitivity; [exact Q4|].
      exact (steps_run model_train_quiet E5).
    + unfold model_train, set_module, emit, bind, gets, modify in E5. simpl in E5. discriminate.
Qed.


Lemma history_lengths_bounded (s : state) (n m : nat) :
  history_lengths s n -> n <= m -> history_bounded s m.
Proof. unfold history_lengths, history_bounded. intros (A & B & C & D) L. lia. Qed.

(** How an epoch ends, from a state whose histories have [n] entries. *)
Lemma epoch_inv (ep n : nat) (s s' : state) (r : result bool) :
  epoch a ep s = (r, s') -> history_lengths s n ->
  match r with
  | Ok b =>
      history_lengths s' (Datatypes.S n)
      /\ (if b then exists evs, trace s' = trace s ++ evs ++ [EPrintEarlyStopping ep]
                                /\ Forall not_break evs
          else emits not_break s s')
  | Raise _ => history_bounded s' (Datatypes.S n) /\ emits not_break s s'
  end.
Proof.
  unfold epoch. intros E0 (L1 & L2 & L3 & L4).
  apply bind_inv in E0. destruct E0 as [([] & s1 & E1 & E0) | (e & E1 & ->)].
  - pose proof (steps_run (training_phase_keeps_val_hist ep) E1) as K1. unfold keeps in K1.
    pose proof (steps_run (training_phase_quiet ep) E1) as Q1.
    pose proof (steps_run (validation_phase_keeps_hist ep) E0) as K2. unfold keeps in K2.
    apply training_phase_inv in E1.
    destruct E1 as [(rl & ra & h & t1 & t2 & it & ml & ma & _ & _ & _ & _ & _ & _ & Eh)
                   | (e & Hr & _)]; [|discriminate].
    apply validation_phase_inv in E0.
    destruct E0 as [(k & lv & av & vh & t3 & vl & va & b & _ & _ & _ & -> & Ev & Tr)
                   | (e & -> & Q2 & Ev)].
    + split.
      * unfold history_lengths. rewrite K2, Eh, Ev, K1. simpl.
        rewrite !length_app. simpl. lia.
      * destruct b.
        -- destruct Tr as (evs & Et & Fe). destruct Q1 as (ev1 & Et1 & Fe1).
           exists (ev1 ++ evs). rewrite Et, Et1, <- !app_assoc. split; [reflexivity|].
           apply Forall_app. auto.
        -- etransitivity; eassumption.
    + split; [|etransitivity; eassumption].
      unfold history_bounded. rewrite K2, Eh. simpl. rewrite !length_app. simpl.
      rewrite K1 in Ev.
      destruct Ev as [Ev | [(x & Ev) | (x & y & Ev)]]; rewrite Ev; simpl;
        rewrite ?length_app; simpl; lia.
  - pose proof (steps_run (training_phase_keeps_val_hist ep) E1) as K1. unfold keeps in K1.
    pose proof (steps_run (training_phase_quiet ep) E1) as Q1.
    split; [|exact Q1].
    apply training_phase_inv in E1.
    destruct E1 as [(rl & ra & h & t1 & t2 & it & ml & ma & _ & _ & _ & _ & _ & Hr & _)
                   | (e' & _ & Eh)]; [discriminate|].
    unfold history_bounded. rewrite K1.
    destruct Eh as [Eh | (x & Eh)]; rewrite Eh; simpl; rewrite ?length_app; simpl; lia.
Qed.

(** How the loop over the epochs [k, k + m) ends. *)
Lemma epochs_inv (m : nat) :
  forall (k : nat) (s s' : state) (r : result unit),
  for_break (epoch a) (seq k m) s = (r, s') -> history_lengths s k ->
  (r = Ok tt /\ history_lengths s' (k + m) /\ emits not_break s s')
  \/ (r = Ok tt /\ exists j evs, k <= j < k + m /\ history_lengths s' (Datatypes.S j)
        /\ trace s' = trace s ++ evs ++ [EPrintEarlyStopping j] /\ Forall not_break evs)
  \/ (exists e, r = Raise e /\ history_bounded s' (k + m) /\ emits not_break s s').
Proof.
  induction m as [|m IH]; intros k s s' r E0 L; simpl in E0.
  - inversion E0; subst. left. rewrite Nat.add_0_r.
    split; [reflexivity|]. split; [exact L | reflexivity].
  - apply bind_inv in E0. destruct E0 as [(b & s1 & E1 & E0) | (e & E1 & ->)].
    + eapply epoch_inv in E1; [|exact L]. destruct E1 as (L1 & Tr). destruct b.
      * inversion E0; subst. right. left. split; [reflexivity|].
        destruct Tr as (evs & Et & Fe). exists k, evs.
        split; [lia|]. split; [exact L1|]. split; assumption.
      * apply IH in E0; [|exact L1].
        destruct E0 as [(-> & L2 & Q) | [(-> & j & evs & Hj & L2 & Et & Fe) | (e & -> & B & Q)]].
        -- left. replace (k + Datatypes.S m) with (Datatypes.S k + m) by lia.
           split; [reflexivity|]. split; [exact L2|]. etransitivity; eassumption.
        -- right. left. split; [reflexivity|]. destruct Tr as (ev1 & Et1 & Fe1).
           exists j, (ev1 ++ evs). split; [lia|]. split; [exact L2|]. split.
           ++ rewrite Et, Et1, <- !app_assoc. reflexivity.
           ++ apply Forall_app. auto.
        -- right. right. exists e. split; [reflexivity|].
           replace (k + Datatypes.S m) with (Datatypes.S k + m) by lia.
           split; [exact B|]. etransitivity; eassumption.
    + eapply epoch_inv in E1; [|exact L]. destruct E1 as (B & Q). right. right. exists e.
      split; [reflexivity|]. split; [|exact Q].
      unfold history_bounded in *. lia.
Qed.


Lemma minor_losses (at_site : site) (evs : list (event S)) :
  Forall minor evs -> losses_at a at_site evs = [].
Proof.
  unfold losses_at. induction 1 as [|e evs Me _ IH]; simpl; [reflexivity|].
  rewrite IH. destruct e; simpl in *; try reflexivity; tauto.
Qed.

Lemma minor_not_scheduler (evs : list (event S)) :
  Forall minor evs -> Forall not_scheduler evs.
Proof. apply Forall_impl. intros []; simpl; tauto. Qed.

Lemma losses_at_app (at_site : site) (e1 e2 : list (event S)) :
  losses_at a at_site (e1 ++ e2) = losses_at a at_site e1 ++ losses_at a at_site e2.
Proof. unfold losses_at. apply flat_map_app. Qed.

Lemma optimizer_zero_grad_minor : steps (emits minor) (optimizer_zero_grad (E:=E) a).
Proof. unfold_train. frame. Qed.

Lemma forward_dispatch_minor at_site seq attn h :
  steps (emits minor) (forward_dispatch a at_site seq attn h).
Proof. unfold_train. frame. Qed.

Lemma loss_backward_minor l : steps (emits minor) (loss_backward (O:=O) (E:=E) l).
Proof. unfold_train. frame. Qed.

Lemma optimizer_step_minor : steps (emits minor) (optimizer_step (E:=E) a).
Proof. unfold_train. frame. Qed.

Lemma print_iteration_minor it ep l acc :
  steps (emits minor) (print_iteration a it ep l acc).
Proof. unfold_train. frame. Qed.

Lemma optimizer_zero_grad_keeps_it : steps (keeps (@var_it W S O E)) (optimizer_zero_grad a).
Proof. unfold_train. frame. Qed.

Lemma forward_dispatch_keeps_it at_site seq attn h :
  steps (keeps (@var_it W S O E)) (forward_dispatch a at_site seq attn h).
Proof. unfold_train. frame. Qed.

Lemma call_criterion_keeps_it at_site out labels :
  steps (keeps (@var_it W S O E)) (call_criterion a at_site out labels).
Proof. unfold_train. frame. Qed.

Lemma loss_backward_keeps_it l : steps (keeps (@var_it W S O E)) (loss_backward l).
Proof. unfold_train. frame. Qed.

Lemma optimizer_step_keeps_it : steps (keeps (@var_it W S O E)) (optimizer_step a).
Proof. unfold_train. frame. Qed.

Lemma print_iteration_keeps_it it ep l acc :
  steps (keeps (@var_it W S O E)) (print_iteration a it ep l acc).
Proof. unfold_train. frame. Qed.

Lemma lift_inv {A : Type} (x : result A) (s s' : state) (r : result A) :
  lift x s = (r, s') -> x = r /\ s' = s.
Proof. unfold lift. intros E0. inversion E0. auto. Qed.

(** The call of the criterion leaves one event, which holds its
    arguments. *)
Lemma call_criterion_ok (at_site : site) (out labels l : T) (s s' : state) :
  call_criterion a at_site out labels s = (Ok l, s') ->
  exists squeezed, torch.squeeze_last out = Ok squeezed
    /\ criterion a squeezed labels = Ok l
    /\ trace s' = trace s ++ [ECriterion at_site squeezed labels].
Proof.
  unfold call_criterion, emit, bind, lift, modify.
  destruct (torch.squeeze_last out) as [sq|e]; simpl; [|discriminate].
  destruct (criterion a sq labels) as [l'|e] eqn:Ec; simpl; [|discriminate].
  intros E0. inversion E0; subst. simpl. exists sq. auto.
Qed.

(** One iteration of the training loop that completes. *)
Lemma train_iteration_ok (ep it : nat) (data : list T) (rl ra rl' ra' : pynum S)
  (h h' : option (T * T)) (s s' : state) :
  train_iteration a ep (it, data) (rl, ra, h) s = (Ok (rl', ra', h'), s') ->
  var_it s' = Some it
  /\ exists l acc evs,
       py_add rl (PTensor l) = Ok rl' /\ py_add ra (PTensor acc) = Ok ra'
       /\ trace s' = trace s ++ evs /\ losses_at a Training evs = [l]
       /\ Forall not_scheduler evs.
Proof.
  unfold train_iteration. intros E0.
  apply bind_ok in E0. destruct E0 as ([] & s1 & E1 & E0).
  unfold set_it, modify in E1. inversion E1 as [E1']. clear E1.
  apply bind_ok in E0. destruct E0 as ([[sq am] lb] & s2 & E2 & E0).
  apply lift_inv in E2. destruct E2 as [_ ->].
  apply bind_ok in E0. destruct E0 as ([] & s3 & E3 & E0).
  destruct (to_device a (sq, am, torch.type_LongTensor lb)) as [[sq' am'] lb'].
  apply bind_ok in E0. destruct E0 as ([output h1] & s4 & E4 & E0).
  apply bind_ok in E0. destruct E0 as (l & s5 & E5 & E0).
  apply bind_ok in E0. destruct E0 as (rl1 & s6 & E6 & E0).
  apply lift_inv in E6. destruct E6 as [Erl ->].
  apply bind_ok in E0. destruct E0 as ([] & s7 & E7 & E0).
  apply bind_ok in E0. destruct E0 as ([] & s8 & E8 & E0).
  apply bind_ok in E0. destruct E0 as (acc & s9 & E9 & E0).
  apply lift_inv in E9. destruct E9 as [Eacc ->].
  apply bind_ok in E0. destruct E0 as (ra1 & s10 & E10 & E0).
  apply lift_inv in E10. destruct E10 as [Era ->].
  apply bind_ok in E0. destruct E0 as ([] & s11 & E11 & E0).
  inversion E0; subst rl1 ra1 h1 s11; clear E0.
  split.
  - rewrite (steps_run (print_iteration_keeps_it _ _ _ _) E11).
    rewrite (steps_run optimizer_step_keeps_it E8).
    rewrite (steps_run (loss_backward_keeps_it _) E7).
    rewrite (steps_run (call_criterion_keeps_it _ _ _) E5).
    rewrite (steps_run (forward_dispatch_keeps_it _ _ _ _) E4).
    rewrite (steps_run optimizer_zero_grad_keeps_it E3).
    rewrite <- E1'. reflexivity.
  - destruct (steps_run optimizer_zero_grad_minor E3) as (e3 & T3 & M3).
    destruct (steps_run (forward_dispatch_minor _ _ _ _) E4) as (e4 & T4 & M4).
    apply call_criterion_ok in E5. destruct E5 as (q & _ & Ec & T5).
    destruct (steps_run (loss_backward_minor _) E7) as (e7 & T7 & M7).
    destruct (steps_run optimizer_step_minor E8) as (e8 & T8 & M8).
    destruct (steps_run (print_iteration_minor _ _ _ _) E11) as (e11 & T11 & M11).
    exists l, acc, ((e3 ++ e4) ++ [ECriterion Training q lb'] ++ (e7 ++ e8 ++ e11)).
    split; [exact Erl|]. split; [exact Era|]. split.
    + rewrite T11, T8, T7, T5, T4, T3, <- E1'. simpl. rewrite <- !app_assoc. reflexivity.
    + split.
      * rewrite !losses_at_app.
        rewrite (@minor_losses Training e3 M3), (@minor_losses Training e4 M4),
          (@minor_losses Training e7 M7), (@minor_losses Training e8 M8),
          (@minor_losses Training e11 M11).
        simpl. rewrite Ec. reflexivity.
      * rewrite !Forall_app. repeat split; try (apply minor_not_scheduler; assumption).
        constructor; simpl; auto.
Qed.


Lemma last_cons {A : Type} (x d : A) (l : list A) : last (x :: l) d = last l x.
Proof.
  revert x d. induction l as [|y l IH]; intros x d; [reflexivity|].
  change (last (x :: y :: l) d) with (last (y :: l) d).
  rewrite (IH y d), (IH y x). reflexivity.
Qed.

Lemma py_sum_app (acc acc' : pynum S) (l1 l2 : list (pynum S)) :
  py_sum acc l1 = Ok acc' -> py_sum acc (l1 ++ l2) = py_sum acc' l2.
Proof.
  revert acc. induction l1 as [|x l1 IH]; intros acc E0; simpl in *.
  - inversion E0. reflexivity.
  - destruct (py_add acc x) as [y|e]; simpl in *; [auto|discriminate].
Qed.

(** The iterations of a training loop that completes: the running loss
    is the sum of the losses of the batches, and [it] is the index of the
    last batch. *)
Lemma train_iterations_ok (ep : nat) (l : list (nat * list T)) :
  forall (rl ra rl' ra' : pynum S) (h h' : option (T * T)) (s s' : state),
  for_each (train_iteration a ep) l (rl, ra, h) s = (Ok (rl', ra', h'), s') ->
  var_it s' = last (map (fun x => Some (fst x)) l) (var_it s)
  /\ exists evs, trace s' = trace s ++ evs
       /\ py_sum rl (map PTensor (losses_at a Training evs)) = Ok rl'
       /\ Forall not_scheduler evs.
Proof.
  induction l as [|[it data] l IH]; intros rl ra rl' ra' h h' s s' E0; simpl in E0.
  - inversion E0; subst. split; [reflexivity|]. exists []. rewrite app_nil_r.
    repeat split; auto.
  - apply bind_ok in E0. destruct E0 as ([[rl1 ra1] h1] & s1 & E1 & E0).
    apply train_iteration_ok in E1.
    destruct E1 as (I1 & l1 & acc & ev1 & Erl & _ & T1 & L1 & N1).
    apply IH in E0. destruct E0 as (I2 & ev2 & T2 & P2 & N2).
    split.
    + rewrite I2, I1. simpl map. rewrite last_cons. reflexivity.
    + exists (ev1 ++ ev2). rewrite T2, T1, app_assoc. split; [reflexivity|]. split.
      * rewrite losses_at_app, map_app, L1. simpl. rewrite Erl. simpl. exact P2.
      * apply Forall_app. auto.
Qed.

Lemma model_init_hidden_minor at_site bs :
  steps (emits minor) (model_init_hidden (O:=O) (E:=E) a at_site bs).
Proof. unfold_train. frame. Qed.

Lemma model_init_hidden_keeps_it at_site bs :
  steps (keeps (@var_it W S O E)) (model_init_hidden a at_site bs).
Proof. unfold_train. frame. Qed.

Lemma map_fst_enumerate {A : Type} (l : list A) :
  map (fun x : nat * A => Some (fst x)) (enumerate l) = map Some (seq 0 (List.length l)).
Proof.
  unfold enumerate. generalize 0. induction l as [|x l IH]; intros k; simpl; [reflexivity|].
  rewrite IH. reflexivity.
Qed.

Lemma last_seq (n k : nat) (d : option nat) :
  1 <= n -> last (map Some (seq k n)) d = Some (k + n - 1).
Proof.
  revert k d. induction n as [|n IH]; intros k d Hn; [lia|].
  simpl seq. simpl map. rewrite last_cons. destruct n as [|n].
  - simpl. f_equal. lia.
  - rewrite IH by lia. f_equal. lia.
Qed.

(** A training loop that completes. *)
Lemma training_loop_ok (ep : nat) (rl ra : pynum S) (h : option (T * T)) (s s1 : state) :
  training_loop a ep s = (Ok (rl, ra, h), s1) ->
  var_it s1 = last (map Some (seq 0 (List.length (batches (train_loader a) ep)))) (var_it s)
  /\ exists evs, trace s1 = trace s ++ evs
       /\ py_sum (PInt 0) (map PTensor (losses_at a Training evs)) = Ok rl
       /\ Forall not_scheduler evs.
Proof.
  unfold training_loop. intros E0.
  apply bind_ok in E0. destruct E0 as (h0 & s0 & E1 & E0).
  assert (F : var_it s0 = var_it s /\ exists ev0, trace s0 = trace s ++ ev0 /\ Forall minor ev0).
  { destruct (String.eqb (model_type a) "rnn").
    - apply bind_ok in E1. destruct E1 as (hh & s0' & E1 & E2). inversion E2; subst.
      split.
      + exact (steps_run (model_init_hidden_keeps_it _ _) E1).
      + exact (steps_run (model_init_hidden_minor _ _) E1).
    - inversion E1; subst. split; [reflexivity|]. exists []. rewrite app_nil_r. auto. }
  destruct F as (I0 & ev0 & T0 & M0).
  apply train_iterations_ok in E0. destruct E0 as (I1 & evs & T1 & P1 & N1).
  split.
  - rewrite I1, I0, map_fst_enumerate. reflexivity.
  - exists (ev0 ++ evs). rewrite T1, T0, app_assoc. split; [reflexivity|]. split.
    + rewrite losses_at_app, (@minor_losses Training ev0 M0). exact P1.
    + apply Forall_app. split; [apply minor_not_scheduler; exact M0 | exact N1].
Qed.

Ltac bind_oks H :=
  repeat first
    [ apply bind_ok in H; destruct H as (? & ? & _ & H)
    | match type of H with
      | context [match ?x with _ => _ end] => destruct x
      end ].

Lemma validation_iteration_counts (it : nat) (data : list T) (n n' : Z)
  (lv av lv' av' : pynum S) (vh vh' : option (T * T)) (s s' : state) :
  validation_iteration a (it, data) (n, lv, av, vh) s = (Ok (n', lv', av', vh'), s') ->
  n' = (n + 1)%Z.
Proof.
  unfold validation_iteration. intros E0. bind_oks E0.
  inversion E0. reflexivity.
Qed.

Lemma validation_iterations_count (l : list (nat * list T)) :
  forall (n n' : Z) (lv av lv' av' : pynum S) (vh vh' : option (T * T)) (s s' : state),
  for_each (validation_iteration a) l (n, lv, av, vh) s = (Ok (n', lv', av', vh'), s') ->
  n' = (n + Z.of_nat (List.length l))%Z.
Proof.
  induction l as [|[it data] l IH]; intros n n' lv av lv' av' vh vh' s s' E0; simpl in E0.
  - inversion E0. simpl. lia.
  - apply bind_ok in E0. destruct E0 as ([[[n1 lv1] av1] vh1] & s1 & E1 & E0).
    apply validation_iteration_counts in E1. apply IH in E0.
    rewrite E0, E1. simpl List.length. lia.
Qed.

(** A validation loop that completes counted every batch. *)
Lemma validation_loop_count (ep : nat) (n : Z) (lv av : pynum S) (vh : option (T * T))
  (s s1 : state) :
  validation_loop a ep s = (Ok (n, lv, av, vh), s1) ->
  n = Z.of_nat (List.length (batches (val_loader a) ep)).
Proof.
  unfold validation_loop. intros E0.
  apply bind_ok in E0. destruct E0 as ([] & s0 & _ & E0).
  apply bind_ok in E0. destruct E0 as (h0 & s0' & _ & E0).
  apply validation_iterations_count in E0. rewrite length_enumerate in E0. lia.
Qed.


Lemma validation_phase_not_scheduler ep :
  steps (emits not_scheduler) (validation_phase a ep).
Proof. unfold_train. frame. Qed.

Lemma update_training_history_keeps_trace rl ra :
  steps (keeps (@trace W S O E)) (update_training_history rl ra).
Proof. unfold_train. frame. Qed.

Lemma update_training_history_keeps_optimizer rl ra :
  steps (keeps (@st_optimizer W S O E)) (update_training_history rl ra).
Proof. unfold_train. frame. Qed.

(** What [train] does before its first epoch. *)
Lemma run_train_unfold (ms : module_state W) (o : O) :
  run_train a ms o
  = (for_break (epoch a) (seq 0 (n_epochs a)) ;; plot_history) (first_epoch_state a ms o).
Proof.
  unfold run_train, train, first_epoch_state, initial_state, model_to, set_module,
    set_early_stopping, emit.
  unfold bind at 1 2 3 4. unfold gets, modify, ret. simpl.
  destruct (activate_early_stopping a); reflexivity.
Qed.

Lemma plot_history_run (s : state) :
  plot_history s
  = (Ok tt, mkState (st_module s) (st_optimizer s) (st_early_stopping s) (var_it s)
                    (hist s) (val_hist s) (trace s ++ [EPlot (hist s) (val_hist s)])).
Proof. reflexivity. Qed.

Lemma history_lengths_first (ms : module_state W) (o : O) :
  history_lengths (first_epoch_state a ms o) 0.
Proof. unfold history_lengths. simpl. auto. Qed.

(** How a run of [train] ends. *)
Lemma run_train_inv (ms : module_state W) (o : O) (r : result unit) (s' : state) :
  run_train a ms o = (r, s') ->
  (r = Ok tt /\ history_lengths s' (n_epochs a) /\ Forall not_break (trace s'))
  \/ (r = Ok tt /\ exists j t, j < n_epochs a /\ history_lengths s' (j + 1)
        /\ trace s' = t ++ [EPrintEarlyStopping j; EPlot (hist s') (val_hist s')]
        /\ Forall not_break t)
  \/ (exists e, r = Raise e /\ history_bounded s' (n_epochs a)
        /\ Forall not_break (trace s')).
Proof.
  rewrite run_train_unfold. intros E0.
  apply bind_inv in E0. destruct E0 as [([] & s1 & E1 & E0) | (e & E1 & ->)].
  - rewrite plot_history_run in E0. inversion E0; subst r s'; clear E0.
    apply epochs_inv in E1; [|apply history_lengths_first].
    destruct E1 as [(_ & L & Q) | [(_ & j & evs & Hj & L & Et & Fe) | (e & He & _)]];
      [| |discriminate].
    + left. split; [reflexivity|]. split; [exact L|]. simpl.
      destruct Q as (evs & -> & Fe). simpl.
      constructor; [exact I|]. apply Forall_app. split; [exact Fe|].
      constructor; [exact I | constructor].
    + right. left. split; [reflexivity|]. exists j, ([EModelTo the_device] ++ evs).
      split; [lia|]. split; [rewrite Nat.add_1_r; exact L|]. simpl. split.
      * rewrite Et. simpl. rewrite <- !app_assoc. reflexivity.
      * constructor; simpl; auto.
  - right. right. exists e. split; [reflexivity|].
    apply epochs_inv in E1; [|apply history_lengths_first].
    destruct E1 as [(He & _) | [(He & _) | (e' & _ & B & Q)]]; try discriminate.
    split; [exact B|]. destruct Q as (evs & -> & Fe). simpl.
    constructor; simpl; auto.
Qed.

End TrainFacts.

(* ================================================================== *)
(** ** The histories *)
(* ================================================================== *)

Section Histories.
Context {W S O E : Type} `{Torch W S}.
Local Abbreviation T := (tensor S).
Local Abbreviation state := (state W S O E).
Variable a : train_args W S O E.

Lemma not_break_not_in (t : list (event S)) (k : nat) :
  Forall not_break t -> ~ In (EPrintEarlyStopping k) t.
Proof. intros F Hin. rewrite Forall_forall in F. exact (F _ Hin). Qed.

Lemma break_in_trace (t : list (event S)) (j k : nat) (x : event S) :
  Forall not_break t -> not_break x ->
  In (EPrintEarlyStopping k) (t ++ [EPrintEarlyStopping j; x]) -> k = j.
Proof.
  intros Ft Nx Hin. apply in_app_or in Hin. destruct Hin as [Hin | Hin].
  - rewrite Forall_forall in Ft. destruct (Ft _ Hin).
  - destruct Hin as [Hin | [Hin | []]].
    + inversion Hin. reflexivity.
    + subst x. destruct Nx.
Qed.

(** C4. For every run of [train] the four history lists have at most
    [n_epochs] entries; a run that returns without the early-stopping
    break has exactly [n_epochs] entries in each, and a run in which early
    stopping triggers at epoch [k] (counted from 0) has exactly [k + 1]
    entries in each, so none for a later epoch. *)
Theorem C4_history_length (ms : module_state W) (o : O) (r : result unit) (s' : state) :
  run_train a ms o = (r, s') ->
  history_bounded s' (n_epochs a)
  /\ (r = Ok tt ->
      ((forall k, ~ In (EPrintEarlyStopping k) (trace s')) ->
       history_lengths s' (n_epochs a))
      /\ (forall k, In (EPrintEarlyStopping k) (trace s') ->
          k < n_epochs a /\ history_lengths s' (k + 1))).
Proof.
  intros E0. apply run_train_inv in E0.
  destruct E0 as [(-> & L & F) | [(-> & j & t & Hj & L & Et & Ft) | (e & -> & B & F)]].
  - split; [apply (history_lengths_bounded L); lia|]. intros _. split; [auto|].
    intros k Hin. rewrite Forall_forall in F. destruct (F _ Hin).
  - split; [apply (history_lengths_bounded L); lia|]. intros _. split.
    + intros No. exfalso. apply (No j). rewrite Et. apply in_or_app. right. left. reflexivity.
    + intros k Hin. rewrite Et in Hin. apply break_in_trace in Hin; [|exact Ft|exact I].
      subst k. auto.
  - split; [exact B|]. discriminate.
Qed.

(** C10, as amended.  After every completed epoch - also the one in
    which the early-stopping break occurs - and when the histories are
    plotted, the training and the validation histories have the same
    length: a completed epoch appends exactly one entry to each of the four
    lists.  Inside an epoch, from the update of the training history to the
    update of the validation history, the training history is one entry
    longer. *)
Theorem C10_equal_lengths_between_epochs :
  (forall ep n s b s',
      epoch a ep s = (Ok b, s') -> history_lengths s n -> history_lengths s' (n + 1))
  /\ (forall ep n s s',
      training_phase a ep s = (Ok tt, s') -> history_lengths s n ->
      List.length (loss (hist s')) = n + 1 /\ List.length (accuracy (hist s')) = n + 1
      /\ List.length (loss (val_hist s')) = n /\ List.length (accuracy (val_hist s')) = n)
  /\ (forall ms o k s',
      for_break (epoch a) (seq 0 k) (first_epoch_state a ms o) = (Ok tt, s') ->
      exists n, history_lengths s' n)
  /\ (forall ms o s', run_train a ms o = (Ok tt, s') -> exists n, history_lengths s' n).
Proof.
  split; [|split; [|split]].
  - intros ep n s b s' E0 L. eapply epoch_inv in E0; [|exact L].
    rewrite Nat.add_1_r. apply E0.
  - intros ep n s s' E0 (L1 & L2 & L3 & L4).
    pose proof (steps_run (training_phase_keeps_val_hist a ep) E0) as K. unfold keeps in K.
    apply training_phase_inv in E0.
    destruct E0 as [(rl & ra & h & s1 & s2 & it & ml & ma & _ & _ & _ & _ & _ & _ & Eh)
                   | (e & He & _)]; [|discriminate].
    rewrite Eh, K. simpl. rewrite !length_app. simpl. lia.
  - intros ms o k s' E0. apply epochs_inv in E0; [|apply history_lengths_first].
    destruct E0 as [(_ & L & _) | [(_ & j & evs & _ & L & _) | (e & He & _)]];
      [eauto | eauto | discriminate].
  - intros ms o s' E0. apply run_train_inv in E0.
    destruct E0 as [(_ & L & _) | [(_ & j & t & _ & L & _) | (e & He & _)]];
      [eauto | eauto | discriminate].
Qed.

End Histories.

(* ================================================================== *)
(** ** The means, the scheduler and the divisor *)
(* ================================================================== *)

Section Means.
Context {W S O E : Type} `{Torch W S}.
Local Abbreviation T := (tensor S).
Local Abbreviation state := (state W S O E).
Local Abbreviation steps := (steps (W:=W) (S:=S) (O:=O) (E:=E)).
Local Abbreviation emits := (emits (W:=W) (S:=S) (O:=O) (E:=E)).
Local Abbreviation keeps := (keeps (W:=W) (S:=S) (O:=O) (E:=E)).
Variable a : train_args W S O E.

(** After a training loop over at least one batch, [it] is the index of
    the last batch. *)
Lemma training_loop_it (ep : nat) (rl ra : pynum S) (h : option (T * T)) (s s1 : state) :
  training_loop a ep s = (Ok (rl, ra, h), s1) ->
  batches (train_loader a) ep <> [] ->
  var_it s1 = Some (List.length (batches (train_loader a) ep) - 1).
Proof.
  intros E0 NE. apply training_loop_ok in E0. destruct E0 as (I0 & _).
  rewrite I0, last_seq.
  - reflexivity.
  - destruct (batches (train_loader a) ep); [congruence | simpl; lia].
Qed.


Lemma scheduler_step_run (sched : pynum S -> O -> O) (x : pynum S) (s : state) :
  scheduler a = Some sched ->
  scheduler_step a x s
  = (Ok tt, mkState (st_module s) (sched x (st_optimizer s)) (st_early_stopping s)
                    (var_it s) (hist s) (val_hist s) (trace s ++ [ESchedulerStep x])).
Proof. intros Es. unfold scheduler_step. rewrite Es. reflexivity. Qed.

(** A validation phase starts by putting the model in evaluation mode. *)
Lemma validation_phase_starts (ep : nat) (s s' : state) (r : result bool) :
  validation_phase a ep s = (r, s') ->
  exists evs, trace s' = trace s ++ EEval :: evs /\ Forall not_scheduler evs.
Proof.
  unfold validation_phase, validation_loop. rewrite !bind_assoc. intros E0.
  apply bind_inv in E0. destruct E0 as [([] & s0 & E1 & E0) | (e & E1 & _)].
  - assert (T0 : trace s0 = trace s ++ [EEval]).
    { unfold model_eval, set_module, emit, bind, gets, modify in E1. simpl in E1.
      inversion E1. reflexivity. }
    match type of E0 with
    | ?c s0 = _ => assert (Q : steps (emits not_scheduler) c) by (unfold_train; frame)
    end.
    destruct (steps_run Q E0) as (evs & Et & Fe). exists evs. split; [|exact Fe].
    rewrite Et, T0, <- app_assoc. reflexivity.
  - unfold model_eval, set_module, emit, bind, gets, modify in E1. simpl in E1.
    discriminate.
Qed.

(** The loss of one iteration of the training loop that completes. *)
Lemma train_iteration_loss (ep it : nat) (data : list T) (rl ra rl' ra' : pynum S)
  (h h' : option (T * T)) (s s' : state) :
  train_iteration a ep (it, data) (rl, ra, h) s = (Ok (rl', ra', h'), s') ->
  exists l evs,
    trace s' = trace s ++ evs /\ losses_at a Training evs = [l] /\ batch_loss a data l.
Proof.
  unfold train_iteration. intros E0.
  apply bind_ok in E0. destruct E0 as ([] & s1 & E1 & E0).
  unfold set_it, modify in E1. inversion E1 as [E1']. clear E1.
  apply bind_ok in E0. destruct E0 as ([[sq am] lb] & s2 & E2 & E0).
  apply lift_inv in E2. destruct E2 as [Eu ->].
  apply bind_ok in E0. destruct E0 as ([] & s3 & E3 & E0).
  destruct (to_device a (sq, am, torch.type_LongTensor lb)) as [[sq' am'] lb'] eqn:Etd.
  apply bind_ok in E0. destruct E0 as ([output h1] & s4 & E4 & E0).
  apply bind_ok in E0. destruct E0 as (l & s5 & E5 & E0).
  apply bind_ok in E0. destruct E0 as (rl1 & s6 & E6 & E0).
  apply lift_inv in E6. destruct E6 as [_ ->].
  apply bind_ok in E0. destruct E0 as ([] & s7 & E7 & E0).
  apply bind_ok in E0. destruct E0 as ([] & s8 & E8 & E0).
  apply bind_ok in E0. destruct E0 as (acc & s9 & E9 & E0).
  apply lift_inv in E9. destruct E9 as [_ ->].
  apply bind_ok in E0. destruct E0 as (ra1 & s10 & E10 & E0).
  apply lift_inv in E10. destruct E10 as [_ ->].
  apply bind_ok in E0. destruct E0 as ([] & s11 & E11 & E0).
  inversion E0; subst rl1 ra1 h1 s11; clear E0.
  destruct (steps_run (optimizer_zero_grad_minor a) E3) as (e3 & T3 & M3).
  pose proof E4 as E4'.
  destruct (steps_run (forward_dispatch_minor a _ _ _ _) E4') as (e4 & T4 & M4).
  apply call_criterion_ok in E5. destruct E5 as (q & Eq & Ec & T5).
  destruct (steps_run (loss_backward_minor _) E7) as (e7 & T7 & M7).
  destruct (steps_run (optimizer_step_minor a) E8) as (e8 & T8 & M8).
  destruct (steps_run (print_iteration_minor a _ _ _ _) E11) as (e11 & T11 & M11).
  exists l, ((e3 ++ e4) ++ [ECriterion Training q lb'] ++ (e7 ++ e8 ++ e11)).
  split; [|split].
  - rewrite T11, T8, T7, T5, T4, T3, <- E1'. simpl. rewrite <- !app_assoc. reflexivity.
  - rewrite !losses_at_app.
    rewrite (@minor_losses _ _ _ _ a Training e3 M3),
      (@minor_losses _ _ _ _ a Training e4 M4),
      (@minor_losses _ _ _ _ a Training e7 M7),
      (@minor_losses _ _ _ _ a Training e8 M8),
      (@minor_losses _ _ _ _ a Training e11 M11).
    simpl. rewrite Ec. reflexivity.
  - unfold batch_loss. exists sq, am, lb, sq', am', lb', h, s3, output, h', s4, q. auto.
Qed.

Lemma train_iterations_losses (ep : nat) (l : list (nat * list T)) :
  forall (rl ra rl' ra' : pynum S) (h h' : option (T * T)) (s s' : state),
  for_each (train_iteration a ep) l (rl, ra, h) s = (Ok (rl', ra', h'), s') ->
  exists evs, trace s' = trace s ++ evs
    /\ Forall2 (batch_loss a) (map snd l) (losses_at a Training evs).
Proof.
  induction l as [|[it data] l IH]; intros rl ra rl' ra' h h' s s' E0; simpl in E0.
  - inversion E0; subst. exists []. rewrite app_nil_r. split; [reflexivity | constructor].
  - apply bind_ok in E0. destruct E0 as ([[rl1 ra1] h1] & s1 & E1 & E0).
    apply train_iteration_loss in E1. destruct E1 as (x & ev1 & T1 & L1 & B1).
    apply IH in E0. destruct E0 as (ev2 & T2 & F2).
    exists (ev1 ++ ev2). rewrite T2, T1, app_assoc. split; [reflexivity|].
    rewrite losses_at_app, L1. simpl. constructor; assumption.
Qed.

Lemma map_snd_enumerate {A : Type} (l : list A) : map snd (enumerate l) = l.
Proof.
  unfold enumerate. generalize 0.
  induction l as [|x l IH]; intros k; simpl; [reflexivity|]. rewrite IH. reflexivity.
Qed.

(** A training loop that completes has called the criterion once per
    batch, in the order of the batches, on the output of the model for
    that batch and on its labels. *)
Lemma training_loop_losses (ep : nat) (rl ra : pynum S) (h : option (T * T))
  (s s1 : state) :
  training_loop a ep s = (Ok (rl, ra, h), s1) ->
  exists evs, trace s1 = trace s ++ evs
    /\ Forall2 (batch_loss a) (batches (train_loader a) ep) (losses_at a Training evs).
Proof.
  unfold training_loop. intros E0.
  apply bind_ok in E0. destruct E0 as (h0 & s0 & E1 & E0).
  assert (F : exists ev0, trace s0 = trace s ++ ev0 /\ Forall minor ev0).
  { destruct (String.eqb (model_type a) "rnn").
    - apply bind_ok in E1. destruct E1 as (h1 & s2 & E1 & E2).
      inversion E2; subst. exact (steps_run (model_init_hidden_minor a _ _) E1).
    - inversion E1; subst. exists []. rewrite app_nil_r. auto. }
  destruct F as (ev0 & T0 & M0).
  apply train_iterations_losses in E0. destruct E0 as (evs & T1 & F1).
  rewrite map_snd_enumerate in F1.
  exists (ev0 ++ evs). rewrite T1, T0, app_assoc. split; [reflexivity|].
  rewrite losses_at_app, (@minor_losses _ _ _ _ a Training ev0 M0). exact F1.
Qed.

(** C7. When a scheduler is configured, a completed epoch steps it
    exactly once: after every event of the training loop and before the
    model is put in evaluation mode; the number it receives is the
    accumulated running loss, that is the sum of the losses of the batches,
    not divided by anything.  There is one such loss per batch of the
    training loader, in the order of the batches: what the criterion
    returned on the output of the model for the batch and on the labels of
    the batch. *)
Theorem C7_scheduler_step (sched : pynum S -> O -> O) (ep : nat) (s s' : state) (b : bool) :
  scheduler a = Some sched ->
  epoch a ep s = (Ok b, s') ->
  exists running_loss running_accuracy h s1 s2 evs_train evs_validation,
    training_loop a ep s = (Ok (running_loss, running_accuracy, h), s1)
    /\ trace s1 = trace s ++ evs_train
    /\ py_sum (PInt 0) (map PTensor (losses_at a Training evs_train)) = Ok running_loss
    /\ scheduler_step a running_loss s1 = (Ok tt, s2)
    /\ st_optimizer s2 = sched running_loss (st_optimizer s1)
    /\ trace s' = trace s ++ evs_train ++ ESchedulerStep running_loss
                                        :: EEval :: evs_validation
    /\ Forall not_scheduler evs_train /\ Forall not_scheduler evs_validation
    /\ Forall2 (batch_loss a) (batches (train_loader a) ep)
               (losses_at a Training evs_train)
    /\ List.length (losses_at a Training evs_train)
       = List.length (batches (train_loader a) ep).
Proof.
  unfold epoch. intros Es E0.
  apply bind_ok in E0. destruct E0 as ([] & s3 & E1 & E2).
  unfold training_phase in E1.
  apply bind_ok in E1. destruct E1 as ([[rl ra] h] & s1 & El & E1).
  apply bind_ok in E1. destruct E1 as ([] & s2 & Esch & Eup).
  pose proof (steps_run (update_training_history_keeps_trace rl ra) Eup) as Kt.
  unfold keeps in Kt.
  apply validation_phase_starts in E2. destruct E2 as (evs_v & Tv & Fv).
  pose proof El as El'. apply training_loop_ok in El'.
  destruct El' as (_ & evs_t & Tt & Ps & Ft).
  pose proof El as El2. apply training_loop_losses in El2.
  destruct El2 as (evs_t' & Tt' & Fl).
  assert (evs_t' = evs_t) by (rewrite Tt in Tt'; symmetry; exact (app_inv_head _ _ _ Tt')).
  subst evs_t'.
  pose proof Esch as Esch'. erewrite scheduler_step_run in Esch' by exact Es.
  inversion Esch' as [Es2].
  exists rl, ra, h, s1, s2, evs_t, evs_v.
  split; [exact El|]. split; [exact Tt|]. split; [exact Ps|]. split; [exact Esch|].
  split; [rewrite <- Es2; reflexivity|].
  split; [|split; [exact Ft | split; [exact Fv | split; [exact Fl|]]]].
  - rewrite Tv, Kt, <- Es2. simpl. rewrite Tt, <- !app_assoc. reflexivity.
  - symmetry. exact (Forall2_length Fl).
Qed.


(** The update of the training history on two tensors: they are divided
    entry by entry, whatever the divisor. *)
Lemma update_training_history_tensors (tl ta : T) (it : nat) (s : state) :
  var_it s = Some it ->
  update_training_history (PTensor tl) (PTensor ta) s
  = (Ok tt,
     mkState (st_module s) (st_optimizer s) (st_early_stopping s) (var_it s)
       (mkHistory
          (loss (hist s) ++ [PTensor (torch.div_float tl (s_of_Z (Z.of_nat it)))])
          (accuracy (hist s) ++ [PTensor (torch.div_float ta (s_of_Z (Z.of_nat it)))]))
       (val_hist s) (trace s)).
Proof.
  intros Eit.
  unfold update_training_history, read_it, set_hist, bind, gets, lift, modify, ret.
  simpl. rewrite Eit. simpl. rewrite Eit. simpl. reflexivity.
Qed.

Lemma update_training_history_unbound (rl ra : pynum S) (s : state) :
  var_it s = None ->
  update_training_history rl ra s = (Raise (UnboundLocalError "it"), s).
Proof.
  intros Eit. unfold update_training_history, read_it, bind, gets, raise.
  rewrite Eit. reflexivity.
Qed.

(** The accumulators of a training loop over one batch are tensors. *)
Lemma training_loop_single (ep : nat) (d : list T) (rl ra : pynum S)
  (h : option (T * T)) (s s1 : state) :
  batches (train_loader a) ep = [d] ->
  training_loop a ep s = (Ok (rl, ra, h), s1) ->
  exists tl ta, rl = PTensor tl /\ ra = PTensor ta.
Proof.
  intros Eb E0. unfold training_loop in E0. rewrite Eb in E0.
  apply bind_ok in E0. destruct E0 as (h0 & s0 & _ & E0).
  change (enumerate [d]) with [(0, d)] in E0. cbn [for_each] in E0.
  apply bind_ok in E0. destruct E0 as ([[rl1 ra1] h1] & s2 & E1 & E0).
  inversion E0; subst rl1 ra1 h1 s2; clear E0.
  apply train_iteration_ok in E1. destruct E1 as (_ & l & acc & evs & El & Ea & _).
  simpl in El, Ea. inversion El. inversion Ea. eauto.
Qed.

(** A training loop over no batch, in a state that has not bound [it]. *)
Lemma training_loop_empty (ep : nat) (s : state) :
  batches (train_loader a) ep = [] ->
  (model_type a = "rnn" -> exists m, model a = Rnn m) ->
  exists h s1, training_loop a ep s = (Ok (PInt 0, PInt 0, h), s1)
               /\ var_it s1 = var_it s.
Proof.
  intros Eb Hm. unfold training_loop. rewrite Eb. unfold enumerate. simpl.
  destruct (String.eqb (model_type a) "rnn") eqn:Et.
  - apply String.eqb_eq in Et. destruct (Hm Et) as (m & Em).
    unfold model_init_hidden. rewrite Em.
    unfold emit, bind, gets, modify, ret. simpl. do 2 eexists. split; reflexivity.
  - unfold bind, ret. do 2 eexists. split; reflexivity.
Qed.

Lemma training_phase_unbound (ep : nat) (s : state) :
  batches (train_loader a) ep = [] -> var_it s = None ->
  (model_type a = "rnn" -> exists m, model a = Rnn m) ->
  exists s', training_phase a ep s = (Raise (UnboundLocalError "it"), s').
Proof.
  intros Eb Eit Hm.
  destruct (training_loop_empty ep s Eb Hm) as (h & s1 & El & I1).
  destruct (scheduler_step_ok a (PInt 0) s1) as (s2 & Es).
  pose proof (steps_run (scheduler_step_keeps_it a (PInt 0)) Es) as I2. unfold keeps in I2.
  exists s2. unfold training_phase. unfold bind at 1. rewrite El.
  unfold bind. rewrite Es. apply update_training_history_unbound. congruence.
Qed.

(** C8. With exactly one training batch in an epoch the divisor [it] is
    0: the running loss and the running accuracy are tensors and the
    history receives them divided by zero.  With no training batch, in a
    state where [it] is not bound yet - as in the first epoch -, the update
    of the history raises [UnboundLocalError]; so does the run.  With [n]
    batches, [n] at least 1, the divisor is [n - 1]: it is not zero exactly
    when there are at least two batches. *)
Theorem C8_training_divisor (ep : nat) (s : state) :
  (forall d running_loss running_accuracy h s1,
      batches (train_loader a) ep = [d] ->
      training_loop a ep s = (Ok (running_loss, running_accuracy, h), s1) ->
      var_it s1 = Some 0
      /\ exists tl ta s',
           running_loss = PTensor tl /\ running_accuracy = PTensor ta
           /\ training_phase a ep s = (Ok tt, s')
           /\ hist s' = mkHistory
                (loss (hist s) ++ [PTensor (torch.div_float tl (s_of_Z 0))])
                (accuracy (hist s) ++ [PTensor (torch.div_float ta (s_of_Z 0))]))
  /\ (batches (train_loader a) ep = [] -> var_it s = None ->
      (model_type a = "rnn" -> exists m, model a = Rnn m) ->
      exists s', training_phase a ep s = (Raise (UnboundLocalError "it"), s'))
  /\ (forall ms o,
      1 <= n_epochs a -> batches (train_loader a) 0 = [] ->
      (model_type a = "rnn" -> exists m, model a = Rnn m) ->
      exists s', run_train a ms o = (Raise (UnboundLocalError "it"), s'))
  /\ (forall running_loss running_accuracy h s1,
      batches (train_loader a) ep <> [] ->
      training_loop a ep s = (Ok (running_loss, running_accuracy, h), s1) ->
      var_it s1 = Some (List.length (batches (train_loader a) ep) - 1)
      /\ (List.length (batches (train_loader a) ep) - 1 <> 0
          <-> 2 <= List.length (batches (train_loader a) ep))).
Proof.
  split; [|split; [|split]].
  - intros d rl ra h s1 Eb El.
    assert (Eit : var_it s1 = Some 0).
    { pose proof El as X. eapply training_loop_it in X; [|rewrite Eb; discriminate].
      rewrite Eb in X. exact X. }
    split; [exact Eit|].
    pose proof El as X. eapply training_loop_single in X; [|exact Eb].
    destruct X as (tl & ta & -> & ->).
    destruct (scheduler_step_ok a (PTensor tl) s1) as (s2 & Es).
    pose proof (steps_run (scheduler_step_keeps_it a (PTensor tl)) Es) as I2.
    pose proof (steps_run (scheduler_step_keeps_hist a (PTensor tl)) Es) as K2.
    pose proof (steps_run (training_loop_keeps_hist a ep) El) as K1.
    unfold keeps in I2, K2, K1.
    exists tl, ta. eexists. split; [reflexivity|]. split; [reflexivity|]. split.
    + unfold training_phase. unfold bind at 1. rewrite El. unfold bind. rewrite Es.
      apply (update_training_history_tensors tl ta (it:=0)). congruence.
    + simpl. rewrite K2, K1. reflexivity.
  - apply training_phase_unbound.
  - intros ms o Hn Eb Hm. rewrite run_train_unfold.
    destruct (n_epochs a) as [|n]; [lia|]. simpl seq. simpl for_break.
    destruct (training_phase_unbound 0 (first_epoch_state a ms o) Eb eq_refl Hm) as (s' & E0).
    exists s'. unfold epoch, bind. rewrite E0. reflexivity.
  - intros rl ra h s1 NE El. split; [eapply training_loop_it; eassumption|].
    destruct (batches (train_loader a) ep) as [|x l]; [congruence|]. simpl. lia.
Qed.

(** Past the three supported values of [model_type], the extraction of
    the batch raises. *)
Lemma unpack_unsupported (data : list T) :
  model_type a <> "rnn" -> model_type a <> "cnn" -> model_type a <> "bert" ->
  unpack a data = Raise (ValueError (not_supported (model_type a))).
Proof.
  intros Hr Hc Hb. unfold unpack.
  apply String.eqb_neq in Hr, Hc, Hb. rewrite Hr, Hc, Hb. reflexivity.
Qed.

(** C2. For a [model_type] other than ['rnn'], ['cnn'] and ['bert'], a
    run of [train] with at least one epoch whose training loader yields at
    least one batch raises [ValueError] where the first training batch is
    unpacked: the only call made before is [model.to], so no forward pass
    has run.  The dispatch of the forward call raises the same error, and
    calls no model. *)
Theorem C2_unsupported_model_type (ms : module_state W) (o : O) (d : list T)
  (rest : list (list T)) :
  model_type a <> "rnn" -> model_type a <> "cnn" -> model_type a <> "bert" ->
  1 <= n_epochs a ->
  batches (train_loader a) 0 = d :: rest ->
  (exists s', run_train a ms o = (Raise (ValueError (not_supported (model_type a))), s')
              /\ trace s' = [EModelTo the_device]
              /\ Forall not_forward (trace s')
              /\ var_it s' = Some 0)
  /\ (forall at_site seq attn_masks h s0,
        forward_dispatch a at_site seq attn_masks h s0
        = (Raise (ValueError (not_supported (model_type a))), s0)).
Proof.
  intros Hr Hc Hb Hn Eb. split.
  - rewrite run_train_unfold.
    destruct (n_epochs a) as [|n]; [lia|]. simpl seq. simpl for_break.
    unfold epoch, training_phase, training_loop. rewrite Eb.
    pose proof (unpack_unsupported d Hr Hc Hb) as Eu.
    apply String.eqb_neq in Hr. rewrite Hr.
    unfold enumerate. simpl. unfold train_iteration, set_it.
    unfold bind, ret, modify, lift. simpl. rewrite Eu.
    eexists. split; [reflexivity|]. simpl. split; [reflexivity|]. split; [|reflexivity].
    constructor; [exact I | constructor].
  - intros at_site seq attn_masks h s0. unfold forward_dispatch.
    apply String.eqb_neq in Hr, Hc, Hb. rewrite Hr, Hc, Hb. reflexivity.
Qed.

End Means.

(* ================================================================== *)
(** ** The hidden state of the recurrent classifier *)
(* ================================================================== *)

Section ResultSpecs.
Context {W S O E : Type}.
Local Abbreviation state := (state W S O E).
Local Abbreviation M := (M (W:=W) (S:=S) (O:=O) (E:=E)).
Local Abbreviation steps := (steps (W:=W) (S:=S) (O:=O) (E:=E)).


Variable R : state -> state -> Prop.
Hypothesis PR : PreOrder R.

Lemma rs_ret {A : Type} (Q : A -> Prop) (x : A) : Q x -> run_spec R Q (ret x).
Proof. intros Qx s. simpl. split; [reflexivity|]. intros y Ey. inversion Ey. subst. exact Qx. Qed.

Lemma rs_raise {A : Type} (Q : A -> Prop) (e : exn) : run_spec R Q (raise e).
Proof. intros s. simpl. split; [reflexivity|]. discriminate. Qed.

Lemma rs_lift {A : Type} (Q : A -> Prop) (r : result A) :
  (forall x, r = Ok x -> Q x) -> run_spec R Q (lift r).
Proof. intros Hr s. simpl. split; [reflexivity|]. exact Hr. Qed.

Lemma rs_steps {A : Type} (c : M A) : steps R c -> run_spec R (fun _ => True) c.
Proof. intros Hc s. split; [apply Hc | auto]. Qed.

Lemma rs_bind {A B : Type} (QA : A -> Prop) (Q : B -> Prop) (c : M A) (k : A -> M B) :
  run_spec R QA c -> (forall x, QA x -> run_spec R Q (k x)) -> run_spec R Q (bind c k).
Proof.
  intros Hc Hk s. unfold bind. destruct (Hc s) as [Rc Qc].
  destruct (c s) as [[x|e] s1]; simpl in *.
  - destruct (Hk x (Qc x eq_refl) s1) as [Rk Qk]. split; [|exact Qk].
    etransitivity; eassumption.
  - split; [exact Rc | discriminate].
Qed.

Lemma rs_for_each {A B : Type} (Inv : B -> Prop) (body : A -> B -> M B) (l : list A) :
  (forall x acc, In x l -> Inv acc -> run_spec R Inv (body x acc)) ->
  forall acc, Inv acc -> run_spec R Inv (for_each body l acc).
Proof.
  induction l as [|x l IH]; intros Hb acc Ia; simpl.
  - apply rs_ret. exact Ia.
  - eapply rs_bind.
    + apply Hb; [left; reflexivity | exact Ia].
    + intros acc' Ia'. apply IH; [|exact Ia']. intros y b Hy. apply Hb. right. exact Hy.
Qed.

Lemma rs_run {A : Type} (Q : A -> Prop) (c : M A) : run_spec R Q c -> steps R c.
Proof. intros Hc s. apply Hc. Qed.

End ResultSpecs.

Ltac pre := try match goal with |- PreOrder _ => typeclasses eauto end.

Ltac rs_skip :=
  eapply rs_bind; pre; [apply rs_steps; unfold_train; frame | intros ? _].

Section Facts.
Context {W S : Type} `{Torch W S}.

Lemma rbind_ok {A B : Type} (c : result A) (k : A -> result B) (b : B) :
  rbind c k = Ok b -> exists x, c = Ok x /\ k x = Ok b.
Proof. destruct c as [x|e]; simpl; [eauto | discriminate]. Qed.

Lemma Embedding_call_inv (l : nn.Embedding) (ms : module_state W) (x t : tensor S) :
  nn.Embedding_call l ms x = Ok t -> shape t = shape x ++ [nn.embedding_dim l].
Proof.
  unfold nn.Embedding_call. destruct (negb _); [discriminate|].
  destruct (negb _); [discriminate|]. intros E0. inversion E0. reflexivity.
Qed.

Lemma LSTM_call_inv (l : nn.LSTM) (ms : module_state W) (x h0 c0 o hn cn : tensor S) :
  nn.LSTM_call l ms x (h0, c0) = Ok (o, (hn, cn)) ->
  exists b len,
    shape x = [b; len; nn.input_size l]
    /\ shape h0 = [nn.num_layers l; b; nn.lstm_hidden_size l]
    /\ shape c0 = [nn.num_layers l; b; nn.lstm_hidden_size l]
    /\ shape hn = [nn.num_layers l; b; nn.lstm_hidden_size l]
    /\ shape cn = [nn.num_layers l; b; nn.lstm_hidden_size l].
Proof.
  unfold nn.LSTM_call. destruct (negb _); [discriminate|].
  destruct (shape x) as [|b [|len [|e [|? ?]]]]; try discriminate.
  destruct (e =? nn.input_size l) eqn:Ee; simpl; [|discriminate].
  destruct (list_eqb (shape h0) _) eqn:E0; simpl; [|discriminate].
  destruct (list_eqb (shape c0) _) eqn:E1; simpl; [|discriminate].
  destruct (lstm_k _ _ _ _ _ _) as [o' [hn' cn']]. intros E2. inversion E2; subst.
  apply Nat.eqb_eq in Ee. apply list_eqb_eq in E0, E1. subst e.
  exists b, len. simpl. auto.
Qed.

(** The recurrent classifier returns a hidden pair of the shape of the
    one it received, and only for a batch of that many sequences. *)
Lemma RNN_forward_hidden (self : RNN.t) (ms : module_state W) (x h0 c0 out hn cn : tensor S) :
  RNN.forward self ms x (h0, c0) = Ok (out, (hn, cn)) ->
  shape hn = shape h0 /\ shape cn = shape c0
  /\ exists b len, shape x = [b; len]
       /\ shape h0 = [nn.num_layers (RNN.lstm self); b; nn.lstm_hidden_size (RNN.lstm self)].
Proof.
  unfold RNN.forward. intros E0.
  apply rbind_ok in E0. destruct E0 as (bs & _ & E0).
  apply rbind_ok in E0. destruct E0 as (e & Ee & E0).
  apply rbind_ok in E0. destruct E0 as ([o [hn' cn']] & El & E0).
  apply rbind_ok in E0. destruct E0 as (u & _ & E0).
  apply rbind_ok in E0. destruct E0 as (d & _ & E0).
  apply rbind_ok in E0. destruct E0 as (f & _ & E0).
  apply rbind_ok in E0. destruct E0 as (v & _ & E0).
  inversion E0; subst; clear E0.
  apply Embedding_call_inv in Ee. simpl in Ee.
  apply LSTM_call_inv in El. destruct El as (b & len & Sx & S0 & S1 & Sn & Sc).
  split; [congruence|]. split; [congruence|].
  exists b, len. split; [|exact S0].
  rewrite Ee in Sx. destruct (shape x) as [|x0 [|x1 [|x2 tl]]]; simpl in Sx; try discriminate.
  - inversion Sx. reflexivity.
  - destruct tl; discriminate.
Qed.

End Facts.

Section Hidden.
Context {W S O E : Type} `{Torch W S}.
Local Abbreviation T := (tensor S).
Local Abbreviation state := (state W S O E).
Local Abbreviation steps := (steps (W:=W) (S:=S) (O:=O) (E:=E)).
Local Abbreviation emits := (emits (W:=W) (S:=S) (O:=O) (E:=E)).
Variable a : train_args W S O E.
Variable m : RNN.t.
Hypothesis model_is_rnn : model a = Rnn m.
Hypothesis type_is_rnn : model_type a = "rnn".
Lemma model_init_hidden_sized (at_site : site) :
  run_spec (emits (hidden_of_loader a m))
           (fun h => sized a m at_site (Some h))
           (model_init_hidden a at_site (loader_batch_size a at_site)).
Proof.
  unfold model_init_hidden. rewrite model_is_rnn.
  eapply rs_bind; pre; [apply rs_steps; unfold_train; frame | intros _ _].
  eapply rs_bind; pre; [apply rs_steps; frame | intros ms _].
  apply rs_ret; pre. unfold sized, RNN.init_hidden. simpl. eauto.
Qed.

Lemma forward_dispatch_sized (at_site : site) (seq attn : T) (h : option (T * T)) :
  sized a m at_site h ->
  run_spec (emits (hidden_of_loader a m))
           (fun r => sized a m at_site (snd r))
           (forward_dispatch a at_site seq attn h).
Proof.
  intros (h0 & c0 & -> & S0 & S1). unfold forward_dispatch.
  rewrite type_is_rnn. simpl String.eqb. cbv iota.
  eapply rs_bind; pre; [apply rs_steps; frame | intros ms _].
  eapply rs_bind; pre.
  { apply rs_steps. apply steps_emit. simpl. unfold torch.detach. eauto. }
  intros _ _. unfold call_rnn. rewrite model_is_rnn.
  eapply rs_bind with (QA := fun r => sized a m at_site (Some (snd r))); pre.
  - eapply rs_bind; pre; [apply rs_steps; frame | intros ms' _].
    apply rs_lift; pre. intros [out [hn cn]] E0. apply RNN_forward_hidden in E0.
    destruct E0 as (Sn & Sc & _). unfold torch.detach in *.
    exists hn, cn. simpl. split; [reflexivity|]. split; congruence.
  - intros [out hh] Hs. apply rs_ret; pre. exact Hs.
Qed.

Lemma train_iteration_sized (ep : nat) (itd : nat * list T)
  (acc : pynum S * pynum S * option (T * T)) :
  sized a m Training (snd acc) ->
  run_spec (emits (hidden_of_loader a m)) (fun r => sized a m Training (snd r))
           (train_iteration a ep itd acc).
Proof.
  destruct itd as [it data]. destruct acc as [[rl ra] h]. cbn [snd]. intros Sh.
  unfold train_iteration.
  rs_skip. rs_skip. destruct x0 as [[sq am] lb]. rs_skip.
  destruct (to_device a (sq, am, torch.type_LongTensor lb)) as [[sq' am'] lb'].
  cbv beta iota.
  eapply rs_bind; pre; [apply forward_dispatch_sized; exact Sh | intros [out h'] Sh'].
  do 7 rs_skip. apply rs_ret; pre. exact Sh'.
Qed.

Lemma validation_iteration_sized (itd : nat * list T)
  (acc : Z * pynum S * pynum S * option (T * T)) :
  sized a m Validation (snd acc) ->
  run_spec (emits (hidden_of_loader a m)) (fun r => sized a m Validation (snd r))
           (validation_iteration a itd acc).
Proof.
  destruct itd as [it data]. destruct acc as [[[n lv] av] h]. cbn [snd]. intros Sh.
  unfold validation_iteration.
  rs_skip. rs_skip. destruct x0 as [[sq am] lb].
  destruct (to_device a (sq, am, torch.type_LongTensor lb)) as [[sq' am'] lb'].
  cbv beta iota.
  eapply rs_bind; pre; [apply forward_dispatch_sized; exact Sh | intros [out h'] Sh'].
  do 5 rs_skip. apply rs_ret; pre. exact Sh'.
Qed.

Lemma epoch_sized (ep : nat) : steps (emits (hidden_of_loader a m)) (epoch a ep).
Proof.
  unfold epoch, training_phase, validation_phase, training_loop, validation_loop.
  rewrite type_is_rnn. simpl String.eqb. cbv iota.
  apply steps_bind; pre.
  - apply steps_bind; pre.
    + eapply rs_run. eapply rs_bind; pre.
      * eapply rs_bind; pre; [apply (model_init_hidden_sized Training) | intros h Sh].
        apply rs_ret; pre. exact Sh.
      * intros h Sh. apply rs_for_each with (Inv := fun r => sized a m Training (snd r)); pre;
          [|exact Sh].
        intros x acc _ Sa. apply train_iteration_sized. exact Sa.
    + intros [[rl ra] h]. unfold_train. frame.
  - intros _. apply steps_bind; pre.
    + eapply rs_run. eapply rs_bind; pre; [apply rs_steps; unfold_train; frame | intros _ _].
      eapply rs_bind; pre.
      * eapply rs_bind; pre; [apply (model_init_hidden_sized Validation) | intros h Sh].
        apply rs_ret; pre. exact Sh.
      * intros h Sh. apply rs_for_each with (Inv := fun r => sized a m Validation (snd r)); pre;
          [|exact Sh].
        intros x acc _ Sa. apply validation_iteration_sized. exact Sa.
    + intros [[[n lv] av] h]. unfold_train. frame.
Qed.


(** C3, as amended.  For the recurrent classifier, at every training and
    validation iteration the hidden pair passed to the forward call has
    the shape (n_layers, batch size configured for the loader of that
    loop, hidden_dim): it is created once per loop from the loader's
    [batch_size] and the forward call returns a pair of the same shape.
    It has the size of the current batch only when that batch is full: a
    forward call that returns was given a batch of exactly the loader's
    batch size. *)
Theorem C3_hidden_sized_by_loader (ms : module_state W) (o : O) :
  Forall (hidden_of_loader a m) (trace (snd (run_train a ms o)))
  /\ (forall at_site seq attn_masks h0 c0 s output h' s',
        shape h0 = [RNN.n_layers m; loader_batch_size a at_site; RNN.hidden_dim m] ->
        forward_dispatch a at_site seq attn_masks (Some (h0, c0)) s
        = (Ok (output, h'), s') ->
        exists len, shape seq = [loader_batch_size a at_site; len]).
Proof.
  split.
  - rewrite run_train_unfold.
    assert (Q : steps (emits (hidden_of_loader a m))
                      (for_break (epoch a) (seq 0 (n_epochs a)) ;; plot_history)).
    { apply steps_bind; pre.
      - apply steps_for_break; pre. apply epoch_sized.
      - intros _. unfold_train. frame. }
    destruct (Q (first_epoch_state a ms o)) as (evs & -> & Fe).
    simpl. constructor; [exact I | exact Fe].
  - intros at_site sq am h0 c0 s out h' s' S0 E0.
    unfold forward_dispatch in E0. rewrite type_is_rnn in E0. simpl String.eqb in E0.
    cbv iota in E0.
    apply bind_ok in E0. destruct E0 as (ms' & s0 & _ & E0).
    apply bind_ok in E0. destruct E0 as ([] & s1 & _ & E0).
    apply bind_ok in E0. destruct E0 as ([out' [hn cn]] & s2 & E1 & _).
    unfold call_rnn in E1. rewrite model_is_rnn in E1.
    apply bind_ok in E1. destruct E1 as (ms'' & s3 & _ & E1).
    apply lift_inv in E1. destruct E1 as [E1 _].
    apply RNN_forward_hidden in E1. destruct E1 as (_ & _ & b & len & Sx & S0').
    unfold torch.detach in S0'. rewrite S0 in S0'. inversion S0'. subst b.
    exists len. exact Sx.
Qed.

End Hidden.

(* ================================================================== *)
(** ** Devices *)
(* ================================================================== *)

Section Devices.
Context {W S O E : Type} `{Torch W S}.
Local Abbreviation T := (tensor S).
Local Abbreviation state := (state W S O E).
Local Abbreviation steps := (steps (W:=W) (S:=S) (O:=O) (E:=E)).
Local Abbreviation emits := (emits (W:=W) (S:=S) (O:=O) (E:=E)).
Local Abbreviation keeps := (keeps (W:=W) (S:=S) (O:=O) (E:=E)).
Variable a : train_args W S O E.

#[global] Instance placed_preorder (d : dev) : PreOrder (placed a d).
Proof.
  split.
  - intros s Hs. split; [exact Hs | reflexivity].
  - intros s1 s2 s3 H12 H23 Hs. destruct (H12 Hs) as [H2 Q2].
    destruct (H23 H2) as [H3 Q3]. split; [exact H3 | etransitivity; eassumption].
Qed.

Lemma placed_of (d : dev) {A : Type} (c : M A) :
  steps (keeps model_device) c -> steps (emits (placement d (batch_device a))) c ->
  steps (placed a d) c.
Proof. intros K Q s Hs. split; [rewrite (K s); exact Hs | apply Q]. Qed.

Lemma optimizer_zero_grad_keeps_device :
  steps (keeps model_device) (optimizer_zero_grad (E:=E) a).
Proof. intros s. reflexivity. Qed.

Lemma loss_backward_keeps_device l :
  steps (keeps model_device) (loss_backward (O:=O) (E:=E) l).
Proof. intros s. reflexivity. Qed.

Lemma optimizer_step_keeps_device : steps (keeps model_device) (optimizer_step (E:=E) a).
Proof.
  intros s. unfold optimizer_step, set_module, set_optimizer, emit, bind, gets, modify.
  simpl. destruct (step _ _ _). reflexivity.
Qed.

Lemma model_eval_keeps_device : steps (keeps model_device) (@model_eval W S O E).
Proof. intros s. reflexivity. Qed.

Lemma model_train_keeps_device : steps (keeps model_device) (@model_train W S O E).
Proof. intros s. reflexivity. Qed.


Lemma steps_lift_bind (R : state -> state -> Prop) {PR : PreOrder R} {A B : Type}
  (r : result A) (k : A -> M B) :
  (forall x, r = Ok x -> steps R (k x)) -> steps R (bind (lift r) k).
Proof.
  intros Hk s. unfold bind, lift. destruct r as [x|e]; simpl.
  - apply Hk. reflexivity.
  - reflexivity.
Qed.

Lemma steps_for_each_in (R : state -> state -> Prop) {PR : PreOrder R} {A B : Type}
  (body : A -> B -> M B) (l : list A) :
  (forall x acc, In x l -> steps R (body x acc)) ->
  forall acc, steps R (for_each body l acc).
Proof.
  induction l as [|x l IH]; intros Hb acc; simpl.
  - apply steps_ret; assumption.
  - apply steps_bind; try assumption.
    + apply Hb. left. reflexivity.
    + intros acc'. apply IH. intros y b Hy. apply Hb. right. exact Hy.
Qed.

(** Where the tensors of a batch are once unpacked and, when [gpu],
    moved. *)
Lemma batch_placed (data : list T) (sq am lb sq' am' lb' : T) :
  (gpu a = false -> forall t, In t data -> device t = Cpu) ->
  unpack a data = Ok (sq, am, lb) ->
  to_device a (sq, am, torch.type_LongTensor lb) = (sq', am', lb') ->
  device sq' = batch_device a /\ device am' = batch_device a
  /\ device lb' = batch_device a.
Proof.
  intros Hd Eu Et. unfold to_device, batch_device in *.
  destruct (gpu a).
  - inversion Et. simpl. auto.
  - inversion Et; subst sq' am' lb'. specialize (Hd eq_refl). simpl.
    unfold unpack, item in Eu.
    destruct (String.eqb (model_type a) "bert").
    + destruct data as [|t0 [|t1 [|t2 [|t3 tl]]]]; try discriminate.
      inversion Eu; subst. repeat split; try reflexivity; apply Hd; simpl; auto.
    + destruct (_ || _); [|discriminate].
      destruct data as [|t0 [|t1 tl]]; try discriminate. simpl in Eu.
      inversion Eu; subst. repeat split; try reflexivity. apply Hd. simpl. auto.
Qed.

Lemma steps_gets_bind (R : state -> state -> Prop) {A B : Type}
  (f : state -> A) (k : A -> M B) :
  (forall s, R s (snd (k (f s) s))) -> steps R (bind (gets f) k).
Proof. intros Hk s. unfold bind, gets. apply Hk. Qed.

(** An event, then a computation that respects the placement. *)
Lemma placed_after_emit (d : dev) {A : Type} (e : event S) (c : M A) (s : state) :
  model_device s = d -> placement d (batch_device a) e ->
  steps (keeps model_device) c -> steps (emits (placement d (batch_device a))) c ->
  placed a d s (snd ((emit e ;; c) s)).
Proof.
  intros Hs Pe K Q _.
  set (s1 := mkState (st_module s) (st_optimizer s) (st_early_stopping s) (var_it s)
                     (hist s) (val_hist s) (trace s ++ [e])).
  change (snd ((emit e ;; c) s)) with (snd (c s1)).
  specialize (K s1). destruct (Q s1) as (evs & Et & Fe).
  unfold keeps in K. split.
  - rewrite K. exact Hs.
  - exists (e :: evs). rewrite Et. simpl. rewrite <- app_assoc. split; [reflexivity|].
    constructor; assumption.
Qed.

Lemma forward_dispatch_placed (d : dev) (at_site : site) (sq am : T) (h : option (T * T)) :
  device sq = batch_device a -> device am = batch_device a ->
  steps (placed a d) (forward_dispatch a at_site sq am h).
Proof.
  intros Ds Da. unfold forward_dispatch. apply steps_gets_bind. intros s.
  destruct (String.eqb (model_type a) "rnn").
  { destruct h as [[h0 c0]|]; [|intros Hs; split; [exact Hs | reflexivity]].
    intros Hs. apply placed_after_emit; auto.
    - simpl. auto.
    - unfold_train. frame.
    - unfold_train. frame. }
  destruct (String.eqb (model_type a) "cnn").
  { intros Hs. apply placed_after_emit; auto.
    - simpl. auto.
    - unfold_train. frame.
    - unfold_train. frame. }
  destruct (String.eqb (model_type a) "bert").
  { intros Hs. apply placed_after_emit; auto.
    - simpl. auto.
    - unfold_train. frame.
    - unfold_train. frame. }
  intros Hs. split; [exact Hs | reflexivity].
Qed.

Ltac placed_leaf :=
  apply placed_of; [unfold_train; frame | unfold_train; frame].

Lemma train_iteration_placed (d : dev) (ep : nat) (itd : nat * list T)
  (acc : pynum S * pynum S * option (T * T)) :
  (gpu a = false -> forall t, In t (snd itd) -> device t = Cpu) ->
  steps (placed a d) (train_iteration a ep itd acc).
Proof.
  destruct itd as [it data]. destruct acc as [[rl ra] h]. cbn [snd]. intros Hd.
  unfold train_iteration.
  apply steps_bind; pre; [placed_leaf | intros _].
  apply steps_lift_bind; pre. intros [[sq am] lb] Eu.
  apply steps_bind; pre.
  { apply placed_of; [apply optimizer_zero_grad_keeps_device | unfold_train; frame]. }
  intros _.
  destruct (to_device a (sq, am, torch.type_LongTensor lb)) as [[sq' am'] lb'] eqn:Et.
  destruct (batch_placed data Hd Eu Et) as (D1 & D2 & D3).
  apply steps_bind; pre; [apply forward_dispatch_placed; assumption | intros [out h']].
  apply steps_bind; pre; [placed_leaf | intros l].
  apply steps_bind; pre; [apply steps_lift; pre | intros rl'].
  apply steps_bind; pre.
  { apply placed_of; [apply loss_backward_keeps_device | unfold_train; frame]. }
  intros _.
  apply steps_bind; pre.
  { apply placed_of; [apply optimizer_step_keeps_device | unfold_train; frame]. }
  intros _.
  apply steps_bind; pre; [apply steps_lift; pre | intros acc'].
  apply steps_bind; pre; [apply steps_lift; pre | intros ra'].
  apply steps_bind; pre; [placed_leaf | intros _].
  apply steps_ret; pre.
Qed.

Lemma validation_iteration_placed (d : dev) (itd : nat * list T)
  (acc : Z * pynum S * pynum S * option (T * T)) :
  (gpu a = false -> forall t, In t (snd itd) -> device t = Cpu) ->
  steps (placed a d) (validation_iteration a itd acc).
Proof.
  destruct itd as [it data]. destruct acc as [[[n lv] av] h]. cbn [snd]. intros Hd.
  unfold validation_iteration.
  apply steps_bind; pre; [placed_leaf | intros _].
  apply steps_lift_bind; pre. intros [[sq am] lb] Eu.
  destruct (to_device a (sq, am, torch.type_LongTensor lb)) as [[sq' am'] lb'] eqn:Et.
  destruct (batch_placed data Hd Eu Et) as (D1 & D2 & D3).
  apply steps_bind; pre; [apply forward_dispatch_placed; assumption | intros [out h']].
  cbv zeta.
  apply steps_bind; pre; [placed_leaf | intros l].
  repeat (apply steps_bind; pre; [apply steps_lift; pre | intro]).
  apply steps_ret; pre.
Qed.

Lemma epoch_placed (d : dev) (ep : nat) :
  (gpu a = false -> cpu_loader (train_loader a) /\ cpu_loader (val_loader a)) ->
  steps (placed a d) (epoch a ep).
Proof.
  intros Hl. unfold epoch, training_phase, validation_phase, training_loop, validation_loop.
  apply steps_bind; pre.
  - apply steps_bind; pre.
    + apply steps_bind; pre.
      * destruct (String.eqb (model_type a) "rnn"); [|apply steps_ret; pre].
        apply steps_bind; pre; [placed_leaf | intros h; apply steps_ret; pre].
      * intros h. apply steps_for_each_in; pre. intros [it data] acc Hin.
        apply train_iteration_placed. intros Hg t Ht.
        apply In_enumerate in Hin. destruct (Hl Hg) as [Ct _]. exact (Ct ep data t Hin Ht).
    + intros [[rl ra] h]. apply steps_bind; pre; [placed_leaf | intros _]. placed_leaf.
  - intros _. apply steps_bind; pre.
    + apply steps_bind; pre.
      { apply placed_of; [apply model_eval_keeps_device | unfold_train; frame]. }
      intros _. apply steps_bind; pre.
      * destruct (String.eqb (model_type a) "rnn"); [|apply steps_ret; pre].
        apply steps_bind; pre; [placed_leaf | intros h; apply steps_ret; pre].
      * intros h. apply steps_for_each_in; pre. intros [it data] acc Hin.
        apply validation_iteration_placed. intros Hg t Ht.
        apply In_enumerate in Hin. destruct (Hl Hg) as [_ Cv]. exact (Cv ep data t Hin Ht).
    + intros [[[n lv] av] h].
      apply steps_bind; pre; [placed_leaf | intros _].
      apply steps_bind; pre; [placed_leaf | intros _].
      apply steps_bind; pre; [placed_leaf | intros stop].
      destruct stop; [apply steps_ret; pre|].
      apply steps_bind; pre; [|intros _; apply steps_ret; pre].
      apply placed_of; [apply model_train_keeps_device | unfold_train; frame].
Qed.

(** C9. Whatever [gpu] is, [train] moves the model to the CUDA device
    when CUDA is available: the first call of a run is [model.to(cuda)] and
    the parameters are on that device at every forward call.  The tensors of
    a batch are moved there only when [gpu] is true; with [gpu] false they
    stay where the loader put them - the labels always on the CPU -, so
    that with loaders that yield CPU tensors the parameters and the batch
    are on different devices at every forward call. *)
Theorem C9_model_and_batch_devices (ms : module_state W) (o : O) :
  cuda_is_available = true ->
  (gpu a = false -> cpu_loader (train_loader a) /\ cpu_loader (val_loader a)) ->
  (exists evs, trace (snd (run_train a ms o)) = EModelTo Cuda :: evs)
  /\ model_device (snd (run_train a ms o)) = Cuda
  /\ Forall (placement Cuda (if gpu a then Cuda else Cpu))
            (trace (snd (run_train a ms o))).
Proof.
  intros Hc Hl. rewrite run_train_unfold.
  assert (Ed : the_device = Cuda) by (unfold the_device; rewrite Hc; reflexivity).
  assert (Eb : batch_device a = if gpu a then Cuda else Cpu)
    by (unfold batch_device; rewrite Ed; reflexivity).
  assert (Q : steps (placed a Cuda)
                    (for_break (epoch a) (seq 0 (n_epochs a)) ;; plot_history)).
  { apply steps_bind; pre.
    - apply steps_for_break; pre. intros ep. apply epoch_placed. exact Hl.
    - intros _. placed_leaf. }
  destruct (Q (first_epoch_state a ms o)) as [Hm (evs & Et & Fe)].
  { unfold model_device, first_epoch_state. simpl. exact Ed. }
  split; [|split; [exact Hm|]].
  - rewrite Et. simpl. rewrite Ed. eauto.
  - rewrite Et. simpl. rewrite Ed. constructor; [reflexivity|]. rewrite <- Eb. exact Fe.
Qed.

End Devices.

(* ================================================================== *)
(** * Further properties *)
(* ================================================================== *)

(* ================================================================== *)
(** ** Edges of the epoch loop *)
(* ================================================================== *)

Section Edges.
Context {W S O E : Type} `{Torch W S}.
Local Abbreviation T := (tensor S).
Local Abbreviation state := (state W S O E).
Local Abbreviation steps := (steps (W:=W) (S:=S) (O:=O) (E:=E)).
Local Abbreviation emits := (emits (W:=W) (S:=S) (O:=O) (E:=E)).
Local Abbreviation keeps := (keeps (W:=W) (S:=S) (O:=O) (E:=E)).
Variable a : train_args W S O E.

(** X1. With [n_epochs] 0 a run of [train] returns after two calls: the
    model is moved to the device and the empty histories are plotted.
    Nothing is trained: the parameters, the optimizer and the mode of the
    model are as they were given. *)
Theorem X1_no_epoch (ms : module_state W) (o : O) :
  n_epochs a = 0 ->
  exists s',
    run_train a ms o = (Ok tt, s')
    /\ trace s' = [EModelTo the_device; EPlot (mkHistory [] []) (mkHistory [] [])]
    /\ st_module s' = mkModuleState (params ms) the_device (training ms)
    /\ st_optimizer s' = o
    /\ hist s' = mkHistory [] [] /\ val_hist s' = mkHistory [] [].
Proof.
  intros Hn. rewrite run_train_unfold, Hn. simpl seq. simpl for_break.
  unfold bind, ret. rewrite plot_history_run. eexists. split; [reflexivity|].
  simpl. auto.
Qed.

(** A recurrent model type whose training phase returns has a recurrent
    model: [init_hidden] was found. *)
Lemma training_phase_rnn (ep : nat) (s s1 : state) :
  training_phase a ep s = (Ok tt, s1) ->
  String.eqb (model_type a) "rnn" = true -> exists m, model a = Rnn m.
Proof.
  unfold training_phase, training_loop. intros E0 Hr. rewrite Hr in E0.
  apply bind_ok in E0. destruct E0 as ([[rl ra] h] & s2 & E0 & _).
  apply bind_ok in E0. destruct E0 as (h0 & s3 & E0 & _).
  apply bind_ok in E0. destruct E0 as (h1 & s4 & E0 & _).
  unfold model_init_hidden in E0.
  destruct (model a) as [m|m|m]; [eauto | discriminate | discriminate].
Qed.

(** The validation loop over no batch. *)
Lemma validation_loop_empty (ep : nat) (s : state) :
  batches (val_loader a) ep = [] ->
  (String.eqb (model_type a) "rnn" = true -> exists m, model a = Rnn m) ->
  exists vh s1,
    validation_loop a ep s = (Ok (0%Z, PInt 0, PInt 0, vh), s1)
    /\ hist s1 = hist s /\ val_hist s1 = val_hist s.
Proof.
  intros Eb Hm. unfold validation_loop. rewrite Eb.
  change (enumerate (@nil (list T))) with (@nil (nat * list T)). cbn [for_each].
  destruct (String.eqb (model_type a) "rnn").
  - destruct Hm as (m & Em); [reflexivity|].
    unfold model_init_hidden. rewrite Em. do 2 eexists. split; [reflexivity|]. simpl. auto.
  - do 2 eexists. split; [reflexivity|]. simpl. auto.
Qed.

(** X2. When the validation loader yields no batch, an epoch whose
    training phase has returned raises [ZeroDivisionError]: the mean of
    the validation loss is the integer 0 divided by the integer 0.  The
    training history has received the entry of the epoch by then, the
    validation history has not. *)
Theorem X2_empty_validation_loader (ep : nat) (s s1 : state) :
  batches (val_loader a) ep = [] ->
  training_phase a ep s = (Ok tt, s1) ->
  exists s',
    epoch a ep s = (Raise ZeroDivisionError, s')
    /\ hist s' = hist s1 /\ val_hist s' = val_hist s.
Proof.
  intros Eb Et.
  pose proof (steps_run (training_phase_keeps_val_hist a ep) Et) as K. unfold keeps in K.
  destruct (@validation_loop_empty ep s1 Eb (@training_phase_rnn ep s s1 Et))
    as (vh & s2 & Ev & Kh & Kv).
  unfold epoch. unfold bind at 1. rewrite Et.
  unfold validation_phase. unfold bind at 1. rewrite Ev.
  unfold print_validation, update_validation_history, py_divides.
  destruct (print_validation_every a =? 0)%Z.
  - eexists. split; [reflexivity|]. simpl. split; congruence.
  - unfold bind at 1. unfold lift at 1. cbv iota.
    destruct (Z.of_nat ep mod print_validation_every a =? 0)%Z.
    + eexists. split; [reflexivity|]. simpl. split; congruence.
    + eexists. split; [reflexivity|]. simpl. split; congruence.
Qed.

(** With a period of 0 the two printing steps raise: the remainder of a
    division by zero. *)
Lemma print_iteration_zero (it ep : nat) (l acc : T) (s : state) :
  print_every a = 0%Z ->
  print_iteration a it ep l acc s = (Raise ZeroDivisionError, s).
Proof. intros Hp. unfold print_iteration, py_divides. rewrite Hp. reflexivity. Qed.

Lemma print_validation_zero (ep : nat) (n : Z) (lv av : pynum S) (s : state) :
  print_validation_every a = 0%Z ->
  print_validation a ep n lv av s = (Raise ZeroDivisionError, s).
Proof. intros Hp. unfold print_validation, py_divides. rewrite Hp. reflexivity. Qed.

Lemma train_iteration_zero (ep : nat) (itd : nat * list T)
  (acc acc' : pynum S * pynum S * option (T * T)) (s s' : state) :
  print_every a = 0%Z -> train_iteration a ep itd acc s <> (Ok acc', s').
Proof.
  intros Hp E0. destruct itd as [it data]. destruct acc as [[rl ra] h].
  unfold train_iteration in E0.
  apply bind_ok in E0. destruct E0 as ([] & s1 & _ & E0).
  apply bind_ok in E0. destruct E0 as ([[sq am] lb] & s2 & _ & E0).
  apply bind_ok in E0. destruct E0 as ([] & s3 & _ & E0).
  destruct (to_device a (sq, am, torch.type_LongTensor lb)) as [[sq' am'] lb'].
  apply bind_ok in E0. destruct E0 as ([output h1] & s4 & _ & E0).
  apply bind_ok in E0. destruct E0 as (l & s5 & _ & E0).
  apply bind_ok in E0. destruct E0 as (rl' & s6 & _ & E0).
  apply bind_ok in E0. destruct E0 as ([] & s7 & _ & E0).
  apply bind_ok in E0. destruct E0 as ([] & s8 & _ & E0).
  apply bind_ok in E0. destruct E0 as (acc0 & s9 & _ & E0).
  apply bind_ok in E0. destruct E0 as (ra' & s10 & _ & E0).
  apply bind_ok in E0. destruct E0 as ([] & s11 & E0 & _).
  rewrite print_iteration_zero in E0 by exact Hp. discriminate.
Qed.

(** X3. A printing period of 0 stops the run in its first epoch: with
    [print_every] 0 no epoch that has a training batch returns, since the
    first iteration that gets to its printing step raises
    [ZeroDivisionError] there; with
    [print_validation_every] 0 no epoch returns at all, and one whose
    validation loop has returned raises [ZeroDivisionError]. *)
Theorem X3_zero_print_period (ep : nat) (s : state) :
  (print_every a = 0%Z -> batches (train_loader a) ep <> [] ->
   exists e s', epoch a ep s = (Raise e, s'))
  /\ (print_every a = 0%Z ->
      forall it l acc s0, print_iteration a it ep l acc s0 = (Raise ZeroDivisionError, s0))
  /\ (print_validation_every a = 0%Z -> exists e s', epoch a ep s = (Raise e, s'))
  /\ (print_validation_every a = 0%Z ->
      forall s1 s2 r, training_phase a ep s = (Ok tt, s1) ->
                      validation_loop a ep s1 = (Ok r, s2) ->
                      epoch a ep s = (Raise ZeroDivisionError, s2)).
Proof.
  split; [|split; [|split]].
  - intros Hp Hb. destruct (epoch a ep s) as [[b|e] s'] eqn:E0; [|eauto].
    exfalso. unfold epoch in E0.
    apply bind_ok in E0. destruct E0 as ([] & s1 & E0 & _).
    unfold training_phase in E0.
    apply bind_ok in E0. destruct E0 as (r & s2 & E0 & _).
    unfold training_loop in E0.
    apply bind_ok in E0. destruct E0 as (h & s3 & _ & E0).
    destruct (batches (train_loader a) ep) as [|d rest]; [congruence|].
    unfold enumerate in E0. cbn [List.length seq combine for_each] in E0.
    apply bind_ok in E0. destruct E0 as (acc' & s4 & E0 & _).
    exact (@train_iteration_zero _ _ _ _ _ _ Hp E0).
  - intros Hp it l acc s0. apply print_iteration_zero. exact Hp.
  - intros Hp. destruct (epoch a ep s) as [[b|e] s'] eqn:E0; [|eauto].
    exfalso. unfold epoch in E0.
    apply bind_ok in E0. destruct E0 as ([] & s1 & _ & E0).
    unfold validation_phase in E0.
    apply bind_ok in E0. destruct E0 as ([[[n lv] av] vh] & s2 & _ & E0).
    apply bind_ok in E0. destruct E0 as ([] & s3 & E0 & _).
    rewrite print_validation_zero in E0 by exact Hp. discriminate.
  - intros Hp s1 s2 [[[n lv] av] vh] Et Ev.
    unfold epoch. unfold bind at 1. rewrite Et.
    unfold validation_phase. unfold bind at 1. rewrite Ev.
    unfold bind at 1. rewrite print_validation_zero by exact Hp. reflexivity.
Qed.

End Edges.

(* ================================================================== *)
(** ** The recurrent classifier: what a forward pass that returns was
       given *)
(* ================================================================== *)

Section Returns.
Context {W S : Type} `{Torch W S}.

Lemma LSTM_call_shapes (l : nn.LSTM) (ms : module_state W) (x h0 c0 o hn cn : tensor S) :
  nn.LSTM_call l ms x (h0, c0) = Ok (o, (hn, cn)) ->
  exists b len,
    shape x = [b; len; nn.input_size l]
    /\ shape o = [b; len; nn.lstm_hidden_size l]
    /\ shape h0 = [nn.num_layers l; b; nn.lstm_hidden_size l]
    /\ shape c0 = [nn.num_layers l; b; nn.lstm_hidden_size l]
    /\ shape hn = [nn.num_layers l; b; nn.lstm_hidden_size l]
    /\ shape cn = [nn.num_layers l; b; nn.lstm_hidden_size l]
    /\ device x = param_device ms /\ device h0 = param_device ms
    /\ device c0 = param_device ms.
Proof.
  unfold nn.LSTM_call, nn.on_device. destruct (negb _) eqn:D; [discriminate|].
  apply negb_false_iff in D. apply andb_prop in D. destruct D as [D D1].
  apply andb_prop in D. destruct D as [D D0]. apply dev_eqb_eq in D, D0, D1.
  destruct (shape x) as [|b [|len [|e [|? ?]]]]; try discriminate.
  destruct (e =? nn.input_size l) eqn:Ee; simpl; [|discriminate].
  destruct (list_eqb (shape h0) _) eqn:E0; simpl; [|discriminate].
  destruct (list_eqb (shape c0) _) eqn:E1; simpl; [|discriminate].
  destruct (lstm_k _ _ _ _ _ _) as [o' [hn' cn']]. intros E2. inversion E2; subst.
  apply Nat.eqb_eq in Ee. apply list_eqb_eq in E0, E1. subst e.
  exists b, len. simpl. repeat split; auto.
Qed.

Lemma select_last_inv (t u : tensor S) (b len h : nat) :
  shape t = [b; len; h] -> torch.select_dim1 1 (-1) t = Ok u ->
  1 <= len /\ shape u = [b; h].
Proof.
  intros St. unfold torch.select_dim1, torch.norm_index. rewrite St. simpl.
  match goal with |- context [if ?c then _ else _] => destruct c eqn:C end;
    simpl; [|discriminate].
  intros E0. inversion E0; subst; clear E0. simpl. split; [|reflexivity].
  apply andb_prop in C. destruct C as [C _]. apply Z.leb_le in C. lia.
Qed.

Lemma view_rows_inv (t v : tensor S) (b n : nat) :
  shape t = [b; n] -> torch.view_rows b t = Ok v -> 1 <= b /\ shape v = [b; n].
Proof.
  intros St. unfold torch.view_rows. rewrite St. unfold numel. simpl fold_right.
  rewrite Nat.mul_1_r. destruct (b =? 0) eqn:Eb; simpl; [discriminate|].
  apply Nat.eqb_neq in Eb.
  rewrite Nat.mul_comm, Nat.Div0.mod_mul, Nat.div_mul by lia. simpl.
  intros E0. inversion E0; subst. simpl. split; [lia | reflexivity].
Qed.

Lemma Linear_call_rows (l : nn.Linear) (ms : module_state W) (x t : tensor S) (b n : nat) :
  nn.Linear_call l ms x = Ok t -> shape x = [b; n] ->
  n = nn.in_features l /\ shape t = [b; nn.out_features l].
Proof.
  unfold nn.Linear_call. destruct (negb _); [discriminate|].
  intros E0 Sx. rewrite Sx in E0. simpl in E0.
  destruct (n =? nn.in_features l) eqn:En; [|discriminate].
  apply Nat.eqb_eq in En. inversion E0; subst. auto.
Qed.

Lemma Dropout_call_shape (l : nn.Dropout) (ms : module_state W) (x t : tensor S) :
  nn.Dropout_call l ms x = Ok t -> shape t = shape x.
Proof.
  destruct (Dropout_call_ok l ms x) as (u & -> & Su & _). intros E0. inversion E0; subst.
  exact Su.
Qed.

(** What a forward pass of the recurrent classifier that returns was
    given, and what it returns. *)
Lemma RNN_forward_inv (vocab_size output_size embedding_dim hidden_dim n_layers : nat)
  (drop_prob : Q) (self : RNN.t) (ms : module_state W)
  (x h0 c0 scores hn cn : tensor S) :
  RNN.__init__ vocab_size output_size embedding_dim hidden_dim n_layers drop_prob = Ok self ->
  RNN.forward self ms x (h0, c0) = Ok (scores, (hn, cn)) ->
  exists B L,
    shape x = [B; L] /\ 1 <= B /\ 1 <= L
    /\ shape h0 = [n_layers; B; hidden_dim] /\ shape c0 = [n_layers; B; hidden_dim]
    /\ device x = param_device ms /\ device h0 = param_device ms
    /\ device c0 = param_device ms
    /\ shape scores = [B; output_size]
    /\ shape hn = [n_layers; B; hidden_dim] /\ shape cn = [n_layers; B; hidden_dim].
Proof.
  intros I E0.
  destruct (RNN_init_fields _ _ _ _ _ _ I) as (_ & _ & _ & Ee & El & Ef).
  unfold RNN.forward in E0.
  apply rbind_ok in E0. destruct E0 as (bs & Hbs & E0).
  apply rbind_ok in E0. destruct E0 as (e & He & E0).
  apply rbind_ok in E0. destruct E0 as ([o [hn' cn']] & Hl & E0).
  apply rbind_ok in E0. destruct E0 as (u & Hu & E0).
  apply rbind_ok in E0. destruct E0 as (d & Hd & E0).
  apply rbind_ok in E0. destruct E0 as (f & Hf & E0).
  apply rbind_ok in E0. destruct E0 as (v & Hv & E0).
  inversion E0; subst v hn' cn'; clear E0.
  assert (De : device e = device x).
  { unfold nn.Embedding_call in He. destruct (negb _); [discriminate|].
    destruct (negb _); [discriminate|]. inversion He. reflexivity. }
  apply Embedding_call_inv in He. rewrite Ee in He. simpl in He.
  apply LSTM_call_shapes in Hl. rewrite El in Hl. simpl in Hl.
  destruct Hl as (b & len & Se & So & S0 & S1 & Sn & Sc & D & D0 & D1).
  rewrite De in D.
  assert (Sx : shape x = [b; len]).
  { rewrite He in Se. destruct (shape x) as [|x0 [|x1 [|x2 tl]]]; simpl in Se;
      try discriminate.
    - inversion Se. reflexivity.
    - destruct tl; discriminate. }
  unfold torch.size in Hbs. rewrite Sx in Hbs. simpl in Hbs. inversion Hbs; subst bs.
  destruct (select_last_inv _ So Hu) as [HL Su].
  apply Dropout_call_shape in Hd. rewrite Su in Hd.
  destruct (@Linear_call_rows _ _ _ _ _ _ Hf Hd) as [_ Sf]. rewrite Ef in Sf. simpl in Sf.
  destruct (@view_rows_inv (torch.sigmoid f) scores b output_size Sf Hv) as [HB Sv].
  exists b, len. repeat split; auto.
Qed.

(** X4. Whenever the forward pass of a recurrent classifier built by its
    constructor returns, its input was a batch of two dimensions, (B, L),
    with at least one sequence and at least one token per sequence, and a
    hidden pair of shape (n_layers, B, hidden_dim) on the device of the
    parameters; the scores have the shape (B, output_size) and the hidden
    pair returned has the shape of the one received.  An empty batch and
    a batch of empty sequences raise. *)
Theorem X4_rnn_forward_needs (vocab_size output_size embedding_dim hidden_dim n_layers : nat)
  (drop_prob : Q) (self : RNN.t) (ms : module_state W)
  (x h0 c0 scores hn cn : tensor S) :
  RNN.__init__ vocab_size output_size embedding_dim hidden_dim n_layers drop_prob = Ok self ->
  RNN.forward self ms x (h0, c0) = Ok (scores, (hn, cn)) ->
  exists B L,
    shape x = [B; L] /\ 1 <= B /\ 1 <= L
    /\ shape h0 = [n_layers; B; hidden_dim] /\ shape c0 = [n_layers; B; hidden_dim]
    /\ device x = param_device ms /\ device h0 = param_device ms
    /\ device c0 = param_device ms
    /\ shape scores = [B; output_size]
    /\ shape hn = [n_layers; B; hidden_dim] /\ shape cn = [n_layers; B; hidden_dim].
Proof. apply RNN_forward_inv. Qed.

(** X5. [init_hidden] returns two tensors of zeros of shape (n_layers,
    batch_size, hidden_dim) and puts them on the CUDA device whenever CUDA
    is available, wherever the parameters of the model are.  So for a
    model whose parameters are not on that device the forward pass never
    accepts the pair [init_hidden] returns; for a model that is on it - as
    after [model.to(device)] in [train] - the forward pass accepts it for
    every batch of [batch_size] sequences the model can embed, and returns
    a pair of the same shape. *)
Theorem X5_init_hidden (vocab_size output_size embedding_dim hidden_dim n_layers : nat)
  (drop_prob : Q) (self : RNN.t) (ms : module_state W) :
  RNN.__init__ vocab_size output_size embedding_dim hidden_dim n_layers drop_prob = Ok self ->
  (forall b,
      shape (fst (RNN.init_hidden self ms b)) = [n_layers; b; hidden_dim]
      /\ shape (snd (RNN.init_hidden self ms b)) = [n_layers; b; hidden_dim]
      /\ device (fst (RNN.init_hidden self ms b)) = the_device
      /\ device (snd (RNN.init_hidden self ms b)) = the_device
      /\ forall idx, data (fst (RNN.init_hidden self ms b)) idx = s_zero
                     /\ data (snd (RNN.init_hidden self ms b)) idx = s_zero)
  /\ (param_device ms <> the_device ->
      forall b x r, RNN.forward self ms x (RNN.init_hidden self ms b) <> Ok r)
  /\ (param_device ms = the_device ->
      forall x B L,
        shape x = [B; L] -> 1 <= B -> 1 <= L ->
        torch.all_below vocab_size (torch.long x) = true -> device x = the_device ->
        exists scores hn cn,
          RNN.forward self ms x (RNN.init_hidden self ms B) = Ok (scores, (hn, cn))
          /\ shape scores = [B; output_size]
          /\ shape hn = [n_layers; B; hidden_dim] /\ shape cn = [n_layers; B; hidden_dim]).
Proof.
  intros I0.
  destruct (RNN_init_fields _ _ _ _ _ _ I0) as (_ & En & Eh & _).
  assert (Sh : forall b,
             shape (fst (RNN.init_hidden self ms b)) = [n_layers; b; hidden_dim]
             /\ shape (snd (RNN.init_hidden self ms b)) = [n_layers; b; hidden_dim]
             /\ device (fst (RNN.init_hidden self ms b)) = the_device
             /\ device (snd (RNN.init_hidden self ms b)) = the_device).
  { intros b. unfold RNN.init_hidden, the_device. simpl. rewrite En, Eh. auto. }
  split; [|split].
  - intros b. destruct (Sh b) as (S0 & S1 & D0 & D1).
    repeat split; auto.
  - intros Hd b x [scores [hn cn]] E0.
    destruct (RNN.init_hidden self ms b) as [h0 c0] eqn:Ei.
    eapply RNN_forward_inv in E0; [|exact I0].
    destruct E0 as (B & L & _ & _ & _ & _ & _ & _ & D0 & _).
    destruct (Sh b) as (_ & _ & D0' & _). rewrite Ei in D0'. simpl in D0'. congruence.
  - intros Hd x B L Sx HB HL A Dx.
    destruct (Sh B) as (S0 & S1 & D0 & D1).
    destruct (RNN.init_hidden self ms B) as [h0 c0] eqn:Ei. simpl in S0, S1, D0, D1.
    destruct (@RNN_forward_shape _ _ _ _ _ _ _ _ _ self ms x h0 c0 B L I0 Sx HB HL A)
      as (scores & [hn cn] & E0 & Ss); try congruence.
    pose proof E0 as X. eapply RNN_forward_inv in X; [|exact I0].
    destruct X as (B' & L' & Sx' & _ & _ & _ & _ & _ & _ & _ & _ & Sn & Sc).
    rewrite Sx in Sx'. inversion Sx'; subst B' L'.
    exists scores, hn, cn. auto.
Qed.

End Returns.

(* ================================================================== *)
(** ** The convolutional classifier: what its constructor keeps, and
       what its forward pass needs *)
(* ================================================================== *)

Section Convolutions.
Context {W S : Type} `{Torch W S}.

Lemma rmap_inv {A B : Type} (f : A -> result B) (l : list A) :
  forall l', rmap f l = Ok l' -> Forall2 (fun a b => f a = Ok b) l l'.
Proof.
  induction l as [|a l IH]; simpl; intros l' E0.
  - inversion E0. constructor.
  - apply rbind_ok in E0. destruct E0 as (b & Eb & E0).
    apply rbind_ok in E0. destruct E0 as (bs & Ebs & E0).
    inversion E0. constructor; auto.
Qed.

Lemma Forall2_compose {A B C : Type} (P : A -> B -> Prop) (Q : B -> C -> Prop)
  (l1 : list A) (l2 : list B) :
  Forall2 P l1 l2 -> forall l3, Forall2 Q l2 l3 ->
  Forall2 (fun a c => exists b, P a b /\ Q b c) l1 l3.
Proof.
  induction 1 as [|a b l1 l2 Pab _ IH]; intros l3 F; inversion F; subst.
  - constructor.
  - constructor; eauto.
Qed.

Lemma map_fst_combine_firstn {A B : Type} (l1 : list A) :
  forall l2 : list B, map fst (combine l1 l2) = firstn (List.length l2) l1.
Proof.
  induction l1 as [|x l1 IH]; intros [|y l2]; simpl; try reflexivity.
  rewrite IH. reflexivity.
Qed.

Lemma map_snd_combine_firstn {A B : Type} (l1 : list A) :
  forall l2 : list B, map snd (combine l1 l2) = firstn (List.length l1) l2.
Proof.
  induction l1 as [|x l1 IH]; intros [|y l2]; simpl; try reflexivity.
  rewrite IH. reflexivity.
Qed.

(** The convolutions of a classifier built from two lists. *)
Lemma convs1_fields (embed_size : nat) (l : list (nat * nat)) :
  let convs :=
    map (fun '(i, (n, K)) =>
           nn.mkConv2d (String.append "convs1." (string_of_nat i)) 1 n K embed_size)
        (enumerate l) in
  map nn.out_channels convs = map fst l
  /\ map nn.kernel_h convs = map snd l
  /\ Forall (fun c => nn.in_channels c = 1 /\ nn.kernel_w c = embed_size) convs.
Proof.
  simpl. rewrite !map_map. split; [|split].
  - rewrite <- (map_snd_enumerate l) at 2. rewrite map_map.
    apply map_ext. intros [i [n K]]. reflexivity.
  - rewrite <- (map_snd_enumerate l) at 2. rewrite map_map.
    apply map_ext. intros [i [n K]]. reflexivity.
  - apply Forall_forall. intros c Hin. apply in_map_iff in Hin.
    destruct Hin as ([i [n K]] & <- & _). simpl. auto.
Qed.

(** What the constructor of the convolutional classifier builds. *)
Lemma cnn_init_built (max_features embed_size : nat) (num_filters filter_sizes : list nat)
  (self : CNN.t) :
  CNN.__init__ max_features embed_size num_filters filter_sizes = Ok self ->
  List.length (CNN.convs1 self)
  = Nat.min (List.length num_filters) (List.length filter_sizes)
  /\ map nn.out_channels (CNN.convs1 self) = firstn (List.length filter_sizes) num_filters
  /\ map nn.kernel_h (CNN.convs1 self) = firstn (List.length num_filters) filter_sizes
  /\ nn.in_features (CNN.fc1 self) = last num_filters 0 * List.length filter_sizes
  /\ nn.out_features (CNN.fc1 self) = 5
  /\ Forall (fun c => nn.in_channels c = 1 /\ nn.kernel_w c = embed_size) (CNN.convs1 self)
  /\ CNN.embedding self = nn.mkEmbedding "embedding" max_features embed_size.
Proof.
  intros I.
  destruct (CNN_init_fields _ _ _ _ I) as (Ee & Ec & n_last & Hl & Ef).
  destruct (convs1_fields embed_size (combine num_filters filter_sizes)) as (Eo & Ek & Fc).
  rewrite <- Ec in Eo, Ek, Fc.
  split; [|split; [|split; [|split; [|split; [|split]]]]].
  - rewrite Ec, length_map, length_enumerate, length_combine. reflexivity.
  - rewrite Eo. apply map_fst_combine_firstn.
  - rewrite Ek. apply map_snd_combine_firstn.
  - rewrite Ef. simpl. f_equal. unfold last_item in Hl.
    destruct (rev num_filters) as [|x r] eqn:R; [discriminate|]. inversion Hl; subst x.
    apply (f_equal (@rev nat)) in R. rewrite rev_involutive in R. simpl in R.
    rewrite R. symmetry. apply last_last.
  - rewrite Ef. reflexivity.
  - exact Fc.
  - exact Ee.
Qed.

(** X7. The constructor of the convolutional classifier raises
    [IndexError] exactly when [num_filters] is empty.  When it returns,
    the classifier has one convolution per pair of [zip(num_filters,
    filter_sizes)]: the entries of the longer list past the length of the
    shorter one are dropped, while the final layer is sized with the last
    entry of [num_filters] and the whole length of [filter_sizes]. *)
Theorem X7_cnn_constructor (max_features embed_size : nat) (num_filters filter_sizes : list nat) :
  (num_filters = [] ->
   CNN.__init__ max_features embed_size num_filters filter_sizes = Raise IndexError)
  /\ (num_filters <> [] ->
      exists self, CNN.__init__ max_features embed_size num_filters filter_sizes = Ok self)
  /\ (forall self,
      CNN.__init__ max_features embed_size num_filters filter_sizes = Ok self ->
      List.length (CNN.convs1 self)
      = Nat.min (List.length num_filters) (List.length filter_sizes)
      /\ map nn.out_channels (CNN.convs1 self)
         = firstn (List.length filter_sizes) num_filters
      /\ map nn.kernel_h (CNN.convs1 self)
         = firstn (List.length num_filters) filter_sizes
      /\ nn.in_features (CNN.fc1 self)
         = last num_filters 0 * List.length filter_sizes
      /\ nn.out_features (CNN.fc1 self) = 5).
Proof.
  split; [|split].
  - intros ->. reflexivity.
  - intros NE. unfold CNN.__init__, last_item. simpl.
    destruct (rev num_filters) as [|x r] eqn:R.
    + apply (f_equal (@rev nat)) in R. rewrite rev_involutive in R. simpl in R. congruence.
    + simpl. eexists. reflexivity.
  - intros self I.
    destruct (cnn_init_built _ _ _ _ I) as (Lc & Eo & Ek & Ei & Eout & _).
    auto.
Qed.

Lemma Conv2d_call_inv (l : nn.Conv2d) (ms : module_state W) (x y : tensor S) :
  nn.Conv2d_call l ms x = Ok y ->
  exists b h w,
    shape x = [b; nn.in_channels l; h; w]
    /\ 1 <= nn.kernel_h l <= h /\ 1 <= nn.kernel_w l <= w
    /\ shape y = [b; nn.out_channels l; h - nn.kernel_h l + 1; w - nn.kernel_w l + 1].
Proof.
  unfold nn.Conv2d_call. destruct (negb _); [discriminate|].
  destruct (shape x) as [|b [|c [|h [|w [|? ?]]]]]; try discriminate.
  destruct (_ && _) eqn:C; [|discriminate].
  intros E0. inversion E0; subst; clear E0. simpl.
  repeat (apply andb_prop in C; destruct C as [C ?]).
  apply Nat.eqb_eq in C. subst c.
  repeat match goal with X : (_ <=? _) = true |- _ => apply Nat.leb_le in X end.
  exists b, h, w. repeat split; auto.
Qed.

Lemma unsqueeze1_inv (t u : tensor S) (b c h w : nat) :
  torch.unsqueeze 1 t = Ok u -> shape u = [b; c; h; w] -> shape t = [b; h; w] /\ c = 1.
Proof.
  unfold torch.unsqueeze. destruct (_ <? _); [discriminate|].
  intros E0. inversion E0; subst; clear E0. simpl. unfold insert_nth.
  destruct (shape t) as [|x0 [|x1 [|x2 [|x3 tl]]]]; simpl; intros E1; inversion E1; auto.
Qed.

Lemma pool_squeeze_inv (t u : tensor S) (b c k : nat) :
  shape t = [b; c; k] -> 1 <= k ->
  (let* n := torch.size t 2 in
   let* y := torch.max_pool1d t n in torch.squeeze 2 y) = Ok u ->
  shape u = [b; c].
Proof.
  intros St Hk E0. destruct (pool_squeeze_ok t St Hk) as (v & Ev & Sv & _).
  rewrite Ev in E0. inversion E0; subst. exact Sv.
Qed.

Lemma cat1_inv (ts : list (tensor S)) (z : tensor S) (b : nat) :
  torch.cat1 ts = Ok z ->
  Forall (fun t => exists c, shape t = [b; c]) ts ->
  ts <> [] /\ shape z = [b; list_sum (map (@torch.dim1 S) ts)].
Proof.
  unfold torch.cat1. destruct ts as [|t ts']; [discriminate|].
  destruct (forallb _ _); [|discriminate]. intros E0 F.
  inversion F as [|? ? (c & St) _]; subst. rewrite St in E0.
  inversion E0; subst; clear E0. split; [discriminate | reflexivity].
Qed.

Lemma list_sum_channels (convs : list nn.Conv2d) (ys : list (tensor S)) (b : nat) :
  Forall2 (fun c y => shape y = [b; nn.out_channels c]) convs ys ->
  list_sum (map (@torch.dim1 S) ys) = list_sum (map nn.out_channels convs)
  /\ Forall (fun t => exists c, shape t = [b; c]) ys.
Proof.
  induction 1 as [|c y convs ys Sy _ [IH1 IH2]]; simpl.
  - split; [reflexivity | constructor].
  - split.
    + unfold torch.dim1 at 1. rewrite Sy, IH1. reflexivity.
    + constructor; eauto.
Qed.

(** A convolution over the embedded batch followed by the pooling
    leaves one row of [out_channels] numbers per sequence, when both
    return. *)
Lemma conv_pool_shapes (ms : module_state W) (u : tensor S) (B L embed_size : nat)
  (convs : list nn.Conv2d) (ys : list (tensor S)) :
  shape u = [B; 1; L; embed_size] ->
  Forall (fun c => nn.in_channels c = 1 /\ nn.kernel_w c = embed_size) convs ->
  Forall2 (fun c y => exists t,
             (let* y0 := nn.Conv2d_call c ms u in torch.squeeze 3 (torch.relu y0)) = Ok t
             /\ (let* k := torch.size t 2 in
                 let* y1 := torch.max_pool1d t k in torch.squeeze 2 y1) = Ok y)
          convs ys ->
  Forall2 (fun c y => shape y = [B; nn.out_channels c] /\ 1 <= nn.kernel_h c <= L) convs ys.
Proof.
  intros Su Fc F. induction F as [|c y cs ys' (t & Hc & Hp) _ IH]; [constructor|].
  destruct (Forall_inv Fc) as [Hin Hkw]. pose proof (Forall_inv_tail Fc) as Fc'.
  constructor; [|exact (IH Fc')].
  apply rbind_ok in Hc. destruct Hc as (y0 & Hc & Hsq).
  apply Conv2d_call_inv in Hc.
  destruct Hc as (b & h & w & Su' & Hh & Hw & Sy0).
  rewrite Su in Su'. inversion Su'; subst b h w.
  rewrite Hkw, Nat.sub_diag in Sy0.
  unfold torch.squeeze, torch.relu, torch.map_entries in Hsq. simpl in Hsq.
  rewrite Sy0 in Hsq. simpl in Hsq. inversion Hsq; subst t; clear Hsq.
  split; [|exact Hh].
  eapply pool_squeeze_inv; [| |exact Hp]; [reflexivity | lia].
Qed.

(** What a forward pass of the convolutional classifier that returns
    was given, and what it returns. *)
Lemma CNN_forward_inv (max_features embed_size : nat)
  (num_filters filter_sizes : list nat) (self : CNN.t) (ms : module_state W)
  (x scores : tensor S) :
  CNN.__init__ max_features embed_size num_filters filter_sizes = Ok self ->
  CNN.forward self ms x = Ok scores ->
  exists B L,
    shape x = [B; L] /\ shape scores = [B; 5]
    /\ num_filters <> [] /\ filter_sizes <> [] /\ 1 <= embed_size
    /\ Forall (fun K => 1 <= K <= L) (firstn (List.length num_filters) filter_sizes)
    /\ list_sum (firstn (List.length filter_sizes) num_filters)
       = last num_filters 0 * List.length filter_sizes.
Proof.
  intros I E0.
  destruct (cnn_init_built _ _ _ _ I) as (Lc & Eo & Ek & Ei & Eout & Fc & Ee).
  unfold CNN.forward in E0.
  apply rbind_ok in E0. destruct E0 as (e & Hemb & E0).
  apply rbind_ok in E0. destruct E0 as (u & Hu & E0).
  apply rbind_ok in E0. destruct E0 as (xs & Hxs & E0).
  apply rbind_ok in E0. destruct E0 as (ys & Hys & E0).
  apply rbind_ok in E0. destruct E0 as (z & Hz & E0).
  apply rbind_ok in E0. destruct E0 as (d & Hd & E0).
  apply rbind_ok in E0. destruct E0 as (f & Hf & E0).
  inversion E0; subst f; clear E0.
  apply Embedding_call_inv in Hemb. rewrite Ee in Hemb. simpl in Hemb.
  apply rmap_inv in Hxs. apply rmap_inv in Hys.
  (* a first convolution gives the shape of the batch *)
  destruct (CNN.convs1 self) as [|c0 convs] eqn:Econvs.
  { inversion Hxs; subst. inversion Hys; subst. discriminate Hz. }
  assert (Sx : exists B L, shape x = [B; L] /\ shape u = [B; 1; L; embed_size]
                           /\ 1 <= embed_size).
  { inversion Hxs as [|? t0 ? ? Hc0 _]; subst.
    apply rbind_ok in Hc0. destruct Hc0 as (y0 & Hc0 & _).
    apply Conv2d_call_inv in Hc0.
    destruct Hc0 as (b & h & w & Su & _ & Hw & _).
    destruct (unsqueeze1_inv _ Hu Su) as [Se Hc].
    rewrite Hemb in Se.
    destruct (Forall_inv Fc) as [_ Hkw].
    destruct (shape x) as [|x0 [|x1 [|x2 tl]]]; simpl in Se; try discriminate.
    - inversion Se; subst. exists b, h. rewrite Su, Hc. repeat split; auto. lia.
    - destruct tl; discriminate. }
  destruct Sx as (B & L & Sx & Su & He).
  assert (Fconv : Forall2 (fun c y => shape y = [B; nn.out_channels c]
                                      /\ 1 <= nn.kernel_h c <= L) (c0 :: convs) ys).
  { eapply conv_pool_shapes; [exact Su | exact Fc | exact (Forall2_compose Hxs Hys)]. }
  assert (Fsh : Forall2 (fun c y => shape y = [B; nn.out_channels c]) (c0 :: convs) ys).
  { eapply Forall2_impl; [|exact Fconv]. intros c y [Sy _]. exact Sy. }
  destruct (list_sum_channels Fsh) as [Esum Fys].
  destruct (cat1_inv Hz Fys) as [_ Sz].
  apply Dropout_call_shape in Hd. rewrite Sz in Hd.
  destruct (@Linear_call_rows _ _ _ _ _ _ _ _ _ Hf Hd) as [En Sf].
  exists B, L. split; [exact Sx|]. split; [rewrite Sf, Eout; reflexivity|].
  assert (NEn : num_filters <> []).
  { intros ->. simpl in Lc. discriminate. }
  assert (NEf : filter_sizes <> []).
  { intros ->. rewrite Nat.min_0_r in Lc. discriminate. }
  split; [exact NEn|]. split; [exact NEf|]. split; [exact He|]. split.
  - rewrite <- Ek. apply Forall_forall. intros K HK. apply in_map_iff in HK.
    destruct HK as (c & <- & Hc).
    clear - Fconv Hc. induction Fconv as [|c' y cs ys' [_ Hk] _ IH]; [destruct Hc|].
    destruct Hc as [<- | Hc]; [exact Hk | exact (IH Hc)].
  - rewrite <- Eo, <- Esum, <- Ei. exact En.
Qed.

(** X8. The forward pass of a convolutional classifier built by its
    constructor returns only for a batch of two dimensions, (B, L), in
    which every filter size that is used lies between 1 and [L], and only
    when the numbers of filters that are used add up to what the final
    layer expects, [num_filters[-1] * len(filter_sizes)].  The scores then
    have the shape (B, 5). *)
Theorem X8_cnn_forward_needs (max_features embed_size : nat)
  (num_filters filter_sizes : list nat) (self : CNN.t) (ms : module_state W)
  (x scores : tensor S) :
  CNN.__init__ max_features embed_size num_filters filter_sizes = Ok self ->
  CNN.forward self ms x = Ok scores ->
  exists B L,
    shape x = [B; L] /\ shape scores = [B; 5]
    /\ num_filters <> [] /\ filter_sizes <> [] /\ 1 <= embed_size
    /\ Forall (fun K => 1 <= K <= L) (firstn (List.length num_filters) filter_sizes)
    /\ list_sum (firstn (List.length filter_sizes) num_filters)
       = last num_filters 0 * List.length filter_sizes.
Proof. apply CNN_forward_inv. Qed.

End Convolutions.

(** C6. The convolutional classifier does not return scores for every
    batch: its constructor sizes the final layer [fc1] with
    [num_filters[-1] * len(filter_sizes)], while the features [fc1]
    receives have one column per filter of the convolutions that are
    built.  Whenever the numbers of filters that are used do not add up to
    that size, the forward pass returns for no batch at all.  So it is with
    the filters [2, 3] of sizes [1, 2]: the constructor returns, and on a
    batch of two sequences of three tokens that the model can embed the
    forward pass raises where [fc1] is applied, instead of returning
    scores of shape (2, 5). *)
Theorem C6_cnn_final_layer_size :
  (forall (W S : Type) (H : Torch W S) (max_features embed_size : nat)
          (num_filters filter_sizes : list nat) (self : CNN.t) (ms : module_state W)
          (x scores : tensor S),
      CNN.__init__ max_features embed_size num_filters filter_sizes = Ok self ->
      list_sum (firstn (List.length filter_sizes) num_filters)
      <> last num_filters 0 * List.length filter_sizes ->
      CNN.forward self ms x <> Ok scores)
  /\ (exists self : CNN.t,
        CNN.__init__ 10 3 [2; 3] [1; 2] = Ok self
        /\ shape (Example.ids 2 Cpu) = [2; 3]
        /\ device (Example.ids 2 Cpu) = param_device Example.fresh
        /\ torch.all_below (H:=Example.lib) 10
             (torch.long (H:=Example.lib) (Example.ids 2 Cpu)) = true
        /\ CNN.forward (H:=Example.lib) self Example.fresh (Example.ids 2 Cpu)
           = Raise (RuntimeError "mat1 and mat2 shapes cannot be multiplied")).
Proof.
  split.
  - intros W S H max_features embed_size num_filters filter_sizes self ms x scores I0 Ne E0.
    eapply CNN_forward_inv in E0; [|exact I0].
    destruct E0 as (B & L & _ & _ & _ & _ & _ & _ & Es). exact (Ne Es).
  - eexists. split; [reflexivity|]. split; [reflexivity|]. split; [reflexivity|].
    split; vm_compute; reflexivity.
Qed.

(* ================================================================== *)
(** ** What a run leaves alone *)
(* ================================================================== *)

Section Frame.
Context {W S O E : Type} `{Torch W S}.
Local Abbreviation T := (tensor S).
Local Abbreviation state := (state W S O E).
Local Abbreviation steps := (steps (W:=W) (S:=S) (O:=O) (E:=E)).
Local Abbreviation emits := (emits (W:=W) (S:=S) (O:=O) (E:=E)).
Local Abbreviation keeps := (keeps (W:=W) (S:=S) (O:=O) (E:=E)).
Variable a : train_args W S O E.

(** X9. Without CUDA everything stays on the CPU, whatever [gpu] is: the
    first call of a run is [model.to(cpu)], and at every forward call the
    parameters and the tensors of the batch are on the CPU, as are the
    labels at every call of the criterion - with [gpu] true because the
    batch is moved to the CPU, with [gpu] false when the loaders yield CPU
    tensors. *)
Theorem X9_without_cuda (ms : module_state W) (o : O) :
  cuda_is_available = false ->
  (gpu a = false -> cpu_loader (train_loader a) /\ cpu_loader (val_loader a)) ->
  (exists evs, trace (snd (run_train a ms o)) = EModelTo Cpu :: evs)
  /\ model_device (snd (run_train a ms o)) = Cpu
  /\ Forall (placement Cpu Cpu) (trace (snd (run_train a ms o))).
Proof.
  intros Hc Hl. rewrite run_train_unfold.
  assert (Ed : the_device = Cpu) by (unfold the_device; rewrite Hc; reflexivity).
  assert (Eb : batch_device a = Cpu)
    by (unfold batch_device; rewrite Ed; destruct (gpu a); reflexivity).
  assert (Q : steps (placed a Cpu)
                    (for_break (epoch a) (seq 0 (n_epochs a)) ;; plot_history)).
  { apply steps_bind; pre.
    - apply steps_for_break; pre. intros ep. apply epoch_placed. exact Hl.
    - intros _. apply placed_of; [unfold_train; frame | unfold_train; frame]. }
  destruct (Q (first_epoch_state a ms o)) as [Hm (evs & Et & Fe)].
  { unfold model_device, first_epoch_state. simpl. exact Ed. }
  split; [|split; [exact Hm|]].
  - rewrite Et. simpl. rewrite Ed. eauto.
  - rewrite Et. simpl. rewrite Ed. constructor; [reflexivity|]. rewrite <- Eb at 2. exact Fe.
Qed.

Lemma model_eval_keeps_params : steps (keeps model_params) (@model_eval W S O E).
Proof. intros s. reflexivity. Qed.

Lemma model_train_keeps_params : steps (keeps model_params) (@model_train W S O E).
Proof. intros s. reflexivity. Qed.

Lemma validation_phase_keeps_params (ep : nat) :
  steps (keeps model_params) (validation_phase a ep).
Proof.
  unfold validation_phase, early_stopping_check, update_validation_history,
    print_validation, validation_loop, validation_iteration, call_criterion,
    forward_dispatch, call_bert, call_cnn, call_rnn, model_init_hidden,
    set_val_hist, set_it, set_early_stopping, emit.
  repeat first [apply model_eval_keeps_params | apply model_train_keeps_params | frame_step].
Qed.

Lemma validation_phase_keeps_optimizer (ep : nat) :
  steps (keeps (@st_optimizer W S O E)) (validation_phase a ep).
Proof. unfold_train. frame. Qed.

Lemma validation_phase_no_update (ep : nat) :
  steps (emits no_update) (validation_phase a ep).
Proof. unfold_train. frame. Qed.

(** X10. The validation phase of an epoch trains nothing: whether it
    returns or raises, the parameters of the model and the state of the
    optimizer are the ones it started with, and it calls neither
    [zero_grad], nor [backward], nor the step of the optimizer or of the
    scheduler. *)
Theorem X10_validation_trains_nothing (ep : nat) (s : state) :
  model_params (snd (validation_phase a ep s)) = model_params s
  /\ st_optimizer (snd (validation_phase a ep s)) = st_optimizer s
  /\ exists evs, trace (snd (validation_phase a ep s)) = trace s ++ evs
                 /\ Forall no_update evs.
Proof.
  split; [|split].
  - apply (validation_phase_keeps_params ep s).
  - apply (validation_phase_keeps_optimizer ep s).
  - apply (validation_phase_no_update ep s).
Qed.

End Frame.

(* ================================================================== *)
(** ** The calls of a training loop *)
(* ================================================================== *)

Section Protocol.
Context {W S O E : Type} `{Torch W S}.
Local Abbreviation T := (tensor S).
Local Abbreviation state := (state W S O E).
Local Abbreviation steps := (steps (W:=W) (S:=S) (O:=O) (E:=E)).
Local Abbreviation emits := (emits (W:=W) (S:=S) (O:=O) (E:=E)).
Local Abbreviation keeps := (keeps (W:=W) (S:=S) (O:=O) (E:=E)).
Variable a : train_args W S O E.

(** Events that are neither a call of the criterion nor an update. *)
Local Abbreviation plain := (fun e : event S => minor e /\ no_update e).

Lemma update_calls_app (e1 e2 : list (event S)) :
  update_calls (e1 ++ e2) = update_calls e1 ++ update_calls e2.
Proof. unfold update_calls. apply filter_app. Qed.

Lemma plain_updates (evs : list (event S)) : Forall plain evs -> update_calls evs = [].
Proof.
  unfold update_calls. induction 1 as [|e evs [_ Ne] _ IH]; simpl; [reflexivity|].
  rewrite IH. destruct e; simpl in *; try reflexivity; tauto.
Qed.

Lemma plain_losses (evs : list (event S)) :
  Forall plain evs -> losses_at a Training evs = [].
Proof.
  intros F. apply minor_losses. eapply Forall_impl; [|exact F]. intros e [Me _]. exact Me.
Qed.

Lemma forward_dispatch_plain at_site seq attn h :
  steps (emits plain) (forward_dispatch a at_site seq attn h).
Proof. unfold_train. frame. Qed.

Lemma print_iteration_plain it ep l acc :
  steps (emits plain) (print_iteration a it ep l acc).
Proof. unfold_train. frame. Qed.

Lemma model_init_hidden_plain at_site bs :
  steps (emits plain) (model_init_hidden (O:=O) (E:=E) a at_site bs).
Proof. unfold_train. frame. Qed.

Lemma optimizer_zero_grad_trace (s s' : state) (r : result unit) :
  optimizer_zero_grad a s = (r, s') -> trace s' = trace s ++ [EZeroGrad].
Proof. intros E0. inversion E0. reflexivity. Qed.

Lemma loss_backward_trace (l : T) (s s' : state) (r : result unit) :
  loss_backward l s = (r, s') -> trace s' = trace s ++ [EBackward l].
Proof. intros E0. inversion E0. reflexivity. Qed.

Lemma optimizer_step_trace (s s' : state) (r : result unit) :
  optimizer_step a s = (r, s') -> trace s' = trace s ++ [EOptimizerStep].
Proof.
  unfold optimizer_step, set_module, set_optimizer, emit, bind, gets, modify. simpl.
  destruct (step _ _ _). intros E0. inversion E0. reflexivity.
Qed.

(** The calls of one iteration of the training loop that completes. *)
Lemma train_iteration_calls (ep it : nat) (data : list T) (rl ra rl' ra' : pynum S)
  (h h' : option (T * T)) (s s' : state) :
  train_iteration a ep (it, data) (rl, ra, h) s = (Ok (rl', ra', h'), s') ->
  exists l evs,
    trace s' = trace s ++ evs /\ losses_at a Training evs = [l]
    /\ update_calls evs = [EZeroGrad; EBackward l; EOptimizerStep].
Proof.
  unfold train_iteration. intros E0.
  apply bind_ok in E0. destruct E0 as ([] & s1 & E1 & E0).
  unfold set_it, modify in E1. inversion E1 as [E1']. clear E1.
  apply bind_ok in E0. destruct E0 as ([[sq am] lb] & s2 & E2 & E0).
  apply lift_inv in E2. destruct E2 as [_ ->].
  apply bind_ok in E0. destruct E0 as ([] & s3 & E3 & E0).
  destruct (to_device a (sq, am, torch.type_LongTensor lb)) as [[sq' am'] lb'].
  apply bind_ok in E0. destruct E0 as ([output h1] & s4 & E4 & E0).
  apply bind_ok in E0. destruct E0 as (l & s5 & E5 & E0).
  apply bind_ok in E0. destruct E0 as (rl1 & s6 & E6 & E0).
  apply lift_inv in E6. destruct E6 as [_ ->].
  apply bind_ok in E0. destruct E0 as ([] & s7 & E7 & E0).
  apply bind_ok in E0. destruct E0 as ([] & s8 & E8 & E0).
  apply bind_ok in E0. destruct E0 as (acc & s9 & E9 & E0).
  apply lift_inv in E9. destruct E9 as [_ ->].
  apply bind_ok in E0. destruct E0 as (ra1 & s10 & E10 & E0).
  apply lift_inv in E10. destruct E10 as [_ ->].
  apply bind_ok in E0. destruct E0 as ([] & s11 & E11 & E0).
  inversion E0; subst rl1 ra1 h1 s11; clear E0.
  apply optimizer_zero_grad_trace in E3.
  destruct (steps_run (forward_dispatch_plain _ _ _ _) E4) as (e4 & T4 & M4).
  apply call_criterion_ok in E5. destruct E5 as (q & _ & Ec & T5).
  apply loss_backward_trace in E7. apply optimizer_step_trace in E8.
  destruct (steps_run (print_iteration_plain _ _ _ _) E11) as (e11 & T11 & M11).
  exists l, ([EZeroGrad] ++ e4 ++ [ECriterion Training q lb'] ++ [EBackward l]
             ++ [EOptimizerStep] ++ e11).
  split; [|split].
  - rewrite T11, E8, E7, T5, T4, E3, <- E1'. simpl. rewrite <- !app_assoc. reflexivity.
  - rewrite !losses_at_app, (plain_losses M4), (plain_losses M11). simpl.
    rewrite Ec. reflexivity.
  - rewrite !update_calls_app, (plain_updates M4), (plain_updates M11). reflexivity.
Qed.

Lemma train_iterations_calls (ep : nat) (l : list (nat * list T)) :
  forall (rl ra rl' ra' : pynum S) (h h' : option (T * T)) (s s' : state),
  for_each (train_iteration a ep) l (rl, ra, h) s = (Ok (rl', ra', h'), s') ->
  exists evs, trace s' = trace s ++ evs
    /\ List.length (losses_at a Training evs) = List.length l
    /\ update_calls evs
       = flat_map (fun x => [EZeroGrad; EBackward x; EOptimizerStep])
                  (losses_at a Training evs).
Proof.
  induction l as [|[it data] l IH]; intros rl ra rl' ra' h h' s s' E0; simpl in E0.
  - inversion E0; subst. exists []. rewrite app_nil_r. auto.
  - apply bind_ok in E0. destruct E0 as ([[rl1 ra1] h1] & s1 & E1 & E0).
    apply train_iteration_calls in E1. destruct E1 as (x & ev1 & T1 & L1 & U1).
    apply IH in E0. destruct E0 as (ev2 & T2 & L2 & U2).
    exists (ev1 ++ ev2). rewrite T2, T1, app_assoc. split; [reflexivity|].
    rewrite losses_at_app, update_calls_app, flat_map_app, length_app, L1, U1, <- U2, L2.
    split; reflexivity.
Qed.

(** X11. In a training loop that returns, the criterion is called once
    per batch, and the calls that change the gradients and the parameters
    are, batch after batch, [optimizer.zero_grad()], [loss.backward()] on
    the loss the criterion returned for that batch, [optimizer.step()]:
    nothing else updates the model, and the scheduler is not stepped
    inside the loop. *)
Theorem X11_update_calls (ep : nat) (rl ra : pynum S) (h : option (T * T)) (s s1 : state) :
  training_loop a ep s = (Ok (rl, ra, h), s1) ->
  exists evs,
    trace s1 = trace s ++ evs
    /\ List.length (losses_at a Training evs) = List.length (batches (train_loader a) ep)
    /\ update_calls evs
       = flat_map (fun l => [EZeroGrad; EBackward l; EOptimizerStep])
                  (losses_at a Training evs)
    /\ Forall not_scheduler evs.
Proof.
  unfold training_loop. intros E0.
  apply bind_ok in E0. destruct E0 as (h0 & s0 & E1 & E0).
  assert (F : exists ev0, trace s0 = trace s ++ ev0 /\ Forall plain ev0).
  { destruct (String.eqb (model_type a) "rnn").
    - apply bind_ok in E1. destruct E1 as (h1 & s2 & E1 & E2).
      inversion E2; subst. exact (steps_run (model_init_hidden_plain _ _) E1).
    - inversion E1; subst. exists []. rewrite app_nil_r. auto. }
  destruct F as (ev0 & T0 & M0).
  pose proof E0 as E0'. apply train_iterations_ok in E0'.
  destruct E0' as (_ & evs' & T' & _ & N').
  apply train_iterations_calls in E0. destruct E0 as (evs & T1 & L1 & U1).
  assert (evs' = evs) by (rewrite T' in T1; exact (app_inv_head _ _ _ T1)). subst evs'.
  exists (ev0 ++ evs). rewrite T1, T0, app_assoc. split; [reflexivity|].
  rewrite losses_at_app, update_calls_app, (plain_losses M0), (plain_updates M0).
  simpl. rewrite L1, length_enumerate. split; [reflexivity|]. split; [exact U1|].
  apply Forall_app. split; [|exact N'].
  eapply Forall_impl; [|exact M0]. intros e [Me _]. destruct e; simpl in *; tauto.
Qed.

End Protocol.

(* ================================================================== *)
(** ** The kinds of numbers the histories receive *)
(* ================================================================== *)

Section Kinds.
Context {W S O E : Type} `{Torch W S}.
Local Abbreviation T := (tensor S).
Local Abbreviation state := (state W S O E).
Local Abbreviation steps := (steps (W:=W) (S:=S) (O:=O) (E:=E)).
Local Abbreviation emits := (emits (W:=W) (S:=S) (O:=O) (E:=E)).
Local Abbreviation keeps := (keeps (W:=W) (S:=S) (O:=O) (E:=E)).
Variable a : train_args W S O E.

Lemma py_add_tensor (x y : pynum S) (t : T) : py_add x (PTensor t) = Ok y -> is_tensor y.
Proof.
  destruct x as [z|f|u]; simpl; intros E0.
  - inversion E0. exact I.
  - inversion E0. exact I.
  - destruct (torch.add u t); simpl in E0; inversion E0. exact I.
Qed.

Lemma py_add_float (x y : pynum S) (f : S) :
  ~ is_tensor x -> py_add x (PFloat f) = Ok y -> is_float y.
Proof.
  destruct x as [z|g|u]; simpl; intros Nx E0.
  - inversion E0. exact I.
  - inversion E0. exact I.
  - destruct Nx. exact I.
Qed.

Lemma py_truediv_tensor (x y : pynum S) (n : Z) :
  is_tensor x -> py_truediv x n = Ok y ->
  exists t, x = PTensor t /\ y = PTensor (torch.div_float t (s_of_Z n)).
Proof.
  destruct x as [z|f|t]; simpl; intros Tx E0; try destruct Tx.
  inversion E0. eauto.
Qed.

Lemma py_truediv_float (x y : pynum S) (n : Z) :
  is_float x -> py_truediv x n = Ok y ->
  n <> 0%Z /\ exists f, x = PFloat f /\ y = PFloat (s_div f (s_of_Z n)).
Proof.
  destruct x as [z|f|t]; simpl; intros Fx E0; try destruct Fx.
  destruct (n =? 0)%Z eqn:En; [discriminate|]. apply Z.eqb_neq in En.
  inversion E0. eauto.
Qed.

Lemma train_iterations_kinds (ep : nat) (l : list (nat * list T)) :
  forall (rl ra rl' ra' : pynum S) (h h' : option (T * T)) (s s' : state),
  for_each (train_iteration a ep) l (rl, ra, h) s = (Ok (rl', ra', h'), s') ->
  l <> [] \/ (is_tensor rl /\ is_tensor ra) ->
  is_tensor rl' /\ is_tensor ra'.
Proof.
  induction l as [|[it data] l IH]; intros rl ra rl' ra' h h' s s' E0 Hl; simpl in E0.
  - inversion E0; subst. destruct Hl as [Hl | Hl]; [congruence | exact Hl].
  - apply bind_ok in E0. destruct E0 as ([[rl1 ra1] h1] & s1 & E1 & E0).
    apply train_iteration_ok in E1. destruct E1 as (_ & x & acc & evs & Erl & Era & _).
    apply py_add_tensor in Erl, Era. eapply IH; [exact E0|]. right. auto.
Qed.

Lemma validation_iteration_sums (it : nat) (data : list T) (n n' : Z)
  (lv av lv' av' : pynum S) (vh vh' : option (T * T)) (s s' : state) :
  validation_iteration a (it, data) (n, lv, av, vh) s = (Ok (n', lv', av', vh'), s') ->
  exists f t, py_add lv (PFloat f) = Ok lv' /\ py_add av (PTensor t) = Ok av'.
Proof.
  unfold validation_iteration. intros E0.
  apply bind_ok in E0. destruct E0 as ([] & s1 & _ & E0).
  apply bind_ok in E0. destruct E0 as ([[sq am] lb] & s2 & _ & E0).
  destruct (to_device a (sq, am, torch.type_LongTensor lb)) as [[sq' am'] lb'].
  apply bind_ok in E0. destruct E0 as ([out h1] & s3 & _ & E0).
  cbv zeta in E0.
  apply bind_ok in E0. destruct E0 as (l & s4 & _ & E0).
  apply bind_ok in E0. destruct E0 as (f & s5 & _ & E0).
  apply bind_ok in E0. destruct E0 as (t & s6 & _ & E0).
  apply bind_ok in E0. destruct E0 as (lv1 & s7 & E1 & E0).
  apply lift_inv in E1. destruct E1 as [E1 _].
  apply bind_ok in E0. destruct E0 as (av1 & s8 & E2 & E0).
  apply lift_inv in E2. destruct E2 as [E2 _].
  inversion E0; subst. eauto.
Qed.

Lemma validation_iterations_kinds (l : list (nat * list T)) :
  forall (n n' : Z) (lv av lv' av' : pynum S) (vh vh' : option (T * T)) (s s' : state),
  for_each (validation_iteration a) l (n, lv, av, vh) s = (Ok (n', lv', av', vh'), s') ->
  ~ is_tensor lv ->
  (l = [] /\ lv' = lv /\ av' = av) \/ (is_float lv' /\ is_tensor av').
Proof.
  induction l as [|[it data] l IH]; intros n n' lv av lv' av' vh vh' s s' E0 Nl;
    simpl in E0.
  - inversion E0; subst. left. auto.
  - right. apply bind_ok in E0. destruct E0 as ([[[n1 lv1] av1] vh1] & s1 & E1 & E0).
    apply validation_iteration_sums in E1. destruct E1 as (f & t & El & Ea).
    apply py_add_float in El; [|exact Nl]. apply py_add_tensor in Ea.
    apply IH in E0.
    + destruct E0 as [(_ & -> & ->) | E0]; [auto | exact E0].
    + destruct lv1; simpl in *; tauto.
Qed.

(** X12. A completed epoch over at least one training batch appends
    tensors to the training history - the running loss and the running
    accuracy are tensors as soon as one batch has been added to them - and
    appends a Python float to the validation losses and a tensor to the
    validation accuracies.  The validation loader has yielded at least one
    batch, since the epoch would have raised otherwise. *)
Theorem X12_kinds_of_entries (ep : nat) (s s' : state) (b : bool) :
  epoch a ep s = (Ok b, s') ->
  batches (train_loader a) ep <> [] ->
  batches (val_loader a) ep <> []
  /\ exists tl ta vl va,
       hist s' = mkHistory (loss (hist s) ++ [PTensor tl]) (accuracy (hist s) ++ [PTensor ta])
       /\ val_hist s' = mkHistory (loss (val_hist s) ++ [PFloat vl])
                                  (accuracy (val_hist s) ++ [PTensor va]).
Proof.
  unfold epoch. intros E0 NE.
  apply bind_ok in E0. destruct E0 as ([] & s1 & E1 & E0).
  pose proof (steps_run (training_phase_keeps_val_hist a ep) E1) as K1. unfold keeps in K1.
  pose proof (steps_run (validation_phase_keeps_hist a ep) E0) as K2. unfold keeps in K2.
  apply training_phase_inv in E1.
  destruct E1 as [(rl & ra & h & t1 & t2 & it & ml & ma & El & _ & _ & Dl & Da & _ & Eh)
                 | (e & Hr & _)]; [|discriminate].
  assert (Kt : is_tensor rl /\ is_tensor ra).
  { unfold training_loop in El.
    apply bind_ok in El. destruct El as (h0 & s0 & _ & El).
    eapply train_iterations_kinds; [exact El|]. left.
    intros Ee. apply (f_equal (@List.length _)) in Ee. rewrite length_enumerate in Ee.
    destruct (batches (train_loader a) ep); [congruence | discriminate]. }
  destruct Kt as [Kl Ka].
  destruct (@py_truediv_tensor _ _ _ Kl Dl) as (tl & _ & ->).
  destruct (@py_truediv_tensor _ _ _ Ka Da) as (ta & _ & ->).
  apply validation_phase_inv in E0.
  destruct E0 as [(n & lv & av & vh & t3 & vl & va & b' & Ev & Dvl & Dva & _ & Evh & _)
                 | (e & Hr & _)]; [|discriminate].
  pose proof Ev as En. apply validation_loop_count in En.
  unfold validation_loop in Ev.
  apply bind_ok in Ev. destruct Ev as ([] & s0 & _ & Ev).
  apply bind_ok in Ev. destruct Ev as (h0 & s0' & _ & Ev).
  apply validation_iterations_kinds in Ev; [|simpl; tauto].
  destruct Ev as [(Ee & -> & ->) | [Fl Fa]].
  { apply (f_equal (@List.length _)) in Ee. rewrite length_enumerate in Ee.
    simpl in Ee. rewrite Ee in En. subst n. simpl in Dvl. discriminate. }
  destruct (@py_truediv_float _ _ _ Fl Dvl) as (Nn & f & _ & ->).
  destruct (@py_truediv_tensor _ _ _ Fa Dva) as (t & _ & ->).
  split.
  - intros Ee. rewrite Ee in En. simpl in En. congruence.
  - do 4 eexists. rewrite K2, Eh, Evh, K1. split; reflexivity.
Qed.

End Kinds.

(* ================================================================== *)
(** ** The scheduler and the early-stopping monitor *)
(* ================================================================== *)

Section Collaborators.
Context {W S O E : Type} `{Torch W S}.
Local Abbreviation T := (tensor S).
Local Abbreviation state := (state W S O E).
Local Abbreviation steps := (steps (W:=W) (S:=S) (O:=O) (E:=E)).
Local Abbreviation emits := (emits (W:=W) (S:=S) (O:=O) (E:=E)).
Local Abbreviation keeps := (keeps (W:=W) (S:=S) (O:=O) (E:=E)).
Variable a : train_args W S O E.

Lemma train_not_monitor :
  activate_early_stopping a = false -> steps (emits not_monitor) (train a).
Proof. intros Ha. unfold_train. rewrite Ha. frame. Qed.

Lemma train_keeps_monitor :
  activate_early_stopping a = false ->
  steps (keeps (@st_early_stopping W S O E)) (train a).
Proof. intros Ha. unfold_train. rewrite Ha. frame. Qed.

Lemma train_not_scheduler :
  scheduler a = None -> steps (emits not_scheduler) (train a).
Proof. intros Hs. unfold_train. rewrite Hs. frame. Qed.

(** X13. A collaborator that is not configured is never used.  With
    [activate_early_stopping] false no monitor is built or called and the
    loop over the epochs does not break: a run that returns has run
    [n_epochs] epochs and each history list has [n_epochs] entries.  With
    no scheduler, no step of a scheduler occurs in the run. *)
Theorem X13_unconfigured_collaborators (ms : module_state W) (o : O) :
  (activate_early_stopping a = false ->
   Forall not_monitor (trace (snd (run_train a ms o)))
   /\ st_early_stopping (snd (run_train a ms o)) = None
   /\ (fst (run_train a ms o) = Ok tt ->
       history_lengths (snd (run_train a ms o)) (n_epochs a)))
  /\ (scheduler a = None -> Forall not_scheduler (trace (snd (run_train a ms o)))).
Proof.
  split.
  - intros Ha.
    destruct (train_not_monitor Ha (initial_state ms o)) as (evs & Et & Fe).
    pose proof (train_keeps_monitor Ha (initial_state ms o)) as K. unfold keeps in K.
    fold (run_train a ms o) in Et, K. simpl in Et, K.
    split; [rewrite Et; exact Fe|]. split; [exact K|].
    intros Hr. destruct (run_train a ms o) as [r s'] eqn:E0. simpl in *. subst r.
    apply run_train_inv in E0.
    destruct E0 as [(_ & L & _) | [(_ & j & t & _ & _ & Et' & _) | (e & He & _)]];
      [exact L | | discriminate].
    exfalso. rewrite Et in Et'. rewrite Et' in Fe.
    apply Forall_app in Fe. destruct Fe as [_ Fe]. inversion Fe as [|? ? Hb _]. exact Hb.
  - intros Hs.
    destruct (train_not_scheduler Hs (initial_state ms o)) as (evs & Et & Fe).
    fold (run_train a ms o) in Et. simpl in Et. rewrite Et. exact Fe.
Qed.

Lemma monitor_scores_app (e1 e2 : list (event S)) :
  monitor_scores (e1 ++ e2) = monitor_scores e1 ++ monitor_scores e2.
Proof. unfold monitor_scores. apply flat_map_app. Qed.

Lemma not_monitor_scores (evs : list (event S)) :
  Forall not_monitor evs -> monitor_scores evs = [].
Proof.
  unfold monitor_scores. induction 1 as [|e evs Ne _ IH]; simpl; [reflexivity|].
  rewrite IH. destruct e; simpl in *; try reflexivity; tauto.
Qed.

Lemma training_phase_not_monitor ep : steps (emits not_monitor) (training_phase a ep).
Proof. unfold_train. frame. Qed.

Lemma training_phase_keeps_monitor ep :
  steps (keeps (@st_early_stopping W S O E)) (training_phase a ep).
Proof. unfold_train. frame. Qed.

Lemma validation_loop_not_monitor ep : steps (emits not_monitor) (validation_loop a ep).
Proof. unfold_train. frame. Qed.

Lemma validation_loop_keeps_monitor ep :
  steps (keeps (@st_early_stopping W S O E)) (validation_loop a ep).
Proof. unfold_train. frame. Qed.

Lemma print_validation_not_monitor ep n lv av :
  steps (emits not_monitor) (print_validation a ep n lv av).
Proof. unfold_train. frame. Qed.

Lemma print_validation_keeps_monitor ep n lv av :
  steps (keeps (@st_early_stopping W S O E)) (print_validation a ep n lv av).
Proof. unfold_train. frame. Qed.

Lemma update_validation_history_keeps_monitor n lv av :
  steps (keeps (@st_early_stopping W S O E))
        (update_validation_history (W:=W) (O:=O) (E:=E) n lv av).
Proof. unfold_train. frame. Qed.

Lemma update_validation_history_keeps_trace n lv av :
  steps (keeps (@trace W S O E)) (update_validation_history (W:=W) (O:=O) (E:=E) n lv av).
Proof. unfold_train. frame. Qed.

(** The call of the monitor, when early stopping is activated. *)
Lemma early_stopping_check_call (ep : nat) (lv : pynum S) (s s' : state) (b : bool) :
  activate_early_stopping a = true ->
  early_stopping_check a ep lv s = (Ok b, s') ->
  exists m,
    st_early_stopping s = Some m
    /\ st_early_stopping s' = Some (es_call (pytorchtools a) m lv (st_module s))
    /\ b = early_stop (pytorchtools a) (es_call (pytorchtools a) m lv (st_module s))
    /\ val_hist s' = val_hist s
    /\ trace s' = trace s ++ EEarlyStopping lv
                              :: (if b then [EPrintEarlyStopping ep] else []).
Proof.
  intros Ha. unfold early_stopping_check, set_early_stopping, emit, bind, gets, modify,
    ret, raise. rewrite Ha. simpl.
  destruct (st_early_stopping s) as [m|]; simpl; [|discriminate].
  destruct (early_stop (pytorchtools a) _) eqn:Es; simpl; intros E0; inversion E0; subst;
    simpl; exists m; repeat split; auto.
  rewrite <- app_assoc. reflexivity.
Qed.

(** X14. With early stopping activated, a completed epoch calls the
    monitor exactly once and gives it the accumulated validation loss -
    the number the mean of the history is computed from, not the mean.
    The loop over the epochs breaks exactly when the [early_stop] flag of
    the monitor is set after that call. *)
Theorem X14_monitored_score (ep : nat) (s s' : state) (b : bool) :
  activate_early_stopping a = true ->
  epoch a ep s = (Ok b, s') ->
  exists m ms' n lv av vh s1 s2 ml evs,
    training_phase a ep s = (Ok tt, s1)
    /\ validation_loop a ep s1 = (Ok (n, lv, av, vh), s2)
    /\ py_truediv lv n = Ok ml
    /\ loss (val_hist s') = loss (val_hist s) ++ [ml]
    /\ trace s' = trace s ++ evs /\ monitor_scores evs = [lv]
    /\ st_early_stopping s = Some m
    /\ st_early_stopping s' = Some (es_call (pytorchtools a) m lv ms')
    /\ b = early_stop (pytorchtools a) (es_call (pytorchtools a) m lv ms').
Proof.
  intros Ha E0. unfold epoch in E0.
  apply bind_ok in E0. destruct E0 as ([] & s1 & E1 & E0).
  pose proof (steps_run (training_phase_keeps_val_hist a ep) E1) as V1. unfold keeps in V1.
  pose proof (steps_run (training_phase_keeps_monitor ep) E1) as K1. unfold keeps in K1.
  destruct (steps_run (training_phase_not_monitor ep) E1) as (e1 & T1 & N1).
  unfold validation_phase in E0.
  apply bind_ok in E0. destruct E0 as ([[[n lv] av] vh] & s2 & E2 & E0).
  pose proof (steps_run (validation_loop_keeps_val_hist a ep) E2) as V2. unfold keeps in V2.
  pose proof (steps_run (validation_loop_keeps_monitor ep) E2) as K2. unfold keeps in K2.
  destruct (steps_run (validation_loop_not_monitor ep) E2) as (e2 & T2 & N2).
  apply bind_ok in E0. destruct E0 as ([] & s3 & E3 & E0).
  pose proof (steps_run (print_validation_keeps_val_hist a ep n lv av) E3) as V3.
  unfold keeps in V3.
  pose proof (steps_run (print_validation_keeps_monitor ep n lv av) E3) as K3.
  unfold keeps in K3.
  destruct (steps_run (print_validation_not_monitor ep n lv av) E3) as (e3 & T3 & N3).
  apply bind_ok in E0. destruct E0 as ([] & s4 & E4 & E0).
  pose proof (steps_run (update_validation_history_keeps_monitor n lv av) E4) as K4.
  unfold keeps in K4.
  pose proof (steps_run (update_validation_history_keeps_trace n lv av) E4) as T4.
  unfold keeps in T4.
  apply update_validation_history_spec in E4.
  destruct E4 as [(ml & ma & El & Ea & _ & Eh) | (e' & Hr & _)]; [|discriminate].
  apply bind_ok in E0. destruct E0 as (stop & s5 & E5 & E0).
  apply early_stopping_check_call in E5; [|exact Ha].
  destruct E5 as (m & Em & Em' & Eb & V5 & T5).
  assert (Em0 : st_early_stopping s = Some m) by congruence.
  assert (Ev0 : loss (val_hist s5) = loss (val_hist s) ++ [ml]).
  { rewrite V5, Eh, V3, V2, V1. reflexivity. }
  assert (Et0 : trace s5 = trace s ++ (e1 ++ e2 ++ e3)
                             ++ EEarlyStopping lv
                                :: (if stop then [EPrintEarlyStopping ep] else [])).
  { rewrite T5, T4, T3, T2, T1, <- !app_assoc. reflexivity. }
  assert (N123 : Forall not_monitor (e1 ++ e2 ++ e3)).
  { rewrite !Forall_app. auto. }
  destruct stop.
  - inversion E0; subst b s'; clear E0.
    exists m, (st_module s4), n, lv, av, vh, s1, s2, ml. eexists.
    repeat split; try eassumption.
    rewrite monitor_scores_app, (not_monitor_scores N123). reflexivity.
  - apply bind_ok in E0. destruct E0 as ([] & s6 & E6 & E0).
    inversion E0; subst b s'; clear E0.
    unfold model_train, set_module, emit, bind, gets, modify in E6. simpl in E6.
    inversion E6; subst s6; clear E6. simpl.
    exists m, (st_module s4), n, lv, av, vh, s1, s2, ml. eexists.
    split; [exact E1|]. split; [exact E2|]. split; [exact El|]. split; [exact Ev0|].
    split; [rewrite Et0, <- !app_assoc; reflexivity|].
    split; [|split; [exact Em0 | split; [exact Em' | exact Eb]]].
    rewrite !monitor_scores_app, (not_monitor_scores N1), (not_monitor_scores N2),
      (not_monitor_scores N3). reflexivity.
Qed.

End Collaborators.

(* ================================================================== *)
(** ** The mode of the model *)
(* ================================================================== *)

Section Modes.
Context {W S O E : Type} `{Torch W S}.
Local Abbreviation T := (tensor S).
Local Abbreviation state := (state W S O E).
Local Abbreviation steps := (steps (W:=W) (S:=S) (O:=O) (E:=E)).
Local Abbreviation emits := (emits (W:=W) (S:=S) (O:=O) (E:=E)).
Local Abbreviation keeps := (keeps (W:=W) (S:=S) (O:=O) (E:=E)).
Local Abbreviation moded := (moded (W:=W) (S:=S) (O:=O) (E:=E)).
Variable a : train_args W S O E.

#[global] Instance moded_preorder (b : bool) : PreOrder (moded b).
Proof.
  split.
  - intros s Hs. split; [exact Hs | reflexivity].
  - intros s1 s2 s3 H12 H23 Hs. destruct (H12 Hs) as [H2 Q2].
    destruct (H23 H2) as [H3 Q3]. split; [exact H3 | etransitivity; eassumption].
Qed.

Lemma moded_of (b : bool) {A : Type} (c : M A) :
  steps (keeps model_mode) c -> steps (emits mode_at) c -> steps (moded b) c.
Proof. intros K Q s Hs. split; [rewrite (K s); exact Hs | apply Q]. Qed.

Lemma optimizer_zero_grad_keeps_mode :
  steps (keeps model_mode) (optimizer_zero_grad (E:=E) a).
Proof. intros s. reflexivity. Qed.

Lemma loss_backward_keeps_mode l :
  steps (keeps model_mode) (loss_backward (O:=O) (E:=E) l).
Proof. intros s. reflexivity. Qed.

Lemma optimizer_step_keeps_mode : steps (keeps model_mode) (optimizer_step (E:=E) a).
Proof.
  intros s. unfold optimizer_step, set_module, set_optimizer, emit, bind, gets, modify.
  simpl. destruct (step _ _ _). reflexivity.
Qed.

(** A forward event, then a computation that leaves the mode alone. *)
Lemma moded_after_emit (b : bool) {A : Type} (e : event S) (c : M A) (s : state) :
  model_mode s = b -> mode_at e ->
  steps (keeps model_mode) c -> steps (emits mode_at) c ->
  moded b s (snd ((emit e ;; c) s)).
Proof.
  intros Hs Pe K Q _.
  set (s1 := mkState (st_module s) (st_optimizer s) (st_early_stopping s) (var_it s)
                     (hist s) (val_hist s) (trace s ++ [e])).
  change (snd ((emit e ;; c) s)) with (snd (c s1)).
  specialize (K s1). destruct (Q s1) as (evs & Et & Fe).
  unfold keeps in K. split.
  - rewrite K. exact Hs.
  - exists (e :: evs). rewrite Et. simpl. rewrite <- app_assoc. split; [reflexivity|].
    constructor; assumption.
Qed.

Lemma forward_dispatch_moded (b : bool) (at_site : site) (sq am : T) (h : option (T * T)) :
  b = match at_site with Training => true | Validation => false end ->
  steps (moded b) (forward_dispatch a at_site sq am h).
Proof.
  intros Eb. unfold forward_dispatch. apply steps_gets_bind. intros s.
  assert (P : forall mt pd hd, model_mode s = b ->
                mode_at (EForward at_site mt pd (training (st_module s)) sq am hd)).
  { intros mt pd hd Hs. unfold model_mode in Hs. rewrite Hs, Eb.
    destruct at_site; reflexivity. }
  destruct (String.eqb (model_type a) "rnn").
  { destruct h as [[h0 c0]|]; [|intros Hs; split; [exact Hs | reflexivity]].
    intros Hs. apply moded_after_emit; auto.
    - unfold_train. frame.
    - unfold_train. frame. }
  destruct (String.eqb (model_type a) "cnn").
  { intros Hs. apply moded_after_emit; auto.
    - unfold_train. frame.
    - unfold_train. frame. }
  destruct (String.eqb (model_type a) "bert").
  { intros Hs. apply moded_after_emit; auto.
    - unfold_train. frame.
    - unfold_train. frame. }
  intros Hs. split; [exact Hs | reflexivity].
Qed.

Ltac moded_leaf :=
  apply moded_of; [unfold_train; frame | unfold_train; frame].

Lemma train_iteration_moded (ep : nat) (itd : nat * list T)
  (acc : pynum S * pynum S * option (T * T)) :
  steps (moded true) (train_iteration a ep itd acc).
Proof.
  destruct itd as [it data]. destruct acc as [[rl ra] h].
  unfold train_iteration.
  apply steps_bind; pre; [moded_leaf | intros _].
  apply steps_lift_bind; pre. intros [[sq am] lb] Eu.
  apply steps_bind; pre.
  { apply moded_of; [apply optimizer_zero_grad_keeps_mode | unfold_train; frame]. }
  intros _.
  destruct (to_device a (sq, am, torch.type_LongTensor lb)) as [[sq' am'] lb'].
  apply steps_bind; pre; [apply forward_dispatch_moded; reflexivity | intros [out h']].
  apply steps_bind; pre; [moded_leaf | intros l].
  apply steps_bind; pre; [apply steps_lift; pre | intros rl'].
  apply steps_bind; pre.
  { apply moded_of; [apply loss_backward_keeps_mode | unfold_train; frame]. }
  intros _.
  apply steps_bind; pre.
  { apply moded_of; [apply optimizer_step_keeps_mode | unfold_train; frame]. }
  intros _.
  apply steps_bind; pre; [apply steps_lift; pre | intros acc'].
  apply steps_bind; pre; [apply steps_lift; pre | intros ra'].
  apply steps_bind; pre; [moded_leaf | intros _].
  apply steps_ret; pre.
Qed.

Lemma validation_iteration_moded (itd : nat * list T)
  (acc : Z * pynum S * pynum S * option (T * T)) :
  steps (moded false) (validation_iteration a itd acc).
Proof.
  destruct itd as [it data]. destruct acc as [[[n lv] av] h].
  unfold validation_iteration.
  apply steps_bind; pre; [moded_leaf | intros _].
  apply steps_lift_bind; pre. intros [[sq am] lb] Eu.
  destruct (to_device a (sq, am, torch.type_LongTensor lb)) as [[sq' am'] lb'].
  apply steps_bind; pre; [apply forward_dispatch_moded; reflexivity | intros [out h']].
  cbv zeta.
  apply steps_bind; pre; [moded_leaf | intros l].
  repeat (apply steps_bind; pre; [apply steps_lift; pre | intro]).
  apply steps_ret; pre.
Qed.

Lemma training_phase_moded (ep : nat) : steps (moded true) (training_phase a ep).
Proof.
  unfold training_phase, training_loop.
  apply steps_bind; pre.
  - apply steps_bind; pre.
    + destruct (String.eqb (model_type a) "rnn"); [|apply steps_ret; pre].
      apply steps_bind; pre; [moded_leaf | intros h; apply steps_ret; pre].
    + intros h. apply steps_for_each; pre. intros x acc. apply train_iteration_moded.
  - intros [[rl ra] h]. apply steps_bind; pre; [moded_leaf | intros _]. moded_leaf.
Qed.

(** The validation loop puts the model in evaluation mode and runs every
    forward call in it. *)
Lemma validation_loop_mode (ep : nat) (s : state) :
  model_mode (snd (validation_loop a ep s)) = false
  /\ emits mode_at s (snd (validation_loop a ep s)).
Proof.
  set (s1 := mkState (mkModuleState (params (st_module s)) (param_device (st_module s))
                                    false)
                     (st_optimizer s) (st_early_stopping s) (var_it s)
                     (hist s) (val_hist s) (trace s ++ [EEval])).
  set (rest :=
         val_h <- (if String.eqb (model_type a) "rnn"
                   then h <- model_init_hidden a Validation (batch_size (val_loader a)) ;;
                        ret (Some h)
                   else ret None) ;;
         for_each (validation_iteration a) (enumerate (batches (val_loader a) ep))
                  (0%Z, PInt 0, PInt 0, val_h)).
  assert (Ev : validation_loop a ep s = rest s1) by reflexivity.
  assert (Q : steps (moded false) rest).
  { unfold rest. apply steps_bind; pre.
    - destruct (String.eqb (model_type a) "rnn"); [|apply steps_ret; pre].
      apply steps_bind; pre; [moded_leaf | intros h; apply steps_ret; pre].
    - intros h. apply steps_for_each; pre. intros x acc. apply validation_iteration_moded. }
  rewrite Ev. destruct (Q s1 eq_refl) as [Hm (evs & Et & Fe)].
  split; [exact Hm|]. exists (EEval :: evs). rewrite Et. simpl. rewrite <- app_assoc.
  split; [reflexivity|]. constructor; [exact I | exact Fe].
Qed.

Lemma early_stopping_check_moded (ep : nat) (lv : pynum S) :
  steps (moded false) (early_stopping_check a ep lv).
Proof. moded_leaf. Qed.

Lemma print_validation_moded (ep : nat) (n : Z) (lv av : pynum S) :
  steps (moded false) (print_validation a ep n lv av).
Proof. moded_leaf. Qed.

Lemma update_validation_history_moded (n : Z) (lv av : pynum S) :
  steps (moded false) (update_validation_history (W:=W) (O:=O) (E:=E) n lv av).
Proof. moded_leaf. Qed.

(** How a validation phase leaves the mode: cleared when the loop over
    the epochs breaks, set again otherwise. *)
Lemma validation_phase_modes (ep : nat) (s s' : state) (r : result bool) :
  validation_phase a ep s = (r, s') ->
  emits mode_at s s'
  /\ match r with Ok b => model_mode s' = negb b | Raise _ => True end.
Proof.
  unfold validation_phase. intros E0.
  destruct (validation_loop_mode ep s) as [M2 Q2].
  apply bind_inv in E0. destruct E0 as [([[[n lv] av] vh] & s2 & E2 & E0) | (e & E2 & ->)].
  2:{ rewrite E2 in Q2. simpl in Q2. auto. }
  rewrite E2 in M2, Q2. simpl in M2, Q2.
  apply bind_inv in E0. destruct E0 as [([] & s3 & E3 & E0) | (e & E3 & ->)].
  2:{ destruct (steps_run (print_validation_moded ep n lv av) E3 M2) as [_ Q3].
      split; [etransitivity; eassumption | exact I]. }
  destruct (steps_run (print_validation_moded ep n lv av) E3 M2) as [M3 Q3].
  apply bind_inv in E0. destruct E0 as [([] & s4 & E4 & E0) | (e & E4 & ->)].
  2:{ destruct (steps_run (update_validation_history_moded n lv av) E4 M3) as [_ Q4].
      split; [|exact I]. etransitivity; [exact Q2|]. etransitivity; eassumption. }
  destruct (steps_run (update_validation_history_moded n lv av) E4 M3) as [M4 Q4].
  apply bind_inv in E0. destruct E0 as [(stop & s5 & E5 & E0) | (e & E5 & ->)].
  2:{ destruct (steps_run (early_stopping_check_moded ep lv) E5 M4) as [_ Q5].
      split; [|exact I]. etransitivity; [exact Q2|]. etransitivity; [exact Q3|].
      etransitivity; eassumption. }
  destruct (steps_run (early_stopping_check_moded ep lv) E5 M4) as [M5 Q5].
  assert (Q25 : emits mode_at s s5).
  { etransitivity; [exact Q2|]. etransitivity; [exact Q3|]. etransitivity; eassumption. }
  destruct stop.
  - inversion E0; subst. split; [exact Q25 | exact M5].
  - unfold model_train, set_module, emit, bind, gets, modify, ret in E0. simpl in E0.
    inversion E0; subst; clear E0. split; [|reflexivity].
    destruct Q25 as (evs & Et & Fe). exists (evs ++ [ETrainMode]). simpl.
    rewrite Et, <- app_assoc. split; [reflexivity|].
    apply Forall_app. split; [exact Fe|]. constructor; [exact I | constructor].
Qed.

(** An epoch that starts in training mode. *)
Lemma epoch_modes (ep : nat) (s s' : state) (r : result bool) :
  epoch a ep s = (r, s') -> model_mode s = true ->
  emits mode_at s s'
  /\ match r with
     | Ok true => model_mode s' = false
                  /\ exists evs, trace s' = trace s ++ evs ++ [EPrintEarlyStopping ep]
     | Ok false => model_mode s' = true /\ emits not_break s s'
     | Raise _ => True
     end.
Proof.
  unfold epoch. intros E0 Hs.
  apply bind_inv in E0. destruct E0 as [([] & s1 & E1 & E0) | (e & E1 & ->)].
  2:{ destruct (steps_run (training_phase_moded ep) E1 Hs) as [_ Q1]. auto. }
  destruct (steps_run (training_phase_moded ep) E1 Hs) as [M1 Q1].
  pose proof (steps_run (training_phase_quiet a ep) E1) as B1.
  pose proof E0 as E0'. apply validation_phase_modes in E0'. destruct E0' as [Q2 M2].
  split; [etransitivity; eassumption|].
  destruct r as [b|e]; [|exact I].
  apply validation_phase_inv in E0.
  destruct E0 as [(n & lv & av & vh & t3 & vl & va & b' & _ & _ & _ & Eb & _ & Tr)
                 | (e & Hr & _)]; [|discriminate].
  inversion Eb; subst b'. destruct b; simpl in M2.
  - split; [exact M2|]. destruct Tr as (evs & Et & _). destruct B1 as (ev1 & Et1 & _).
    exists (ev1 ++ evs). rewrite Et, Et1, <- !app_assoc. reflexivity.
  - split; [exact M2|]. etransitivity; eassumption.
Qed.

Lemma epochs_modes (l : list nat) :
  forall (s s' : state) (r : result unit),
  for_break (epoch a) l s = (r, s') -> model_mode s = true ->
  emits mode_at s s'
  /\ (r = Ok tt ->
      (model_mode s' = true /\ emits not_break s s')
      \/ (model_mode s' = false
          /\ exists j evs, trace s' = trace s ++ evs ++ [EPrintEarlyStopping j])).
Proof.
  induction l as [|ep l IH]; intros s s' r E0 Hs; simpl in E0.
  - inversion E0; subst. split; [reflexivity|]. intros _. left. split; [exact Hs|reflexivity].
  - apply bind_inv in E0. destruct E0 as [(b & s1 & E1 & E0) | (e & E1 & ->)].
    + apply epoch_modes in E1; [|exact Hs]. destruct E1 as [Q1 M1]. destruct b.
      * inversion E0; subst. split; [exact Q1|]. intros _. right.
        destruct M1 as [M1 (evs & Et)]. split; [exact M1|]. eauto.
      * destruct M1 as [M1 B1]. apply IH in E0; [|exact M1]. destruct E0 as [Q2 M2].
        split; [etransitivity; eassumption|]. intros Hr.
        destruct (M2 Hr) as [[M3 B3] | [M3 (j & evs & Et)]].
        -- left. split; [exact M3|]. etransitivity; eassumption.
        -- right. split; [exact M3|]. destruct B1 as (ev1 & Et1 & _).
           exists j, (ev1 ++ evs). rewrite Et, Et1, <- !app_assoc. reflexivity.
    + apply epoch_modes in E1; [|exact Hs]. destruct E1 as [Q1 _].
      split; [exact Q1 | discriminate].
Qed.

(** X15. For a model given in training mode, every forward call of the
    training loops of a run finds the model in training mode and every
    forward call of the validation loops finds it in evaluation mode.  A
    run that returns leaves the model in training mode, unless the loop
    over the epochs broke: [model.train()] is skipped by the break, and the
    model is left in evaluation mode. *)
Theorem X15_modes (ms : module_state W) (o : O) :
  training ms = true ->
  Forall mode_at (trace (snd (run_train a ms o)))
  /\ (fst (run_train a ms o) = Ok tt ->
      (Forall not_break (trace (snd (run_train a ms o))) ->
       model_mode (snd (run_train a ms o)) = true)
      /\ (forall k, In (EPrintEarlyStopping k) (trace (snd (run_train a ms o))) ->
          model_mode (snd (run_train a ms o)) = false)).
Proof.
  intros Hm. rewrite run_train_unfold.
  assert (H0 : model_mode (first_epoch_state a ms o) = true) by exact Hm.
  destruct ((for_break (epoch a) (seq 0 (n_epochs a)) ;; plot_history)
              (first_epoch_state a ms o)) as [r s'] eqn:E0.
  apply bind_inv in E0. destruct E0 as [([] & s1 & E1 & E0) | (e & E1 & ->)].
  - rewrite plot_history_run in E0. inversion E0; subst r s'; clear E0. simpl.
    apply epochs_modes in E1; [|exact H0]. destruct E1 as [(evs & Et & Fe) M1].
    simpl in Et. split.
    + rewrite Et. simpl. constructor; [exact I|]. apply Forall_app. split; [exact Fe|].
      constructor; [exact I | constructor].
    + intros _. unfold model_mode. simpl.
      destruct (M1 eq_refl) as [[M2 (ev2 & Et2 & B2)] | [M2 (j & ev2 & Et2)]].
      * split; [intros _; exact M2|]. intros k Hin. exfalso.
        rewrite Et2 in Hin. simpl in Hin.
        destruct Hin as [Hin | Hin]; [discriminate|].
        apply in_app_or in Hin. destruct Hin as [Hin | [Hin | []]]; [|discriminate].
        rewrite Forall_forall in B2. exact (B2 _ Hin).
      * split; [|intros _ _; exact M2]. intros Fb. exfalso.
        rewrite Et2 in Fb. simpl in Fb.
        inversion Fb as [|? ? _ Fb']; subst.
        apply Forall_app in Fb'. destruct Fb' as [Fb' _].
        apply Forall_app in Fb'. destruct Fb' as [_ Fb'].
        inversion Fb' as [|? ? Hb _]. exact Hb.
  - simpl. apply epochs_modes in E1; [|exact H0]. destruct E1 as [(evs & Et & Fe) _].
    simpl in Et. split; [|discriminate].
    rewrite Et. simpl. constructor; [exact I | exact Fe].
Qed.

End Modes.

(* ================================================================== *)
(** ** Runs on concrete inputs *)
(* ================================================================== *)

(** The integer part of the real 0. *)
Lemma truncate_0 : RLib.truncate 0 = 0%Z.
Proof.
  unfold RLib.truncate. destruct (Rle_dec 0 0) as [_|N]; [|exfalso; apply N; lra].
  symmetry. apply Int_part_spec. simpl. lra.
Qed.

(** The logistic function at 0. *)
Lemma logistic_0 : RLib.logistic 0 = (1 / 2)%R.
Proof. unfold RLib.logistic. rewrite Ropp_0, exp_0. lra. Qed.

(** C5 as first stated, refuted by a run.  In evaluation mode, on one
    sequence of one token, the linear layer [fc] of the recurrent
    classifier gives the score 0 and [forward] returns 1/2, its sigmoid:
    what [forward] returns is not the output of the linear layer. *)
Lemma C5_counterexample :
  exists scores logits hidden b,
    RNN.forward (H:=RLib.lib) Example.rnn Example.evaluating Example.zero_ids
                Example.zero_hidden = Ok (scores, hidden)
    /\ RNN.fc_output (H:=RLib.lib) Example.rnn Example.evaluating Example.zero_ids
                     Example.zero_hidden = Ok (b, logits, hidden)
    /\ data logits [0; 0] = 0%R
    /\ data scores [0; 0] = (1 / 2)%R
    /\ scores <> logits.
Proof.
  assert (A : torch.all_below (H:=RLib.lib) 10 (torch.long (H:=RLib.lib) Example.zero_ids)
              = true).
  { unfold torch.all_below, torch.long, torch.map_entries. simpl.
    rewrite truncate_0. simpl. rewrite truncate_0. reflexivity. }
  unfold RNN.forward, RNN.fc_output, nn.Embedding_call.
  simpl RNN.embedding. simpl nn.num_embeddings. rewrite A. simpl.
  do 4 eexists. split; [reflexivity|]. split; [reflexivity|].
  simpl. split; [reflexivity|]. split; [apply logistic_0|].
  intros E. apply (f_equal (fun t => data t [0; 0])) in E. simpl in E.
  unfold RLib.rzeros in E. rewrite logistic_0 in E. lra.
Qed.

Import Example.

(** C3 as first stated, refuted by a run.  With a loader of batch size 2
    whose last batch holds one sequence, the second forward call of the
    first epoch is given that batch of one sequence and a hidden pair of
    shape (n_layers, 2, hidden_dim), not (n_layers, 1, hidden_dim); the
    call raises. *)
Lemma C3_counterexample :
  exists pd tr seq attn h0 c0,
    nth_error (trace (snd (run_train (H:=lib) a_short fresh tt))) 9
    = Some (EForward Training "rnn" pd tr seq attn (Some (h0, c0)))
    /\ shape seq = [1; 3]
    /\ shape h0 = [RNN.n_layers rnn; 2; RNN.hidden_dim rnn]
    /\ shape h0 <> [RNN.n_layers rnn; 1; RNN.hidden_dim rnn]
    /\ fst (run_train (H:=lib) a_short fresh tt)
       = Raise (RuntimeError "Expected hidden size does not match").
Proof.
  do 6 eexists. split; [vm_compute; reflexivity|].
  split; [reflexivity|]. split; [reflexivity|]. split; [discriminate|].
  vm_compute. reflexivity.
Qed.

(** C10 as first stated, refuted by a run.  In a run that returns, when
    the training phase of the first epoch is over - the first fifteen
    events of the run - the training history has one entry and the
    validation history none. *)
Lemma C10_counterexample :
  fst (run_train (H:=lib) a_rnn fresh tt) = Ok tt
  /\ fst (training_phase (H:=lib) a_rnn 0 (start a_rnn)) = Ok tt
  /\ firstn 15 (trace (snd (run_train (H:=lib) a_rnn fresh tt)))
     = trace (snd (training_phase (H:=lib) a_rnn 0 (start a_rnn)))
  /\ List.length (loss (hist (snd (training_phase (H:=lib) a_rnn 0 (start a_rnn)))))
     <> List.length (loss (val_hist (snd (training_phase (H:=lib) a_rnn 0 (start a_rnn))))).
Proof.
  split; [vm_compute; reflexivity|]. split; [vm_compute; reflexivity|].
  split; [vm_compute; reflexivity|]. vm_compute. discriminate.
Qed.


(** C2 on a run with the model type [lstm]. *)
Lemma C2_witness :
  exists s',
    run_train (H:=lib) a_unsupported fresh tt
    = (Raise (ValueError (not_supported "lstm")), s')
    /\ Forall not_forward (trace s').
Proof.
  destruct (@C2_unsupported_model_type unit Z unit (nat * nat) lib a_unsupported fresh tt
              [ids 2 Cpu; labels 2 Cpu] [[ids 1 Cpu; labels 1 Cpu]])
    as [(s' & E & _ & F & _) _].
  - discriminate.
  - discriminate.
  - discriminate.
  - simpl. lia.
  - reflexivity.
  - exists s'. split; [exact E | exact F].
Defined.

(** C3, as amended, on three epochs over full batches. *)
Lemma C3_witness :
  Forall (hidden_of_loader a_rnn rnn) (trace (snd (run_train (H:=lib) a_rnn fresh tt)))
  /\ exists len, shape (ids 2 Cpu) = [loader_batch_size a_rnn Training; len].
Proof.
  destruct (@C3_hidden_sized_by_loader unit Z unit (nat * nat) lib a_rnn rnn
              eq_refl eq_refl fresh tt) as [F X].
  split; [exact F|].
  eapply (X Training (ids 2 Cpu) (torch.ones (H:=lib) 1)
            (fst (RNN.init_hidden (H:=lib) rnn fresh 2))
            (snd (RNN.init_hidden (H:=lib) rnn fresh 2)) (start a_rnn)).
  - reflexivity.
  - vm_compute. reflexivity.
Defined.

(** C4 on a run of three epochs, and on one stopped in its second epoch. *)
Lemma C4_witness :
  history_lengths (snd (run_train (H:=lib) a_rnn fresh tt)) 3
  /\ history_lengths (snd (run_train (H:=lib) a_stop fresh tt)) 2.
Proof.
  split.
  - destruct (@C4_history_length unit Z unit (nat * nat) lib a_rnn fresh tt (Ok tt)
                (snd (run_train (H:=lib) a_rnn fresh tt))) as [_ X].
    + vm_compute. reflexivity.
    + destruct (X eq_refl) as [X1 _]. apply X1.
      intros k. apply not_break_not_in. vm_compute. repeat constructor.
  - destruct (@C4_history_length unit Z unit (nat * nat) lib a_stop fresh tt (Ok tt)
                (snd (run_train (H:=lib) a_stop fresh tt))) as [_ X].
    + vm_compute. reflexivity.
    + destruct (X eq_refl) as [_ X2]. apply (X2 1).
      apply (@nth_error_In _ _ 38). vm_compute. reflexivity.
Defined.

(** C5, as amended, on a batch of two sequences. *)
Lemma C5_witness :
  exists scores hidden' batch_size logits,
    RNN.forward (H:=lib) rnn fresh (ids 2 Cpu) (RNN.init_hidden (H:=lib) rnn fresh 2)
    = Ok (scores, hidden')
    /\ RNN.fc_output (H:=lib) rnn fresh (ids 2 Cpu) (RNN.init_hidden (H:=lib) rnn fresh 2)
       = Ok (batch_size, logits, hidden')
    /\ data scores [1; 1] = @s_sigmoid unit Z lib (data logits [1; 1]).
Proof.
  destruct (@C5_final_layer unit Z lib) as (_ & _ & _ & X).
  assert (E : exists scores hidden',
             RNN.forward (H:=lib) rnn fresh (ids 2 Cpu)
                         (RNN.init_hidden (H:=lib) rnn fresh 2) = Ok (scores, hidden'))
    by (do 2 eexists; vm_compute; reflexivity).
  assert (L : exists logits hidden',
             RNN.fc_output (H:=lib) rnn fresh (ids 2 Cpu)
                           (RNN.init_hidden (H:=lib) rnn fresh 2) = Ok (2, logits, hidden')
             /\ shape logits = [2; 2])
    by (do 2 eexists; split; [vm_compute; reflexivity | reflexivity]).
  destruct E as (scores & hidden' & F).
  destruct L as (logits0 & hidden0 & Efc0 & Sl).
  destruct (X rnn fresh (ids 2 Cpu) (RNN.init_hidden (H:=lib) rnn fresh 2)
              hidden' scores F) as (bs & logits & Efc & Hd).
  rewrite Efc0 in Efc. inversion Efc. subst bs logits0 hidden0.
  exists scores, hidden', 2, logits. split; [exact F|]. split; [exact Efc0|].
  apply (Hd 2 1 1); [exact Sl | lia | lia].
Defined.

(** C6 on a classifier of 2 and 3 filters of sizes 1 and 2. *)
Lemma C6_witness :
  exists self : CNN.t,
    CNN.__init__ 10 3 [2; 3] [1; 2] = Ok self
    /\ forall x scores, CNN.forward (H:=lib) self fresh x <> Ok scores.
Proof.
  eexists. split; [reflexivity|]. intros x scores.
  apply (proj1 C6_cnn_final_layer_size unit Z lib 10 3 [2; 3] [1; 2]).
  - reflexivity.
  - simpl. lia.
Defined.

(** C7 on the first epoch of the recurrent classifier. *)
Lemma C7_witness :
  exists running_loss evs_train evs_validation,
    trace (snd (epoch (H:=lib) a_rnn 0 (start a_rnn)))
    = trace (start a_rnn) ++ evs_train ++ ESchedulerStep running_loss
                                        :: EEval :: evs_validation
    /\ py_sum (H:=lib) (PInt 0) (map (@PTensor Z) (losses_at a_rnn Training evs_train))
       = Ok running_loss
    /\ Forall not_scheduler evs_train /\ Forall not_scheduler evs_validation
    /\ Forall2 (batch_loss (H:=lib) a_rnn) (batches (train_loader a_rnn) 0)
               (losses_at a_rnn Training evs_train)
    /\ List.length (losses_at a_rnn Training evs_train) = 2.
Proof.
  destruct (@C7_scheduler_step unit Z unit (nat * nat) lib a_rnn (fun _ o => o) 0
              (start a_rnn) (snd (epoch (H:=lib) a_rnn 0 (start a_rnn))) false)
    as (rl & ra & h & s1 & s2 & et & ev & _ & _ & Es & _ & _ & Et & F1 & F2 & Fl & Ll).
  - reflexivity.
  - vm_compute. reflexivity.
  - exists rl, et, ev. split; [exact Et|]. split; [exact Es|]. split; [exact F1|].
    split; [exact F2|]. split; [exact Fl | exact Ll].
Defined.

(** C8 on loaders of one, no and two training batches. *)
Lemma C8_witness :
  (var_it (snd (training_loop (H:=lib) a_single 0 (start a_single))) = Some 0
   /\ exists tl ta s',
        training_phase (H:=lib) a_single 0 (start a_single) = (Ok tt, s')
        /\ hist s' = mkHistory [PTensor (torch.div_float (H:=lib) tl 0%Z)]
                               [PTensor (torch.div_float (H:=lib) ta 0%Z)])
  /\ (exists s', training_phase (H:=lib) a_empty 0 (start a_empty)
                 = (Raise (UnboundLocalError "it"), s'))
  /\ (exists s', run_train (H:=lib) a_empty fresh tt = (Raise (UnboundLocalError "it"), s'))
  /\ var_it (snd (training_loop (H:=lib) a_rnn 0 (start a_rnn))) = Some 1.
Proof.
  split; [|split; [|split]].
  - destruct (@C8_training_divisor unit Z unit (nat * nat) lib a_single 0 (start a_single))
      as (X & _).
    assert (L : exists r s1,
               training_loop (H:=lib) a_single 0 (start a_single) = (Ok r, s1))
      by (do 2 eexists; vm_compute; reflexivity).
    destruct L as ([[rl ra] h] & s1 & El).
    destruct (X [ids 2 Cpu; labels 2 Cpu] rl ra h s1 eq_refl El)
      as (I0 & tl & ta & s' & _ & _ & Ep & Eh).
    rewrite El. split; [exact I0|]. exists tl, ta, s'. split; [exact Ep | exact Eh].
  - destruct (@C8_training_divisor unit Z unit (nat * nat) lib a_empty 0 (start a_empty))
      as (_ & X & _).
    apply X.
    + reflexivity.
    + reflexivity.
    + intros E. discriminate E.
  - destruct (@C8_training_divisor unit Z unit (nat * nat) lib a_empty 0 (start a_empty))
      as (_ & _ & X & _).
    apply (X fresh tt).
    + simpl. lia.
    + reflexivity.
    + intros E. discriminate E.
  - destruct (@C8_training_divisor unit Z unit (nat * nat) lib a_rnn 0 (start a_rnn))
      as (_ & _ & _ & X).
    assert (L : exists r s1,
               training_loop (H:=lib) a_rnn 0 (start a_rnn) = (Ok r, s1))
      by (do 2 eexists; vm_compute; reflexivity).
    destruct L as ([[rl ra] h] & s1 & El).
    destruct (X rl ra h s1) as (I1 & _).
    + discriminate.
    + exact El.
    + rewrite El. exact I1.
Defined.

(** C9 with CUDA available, [gpu] false and true. *)
Lemma C9_witness :
  (exists evs, trace (snd (run_train (H:=cuda_lib) a_single fresh tt)) = EModelTo Cuda :: evs)
  /\ Forall (placement Cuda Cpu) (trace (snd (run_train (H:=cuda_lib) a_single fresh tt)))
  /\ Forall (placement Cuda Cuda) (trace (snd (run_train (H:=cuda_lib) a_gpu fresh tt))).
Proof.
  assert (L : forall k item t,
             In item (batches (loader 2 [2]) k) -> In t item -> device t = Cpu).
  { intros k item t [<- | []] [<- | [<- | []]]; reflexivity. }
  destruct (@C9_model_and_batch_devices unit Z unit (nat * nat) cuda_lib a_single fresh tt)
    as (X1 & _ & X2).
  - reflexivity.
  - intros _. split; exact L.
  - destruct (@C9_model_and_batch_devices unit Z unit (nat * nat) cuda_lib a_gpu fresh tt)
      as (_ & _ & X3).
    + reflexivity.
    + intros E. discriminate E.
    + split; [exact X1|]. split; [exact X2 | exact X3].
Defined.

(** C10, as amended, on the epochs of the recurrent classifier. *)
Lemma C10_witness :
  history_lengths (snd (epoch (H:=lib) a_rnn 0 (start a_rnn))) 1
  /\ List.length (loss (hist (snd (training_phase (H:=lib) a_rnn 0 (start a_rnn))))) = 1
  /\ List.length (loss (val_hist (snd (training_phase (H:=lib) a_rnn 0 (start a_rnn))))) = 0
  /\ (exists n, history_lengths
                  (snd (for_break (epoch (H:=lib) a_rnn) (List.seq 0 2) (start a_rnn))) n)
  /\ (exists n, history_lengths (snd (run_train (H:=lib) a_rnn fresh tt)) n).
Proof.
  destruct (@C10_equal_lengths_between_epochs unit Z unit (nat * nat) lib a_rnn)
    as (X1 & X2 & X3 & X4).
  assert (L0 : history_lengths (start a_rnn) 0) by (repeat split).
  split; [|split; [|split; [|split]]].
  - apply (X1 0 0 (start a_rnn) false); [vm_compute; reflexivity | exact L0].
  - destruct (X2 0 0 (start a_rnn) (snd (training_phase (H:=lib) a_rnn 0 (start a_rnn))))
      as (Y & _); [vm_compute; reflexivity | exact L0 | exact Y].
  - destruct (X2 0 0 (start a_rnn) (snd (training_phase (H:=lib) a_rnn 0 (start a_rnn))))
      as (_ & _ & Y & _); [vm_compute; reflexivity | exact L0 | exact Y].
  - apply (X3 fresh tt 2). vm_compute. reflexivity.
  - apply (X4 fresh tt (snd (run_train (H:=lib) a_rnn fresh tt))).
    vm_compute. reflexivity.
Defined.

(** X1 on a run of no epoch. *)
Lemma X1_witness :
  exists s',
    run_train (H:=lib) a_none fresh tt = (Ok tt, s')
    /\ trace s' = [EModelTo Cpu; EPlot (mkHistory [] []) (mkHistory [] [])].
Proof.
  destruct (@X1_no_epoch unit Z unit (nat * nat) lib a_none fresh tt eq_refl)
    as (s' & E & Et & _).
  exists s'. split; [exact E | exact Et].
Defined.

(** X2 on the first epoch of a run whose validation loader is empty. *)
Lemma X2_witness :
  exists s',
    epoch (H:=lib) a_noval 0 (start a_noval) = (Raise ZeroDivisionError, s')
    /\ val_hist s' = mkHistory [] [].
Proof.
  destruct (@X2_empty_validation_loader unit Z unit (nat * nat) lib a_noval 0
              (start a_noval) (snd (training_phase (H:=lib) a_noval 0 (start a_noval))))
    as (s' & E & _ & Ev).
  - reflexivity.
  - vm_compute. reflexivity.
  - exists s'. split; [exact E | exact Ev].
Defined.

(** X3 on a run whose two printing periods are 0. *)
Lemma X3_witness :
  (exists e s', epoch (H:=lib) a_period0 0 (start a_period0) = (Raise e, s'))
  /\ (forall it l acc s0,
        print_iteration a_period0 it 0 l acc s0 = (Raise ZeroDivisionError, s0)).
Proof.
  destruct (@X3_zero_print_period unit Z unit (nat * nat) lib a_period0 0 (start a_period0))
    as (X1 & X2 & X3 & _).
  split.
  - apply X1; [reflexivity | discriminate].
  - apply X2. reflexivity.
Defined.

(** X4 on a batch of two sequences of three tokens. *)
Lemma X4_witness :
  exists scores hn cn,
    RNN.forward (H:=lib) rnn fresh (ids 2 Cpu) (RNN.init_hidden (H:=lib) rnn fresh 2)
    = Ok (scores, (hn, cn))
    /\ shape scores = [2; 2] /\ shape hn = [1; 2; 4].
Proof.
  assert (E : exists scores hn cn,
             RNN.forward (H:=lib) rnn fresh (ids 2 Cpu)
                         (fst (RNN.init_hidden (H:=lib) rnn fresh 2),
                          snd (RNN.init_hidden (H:=lib) rnn fresh 2))
             = Ok (scores, (hn, cn)))
    by (do 3 eexists; vm_compute; reflexivity).
  destruct E as (scores & hn & cn & E).
  destruct (@X4_rnn_forward_needs unit Z lib 10 2 3 4 1 (1 # 2) rnn fresh (ids 2 Cpu)
              _ _ scores hn cn eq_refl E)
    as (B & L & Sx & _ & _ & _ & _ & _ & _ & _ & Ss & Sn & _).
  inversion Sx; subst B L.
  exists scores, hn, cn. split; [exact E|]. split; [exact Ss | exact Sn].
Defined.

(** X5 for a model on the CPU, without CUDA and with it. *)
Lemma X5_witness :
  (exists scores hn cn,
      RNN.forward (H:=lib) rnn fresh (ids 2 Cpu) (RNN.init_hidden (H:=lib) rnn fresh 2)
      = Ok (scores, (hn, cn))
      /\ shape scores = [2; 2])
  /\ (forall r,
        RNN.forward (H:=cuda_lib) rnn fresh (ids 2 Cpu)
                    (RNN.init_hidden (H:=cuda_lib) rnn fresh 2) <> Ok r).
Proof.
  split.
  - destruct (@X5_init_hidden unit Z lib 10 2 3 4 1 (1 # 2) rnn fresh eq_refl)
      as (_ & _ & X).
    destruct (X eq_refl (ids 2 Cpu) 2 3) as (scores & hn & cn & E & Ss & _).
    + reflexivity.
    + lia.
    + lia.
    + vm_compute. reflexivity.
    + reflexivity.
    + exists scores, hn, cn. split; [exact E | exact Ss].
  - destruct (@X5_init_hidden unit Z cuda_lib 10 2 3 4 1 (1 # 2) rnn fresh eq_refl)
      as (_ & X & _).
    apply X. discriminate.
Defined.

(** X7 on no filter, and on two filters for two sizes. *)
Lemma X7_witness :
  CNN.__init__ 10 3 [] [1; 2] = Raise IndexError
  /\ (exists self, CNN.__init__ 10 3 [2; 2] [1; 2] = Ok self)
  /\ List.length (CNN.convs1 cnn) = 2.
Proof.
  destruct (@X7_cnn_constructor 10 3 [] [1; 2]) as (X1 & _).
  destruct (@X7_cnn_constructor 10 3 [2; 2] [1; 2]) as (_ & X2 & X3).
  split; [apply X1; reflexivity|]. split; [apply X2; discriminate|].
  destruct (X3 cnn eq_refl) as (Lc & _). exact Lc.
Defined.

(** X8 on a batch of two sequences of three tokens. *)
Lemma X8_witness :
  exists scores,
    CNN.forward (H:=lib) cnn fresh (ids 2 Cpu) = Ok scores /\ shape scores = [2; 5].
Proof.
  assert (E : exists scores, CNN.forward (H:=lib) cnn fresh (ids 2 Cpu) = Ok scores)
    by (eexists; vm_compute; reflexivity).
  destruct E as (scores & E).
  destruct (@X8_cnn_forward_needs unit Z lib 10 3 [2; 2] [1; 2] cnn fresh (ids 2 Cpu)
              scores eq_refl E) as (B & L & Sx & Ss & _).
  inversion Sx; subst B L. exists scores. split; [exact E | exact Ss].
Defined.

(** X9 without CUDA, [gpu] false and true. *)
Lemma X9_witness :
  Forall (placement Cpu Cpu) (trace (snd (run_train (H:=lib) a_single fresh tt)))
  /\ Forall (placement Cpu Cpu) (trace (snd (run_train (H:=lib) a_gpu fresh tt))).
Proof.
  assert (L : forall k item t,
             In item (batches (loader 2 [2]) k) -> In t item -> device t = Cpu).
  { intros k item t [<- | []] [<- | [<- | []]]; reflexivity. }
  split.
  - destruct (@X9_without_cuda unit Z unit (nat * nat) lib a_single fresh tt) as (_ & _ & X).
    + reflexivity.
    + intros _. split; exact L.
    + exact X.
  - destruct (@X9_without_cuda unit Z unit (nat * nat) lib a_gpu fresh tt) as (_ & _ & X).
    + reflexivity.
    + intros E. discriminate E.
    + exact X.
Defined.

(** X11 on the first training loop of the recurrent classifier. *)
Lemma X11_witness :
  exists evs,
    trace (snd (training_loop (H:=lib) a_rnn 0 (start a_rnn))) = trace (start a_rnn) ++ evs
    /\ List.length (update_calls evs) = 6.
Proof.
  assert (L : exists r s1,
             training_loop (H:=lib) a_rnn 0 (start a_rnn) = (Ok r, s1))
    by (do 2 eexists; vm_compute; reflexivity).
  destruct L as ([[rl ra] h] & s1 & El).
  destruct (@X11_update_calls unit Z unit (nat * nat) lib a_rnn 0 rl ra h (start a_rnn) s1 El)
    as (evs & Et & Ll & Eu & _).
  exists evs. rewrite El. split; [exact Et|].
  rewrite Eu. simpl in Ll.
  destruct (losses_at a_rnn Training evs) as [|l1 [|l2 [|l3 tl]]]; try discriminate Ll.
  reflexivity.
Defined.

(** X12 on the first epoch of the recurrent classifier. *)
Lemma X12_witness :
  exists tl ta vl va,
    hist (snd (epoch (H:=lib) a_rnn 0 (start a_rnn)))
    = mkHistory [PTensor tl] [PTensor ta]
    /\ val_hist (snd (epoch (H:=lib) a_rnn 0 (start a_rnn)))
       = mkHistory [PFloat vl] [PTensor va].
Proof.
  destruct (@X12_kinds_of_entries unit Z unit (nat * nat) lib a_rnn 0 (start a_rnn)
              (snd (epoch (H:=lib) a_rnn 0 (start a_rnn))) false)
    as (_ & tl & ta & vl & va & Eh & Ev).
  - vm_compute. reflexivity.
  - discriminate.
  - exists tl, ta, vl, va. split; [exact Eh | exact Ev].
Defined.

(** X13 on a run without early stopping, and on one without scheduler. *)
Lemma X13_witness :
  history_lengths (snd (run_train (H:=lib) a_rnn fresh tt)) 3
  /\ Forall not_scheduler (trace (snd (run_train (H:=lib) a_plain fresh tt))).
Proof.
  split.
  - destruct (@X13_unconfigured_collaborators unit Z unit (nat * nat) lib a_rnn fresh tt)
      as (X & _).
    destruct (X eq_refl) as (_ & _ & L). apply L. vm_compute. reflexivity.
  - destruct (@X13_unconfigured_collaborators unit Z unit (nat * nat) lib a_plain fresh tt)
      as (_ & X).
    apply X. reflexivity.
Defined.

(** X14 on the first epoch of a run with early stopping. *)
Lemma X14_witness :
  exists lv evs,
    trace (snd (epoch (H:=lib) a_stop 0 (start a_stop))) = trace (start a_stop) ++ evs
    /\ monitor_scores evs = [lv].
Proof.
  destruct (@X14_monitored_score unit Z unit (nat * nat) lib a_stop 0 (start a_stop)
              (snd (epoch (H:=lib) a_stop 0 (start a_stop))) false)
    as (m & ms' & n & lv & av & vh & s1 & s2 & ml & evs & _ & _ & _ & _ & Et & Em & _).
  - reflexivity.
  - vm_compute. reflexivity.
  - exists lv, evs. split; [exact Et | exact Em].
Defined.

(** X15 on a run that early stopping ends. *)
Lemma X15_witness :
  Forall mode_at (trace (snd (run_train (H:=lib) a_stop fresh tt)))
  /\ model_mode (snd (run_train (H:=lib) a_stop fresh tt)) = false.
Proof.
  destruct (@X15_modes unit Z unit (nat * nat) lib a_stop fresh tt eq_refl) as (F & X).
  split; [exact F|].
  destruct X as (_ & X); [vm_compute; reflexivity|].
  apply (X 1). apply (@nth_error_In _ _ 38). vm_compute. reflexivity.
Defined.
